(* ===== verification/_CoqProject ===== *)
-Q . S2P
Prelude.v
PyStr.v
Currency.v
Wallet.v
Prices.v
NumFormat.v
Locale.v
Html.v
Api.v
Handlers.v
Concurrency.v
OpenApi.v
JsonEq.v
AppConfig.v
Routing.v
Timer.v
Liveness.v
