(* ===== verification/Prelude.v ===== *)
(** * A verification development for ttv-gw2-overlays

    The repository is a small FastAPI service ([src/main.py], with the
    settings object of [src/config/__init__.py]).  It shows a Guild Wars 2
    player's gold, and optionally the market price of an item, as a
    streaming overlay.  Its parts, and how they interact:

    - [gold] ([GET /gold], main.py 75-194) and [gold_data]
      ([GET /gold_data], main.py 197-234) are the two request handlers.
      Each one fetches the wallet through the pygw2 client, keeps the
      entry of currency 1 (gold, in copper), divides by [100 * 100], reads
      the [accept-language] header, tries [locale.setlocale] on each
      language in turn, optionally fetches the item and its trading-post
      prices, and formats the two amounts with the [:n] format of the
      process-wide locale.  [gold] wraps them in an HTML page whose inline
      script polls [gold_data] every [interval] seconds.
    - The locale is the only state shared between requests.  The handlers
      are coroutines, and each [await] is a point where another request
      may run.
    - [custom_openapi] (main.py 25-56) post-processes the generated OpenAPI
      schema once and caches it in [app.openapi_schema].
    - [meta] (main.py 70-72) returns the version and build settings.
    - [settings = Settings()] (config/__init__.py) reads the environment
      when the module is imported; main.py 61-67 hand its [ORIGINS] to
      Starlette's CORS middleware, which answers cross-origin requests
      before they reach the handlers.
    - [app = FastAPI(root_path=settings.ROOT_PATH)] (main.py 12) and its
      decorators (main.py 70, 75, 197) build the route table; Starlette's
      router picks the handler, FastAPI binds its query parameters, and
      the middleware stack turns exceptions into responses.

    ** Files, in dependency order
    - [Prelude]: this header; the [overlay] hint databases; Python's
      exceptions as the [PyExc] type; the state-and-exception monad [PyM]
      that threads the process-wide locale through a handler.  On an
      exception the monad keeps the state already written, as Python does
      with a global.  The file also holds shared string and list lemmas
      and the [str_infix_search] tactic.
    - [PyStr]: Python's [str.split] with a one-character separator, its
      inverse [join], [str(int)] for [Z] with its parse, and string
      truthiness.
    - [Currency]: the copper-to-gold conversion [// (100 * 100)], Python's
      floor division on unbounded integers, with the floor contract.
    - [Wallet]: the wallet entries and [gold_obj[0].value // 10000],
      including the [IndexError] raised when the wallet has no gold entry
      (claims C3, C4).
    - [Prices]: the trading-post response (a [Price], a list of them, or
      another value) and the target resolution of main.py 105-112 and
      222-229.  The spec's contract for the target (sell price, else buy
      price, else fallback) is [spec_target], and the code is proved to
      refine it (C5-C8).
    - [NumFormat]: CPython's [format(n, "n")] for an int, the digits of
      [str(abs(n))] grouped by the locale's [grouping] and
      [thousands_sep] with CPython's group generator.  Claims: the
      round trip to [int] (C9) and the ungrouped C locale (C11).  With a
      uniform grouping the generator equals the reference formatter
      [insert_seps] (C33).  [group_rev_fuel] shows the fuel is enough.
    - [Locale]: the [accept-language] parsing and the [setlocale] loop of
      main.py 90-97.  The C library's [locale] module is the typeclass
      [LocaleLib]; the resolver's theorems hold for every instance
      (C12-C14).  [demo_lib] is a small instance used by the examples.
    - [Html]: the f-string templates of [gold] (body, params, css, js,
      page) line by line, the response models, the script's
      [updateText], and the query the script sends ([Poll]).
    - [Api]: the pygw2 client as the typeclass [GW2Api] of its three
      calls.
    - [Handlers]: [gold], [gold_data] and its query defaults.  The handlers are composed in source order
      over [PyM].  Two [Example]s check the rendered page byte for byte
      against Python's output for the same request.  Without an item
      the poll reproduces the page ([gold_poll_consistent_plain], lifted
      to the whole application in [Routing], C1).  Claims: with an item
      the poll's target falls back to 0 (C2); the error paths and their effect
      on the locale (C16, C17); [apikey] and [text] embedded unescaped
      (C18), and with an item the [item] parameter and the item's name
      ([gold_item_embeds_unescaped]).
    - [Concurrency]: the handlers as coroutines ([Coro]) split at their
      [await]s into atomic segments over the shared locale; [step]
      interleaves requests, [exec] follows a schedule.  Run alone, a
      coroutine is its handler ([gold_data_coro_run], [gold_coro_run]);
      under every interleaving the locale is one that [setlocale]
      accepted ([reachable_locale_ok], by rule induction).  Claims: a
      request without an item answers in its own locale under every
      interleaving, for the poll (C20) and for the page
      ([no_item_page_isolated]); a poll
      with an item formats in whatever locale the process is in when its
      last segment starts, after the price [await], which another
      request may have set (C21, with the race of [item_request_raced]
      as its witness; [item_page_current_locale] shows the same of the
      page, after its item and price [await]s); a request whose
      languages are all rejected formats, under every interleaving, in
      the locale the earlier requests left (C22).  Both C21 and C22 rest
      on [last_segment_answer]: a request whose only finishing segment is
      its last answers with the locale that segment starts from.
    - [OpenApi]: [custom_openapi] (main.py 25-56) on JSON values with
      Python's dict, [in], subscript and [.items()] semantics and their
      exceptions, and the [app.openapi_schema] cache.  Claims: required
      fields kept and the others marked nullable, in place (C23); the
      cache (C24); nothing cached after an exception (C25); idempotence
      (C26).  An [Example] shows that the pass changes nothing in this
      application's own schemas.
    - [JsonEq]: Python's [==] on JSON values ([json_equiv], stdpp's
      [≡]: dicts compared key by key in any order, [True == 1]), an
      equivalence with the executable check [json_eqb] proved sound.  The
      operations of the pass respect it.  The two loops over [.items()]
      are one generic loop [dict_map_res] over distinct keys ([json_wf]).
      Claim: on two equal well-formed schemas the pass raises on both or
      returns equal schemas on both (C10).  An [Example] shows that the
      exception can depend on the order of the keys.
    - [AppConfig]: [Settings()] from the environment, with pydantic's
      [list[AnyHttpUrl]] validation of [ORIGINS] (the validator and the
      JSON decoding of variables are the typeclass [SettingsLib]), [meta],
      and Starlette's [CORSMiddleware] as main.py 61-67 configure it,
      written out from Starlette's source.  Claims: [ORIGINS] holds [Url]
      objects (C30); therefore the middleware, which compares the
      request's [Origin] string with [in], allows no origin at all (C31);
      the errors of [Settings()] (C32).
    - [Routing]: the application as a whole.  The route table
      ([fastapi_default_routes], then [meta_route], [gold_route],
      [gold_data_route]), Starlette's [Router] ([route_scan],
      [router_dispatch], with the [get_route_path] of current Starlette
      releases), FastAPI's query binding ([bind_gold], [bind_gold_data]:
      the last value of a repeated key, every error collected into one
      422; on a poll it agrees with [Handlers.gold_data_query],
      [gold_data_query_bind]), and [app_call]: one request through [ServerErrorMiddleware],
      [CORSMiddleware], the exception middleware and the router, on the
      process state [AppState] (the locale and the schema cache).
      pydantic's [int] validation is the interface [IntValidator], of
      which only [str(n)] reading back as [n] is used.  Claims: the
      router's loop implements the first-match contract
      [route_first_match], a later full match beating an earlier
      path-only one, and on the application's own table each decorated
      path answers its handler for [GET] and 405 otherwise (C15); only the two handlers and the schema endpoint
      change the state, the handlers only when their parameters bind
      (C19); the
      page's poll, through the whole application, reproduces the page
      (C1); a [GET /gold] answers 200 with exactly the page its handler
      returns, or the bare 500 of [ServerErrorMiddleware] when the
      handler raises, an unknown item included (C27).  [Example]s: [HEAD /gold] is 405, a trailing slash
      redirects, a poll without [apikey] gets every error in one 422.
    - [Timer]: the page's [setInterval(updateText, {interval}*1000)]
      (main.py 179).  The [interval] parameter is an unbounded Python
      [int]; the browser converts the product to a WebIDL [long], a
      32-bit word of coqutil read as signed, and sets a negative timeout
      to 0.  Claim: the delay is [interval * 1000] ms only up to
      [interval = 2147483]; from 2147484 to 4294967, and from -2147483
      to 0, the page polls with no delay; the delay always lies in
      [[0, 2^31)] (C28).  An [Example] runs the whole application on
      such a request.
    - [Liveness]: each handler request is at most four segments.  Claim:
      every interleaving runs at most four segments per request (C29).
      The lemmas [step_terminates] and [round_robin_answers] follow.

    ** Not modelled
    - The HTML of FastAPI's documentation pages ([BDocs] stands for it),
      the [Allow] and [Vary] headers, and the scheme, host and query of a
      redirect's [location].
    - pydantic's URL parser.  It is the parameter [validate_http_url];
      [demo_validate] only illustrates it on the witnesses' inputs.  The
      CORS theorem holds for every validator, since it only uses the fact
      that a [Url] never equals a [str].
    - Starlette's [allow_origin_regex] and [expose_headers], which main.py
      does not pass.
    - pygw2's HTTP traffic.  Its results are the values of the interface,
      any of which may be an exception.  The servers are fixed during a
      run: only the locale changes between two segments of a request.
    - In the page's timer, the double rounding of [interval*1000] beyond
      [2^53] and the browser's clamp of nested timers to 4 ms.
    - The JavaScript and URL encoding of the polling query: [Poll] is what
      [URLSearchParams] sends when the string literals hold no quote,
      backslash or line break.
    - The C library's locale database.  It is the parameter [LocaleLib]:
      [normalize], the names [setlocale] accepts, and each locale's
      [localeconv] numeric conventions.

    ** Fuel and bounds
    - CPython's digit grouping loop consumes at least one digit per
      iteration, so the model runs it with fuel [length digits].
      [group_rev_fuel] shows that this fuel is enough: more fuel
      gives the same result.
    - Coroutines are finite chains of segments (at most four per
      request), so [run] is structural and needs no fuel.  [within]
      records the bound, and the sum of the bounds of the requests in
      flight is the measure that makes [step] terminate (C29).
    - Python ints are unbounded, so they are modelled as [Z], with no
      wrap-around.  The one fixed width is in the page's script:
      [setInterval]'s timeout is a 32-bit signed [long] ([Timer]).  The
      JavaScript product [interval*1000] is exact up to [2^53], which
      [poll_delay] checks; beyond it the model gives [None]. *)

From stdpp Require Export base list strings.
From Stdlib Require Export ZArith Lia.

Declare Scope overlay_scope.
Delimit Scope overlay_scope with ov.
Open Scope overlay_scope.

Create HintDb overlay discriminated.
Create Rewrite HintDb overlay_rw.

(** ** Python exceptions raised by the handlers *)

(** Failures of the pygw2 client, as the spec's taxonomy names them. *)
Inductive ApiError :=
  | ApiNotFound
  | ApiUnavailable
  | ApiInvalidKey.

(** The exceptions the code can raise: [KeyError] from a missing
    header or dict key, [IndexError] from indexing an empty list, the
    client's errors, FastAPI's rejection of a query parameter that does
    not parse (a 422 response), the [TypeError] and [AttributeError]
    of subscripting, [in] or [.items()] on a value of the wrong type,
    and pydantic's [ValidationError] and pydantic-settings'
    [SettingsError] for a settings field. *)
Inductive PyExc :=
  | KeyError (key : string)
  | IndexError
  | ApiException (e : ApiError)
  | RequestValidationError (param : string)
  | TypeError
  | AttributeError
  | ValidationError (field : string)
  | SettingsError (field : string).

#[export] Instance ApiError_eq_dec : EqDecision ApiError.
Proof. solve_decision. Defined.
#[export] Instance PyExc_eq_dec : EqDecision PyExc.
Proof. solve_decision. Defined.

(** A fallible pure computation: Python code that returns or raises. *)
Abbreviation PyResult A := (PyExc + A)%type.

(** [PyResult] is a monad: an exception skips the rest. *)
#[export] Instance pyresult_mret : MRet (sum PyExc) := λ A x, inr x.
#[export] Instance pyresult_mbind : MBind (sum PyExc) :=
  λ A B f m, match m with inl e => inl e | inr x => f x end.

(** [l[0]]: the first element, or [IndexError]. *)
Definition py_index0 {A} (l : list A) : PyResult A :=
  match l with
  | x :: _ => inr x
  | [] => inl IndexError
  end.

(** ** The state-and-exception monad

    [PyM S A] runs against the process-wide state [S].  An exception
    keeps the state written before it, as a Python global does. *)
Definition PyM (S A : Type) : Type := S → PyResult A * S.

Definition pym_ret {S A} (x : A) : PyM S A := λ s, (inr x, s).
Definition pym_bind {S A B} (f : A → PyM S B) (m : PyM S A) : PyM S B :=
  λ s, match m s with
       | (inl e, s') => (inl e, s')
       | (inr x, s') => f x s'
       end.
Definition pym_raise {S A} (e : PyExc) : PyM S A := λ s, (inl e, s).
Definition pym_get {S} : PyM S S := λ s, (inr s, s).
Definition pym_put {S} (s : S) : PyM S unit := λ _, (inr tt, s).
Definition pym_lift {S A} (r : PyResult A) : PyM S A := λ s, (r, s).

#[export] Instance pym_mret S : MRet (PyM S) := λ A, pym_ret.
#[export] Instance pym_mbind S : MBind (PyM S) := λ A B, pym_bind.

(** ** Strings *)

(** The double quote character, which string literals cannot spell here. *)
Definition dq : string := String (Ascii.ascii_of_nat 34) EmptyString.

(** The newline character. *)
Definition nl : string := String (Ascii.ascii_of_nat 10) EmptyString.

(** The lines of a text, each but the last followed by a newline: the
    layout of a Python triple-quoted string. *)
Fixpoint lines (ls : list string) : string :=
  match ls with
  | [] => EmptyString
  | [l] => l
  | l :: ls' => l +:+ nl +:+ lines ls'
  end.

(** [s] occurs in [t]. *)
Definition str_infix (s t : string) : Prop := ∃ a b, t = a +:+ s +:+ b.

(** stdpp makes [String.app] [simpl never]; this lemma unfolds one step. *)
Lemma string_app_cons x (a b : string) : String x a +:+ b = String x (a +:+ b).
Proof. done. Qed.

Lemma string_app_assoc (a b c : string) : (a +:+ b) +:+ c = a +:+ b +:+ c.
Proof. induction a as [|x a IH]; [done|exact (f_equal (String x) IH)]. Qed.

Lemma string_app_nil_r (a : string) : a +:+ "" = a.
Proof. induction a as [|x a IH]; [done|exact (f_equal (String x) IH)]. Qed.

Lemma string_app_nil_l (a : string) : "" +:+ a = a.
Proof. done. Qed.

Lemma str_infix_refl s : str_infix s s.
Proof. exists "", "". by rewrite string_app_nil_r. Qed.

Lemma str_infix_app_l s a t : str_infix s t → str_infix s (a +:+ t).
Proof.
  intros (x & y & ->). exists (a +:+ x), y. by rewrite !string_app_assoc.
Qed.

Lemma str_infix_app_r s t b : str_infix s t → str_infix s (t +:+ b).
Proof.
  intros (x & y & ->). exists x, (y +:+ b). by rewrite !string_app_assoc.
Qed.

Lemma str_infix_trans s t u : str_infix s t → str_infix t u → str_infix s u.
Proof.
  intros Hst (x & y & ->). by apply str_infix_app_l, str_infix_app_r.
Qed.

(** Find [s] as a subterm of an append tree. *)
Ltac str_infix_search :=
  solve [ apply str_infix_refl
        | apply str_infix_app_r; str_infix_search
        | apply str_infix_app_l; str_infix_search ].

#[export] Hint Resolve str_infix_refl str_infix_app_l str_infix_app_r : overlay.
#[export] Hint Rewrite string_app_cons string_app_assoc string_app_nil_r : overlay_rw.

(** ** Lists *)

(** Filtering with a predicate every element satisfies changes nothing. *)
Lemma filter_Forall_id {A} (P : A → Prop) `{∀ x, Decision (P x)} (l : list A) :
  Forall P l → filter P l = l.
Proof.
  induction 1 as [|x l Hx _ IH]; [done|]. by rewrite filter_cons_True, IH.
Qed.

(** ** Monad laws and the tactic that runs a [PyM] computation *)

Lemma pym_bind_ret_l {S A B} (x : A) (f : A → PyM S B) :
  pym_bind f (pym_ret x) = f x.
Proof. done. Qed.

Lemma pym_bind_assoc {S A B C} (m : PyM S A) (f : A → PyM S B) (g : B → PyM S C) s :
  pym_bind g (pym_bind f m) s = pym_bind (λ x, pym_bind g (f x)) m s.
Proof. unfold pym_bind. by destruct (m s) as [[e|x] s']. Qed.

Lemma pym_bind_raise {S A B} (e : PyExc) (f : A → PyM S B) s :
  pym_bind f (pym_raise e) s = (inl e, s).
Proof. done. Qed.

(** Unfold [PyResult]'s bind and return. *)
Ltac pyr_unfold := cbv [mbind mret pyresult_mbind pyresult_mret] in *.

(** Unfold the monad's plumbing so that a run reduces by [simpl]. *)
Ltac pym_unfold :=
  cbv [mbind mret pym_mbind pym_mret pym_bind pym_ret pym_raise pym_get
       pym_put pym_lift] in *.
