(* ===== verification/PyStr.v ===== *)
(** * Python string operations used by the handlers

    [str.split] with a one-character separator (main.py 90 and 210 call
    [split(",")] and [split(";")]), its inverse [str.join], and [str(int)],
    which writes [target] into the polling script (main.py 139) and
    [interval] into [setInterval] (main.py 179).  The string's characters
    are 8-bit [ascii] values. *)

From S2P Require Import Prelude.
From Stdlib Require Import Ascii DecimalString DecimalZ.

Module PyStr.

(** ** [s.split(c)] *)

(** The piece being read and the finished pieces after it. *)
Fixpoint split_aux (c : ascii) (s : string) : string * list string :=
  match s with
  | EmptyString => (EmptyString, [])
  | String a s' =>
      let '(cur, rest) := split_aux c s' in
      if decide (a = c) then (EmptyString, cur :: rest) else (String a cur, rest)
  end.

(** [s.split(c)]: never empty; [""] splits into [[""]]. *)
Definition split (c : ascii) (s : string) : list string :=
  let '(cur, rest) := split_aux c s in cur :: rest.

(** [c.join(l)]. *)
Fixpoint join (c : ascii) (l : list string) : string :=
  match l with
  | [] => EmptyString
  | [x] => x
  | x :: l' => x +:+ String c (join c l')
  end.

(** [c] occurs in [s]. *)
Fixpoint has_char (c : ascii) (s : string) : bool :=
  match s with
  | EmptyString => false
  | String a s' => bool_decide (a = c) || has_char c s'
  end.

(** Python truthiness of a [str]: [if item:] is false on [""]. *)
Definition truthy (s : string) : bool := bool_decide (s ≠ EmptyString).

(** ** [str(n)] and [int(s)] on decimal integers *)

(** [str(n)]: an optional minus sign and the decimal digits of [|n|]. *)
Definition str_of_Z (n : Z) : string := NilZero.string_of_int (Z.to_int n).

(** The parse of a canonical decimal literal, as FastAPI does for an
    [int] query parameter. *)
Definition int_of_str (s : string) : option Z :=
  Z.of_int <$> NilZero.int_of_string s.

(** ** Lemmas *)

Lemma split_cons_eq c s : split c (String c s) = EmptyString :: split c s.
Proof. unfold split. simpl. destruct (split_aux c s). by rewrite decide_True. Qed.

Lemma split_cons_ne c a s cur rest :
  a ≠ c → split c s = cur :: rest → split c (String a s) = String a cur :: rest.
Proof.
  unfold split. simpl. destruct (split_aux c s). intros ? [= -> ->].
  by rewrite decide_False.
Qed.

Lemma split_not_nil c s : split c s ≠ [].
Proof. unfold split. by destruct (split_aux c s). Qed.

(** Case analysis on [s.split(c)], which always has a first piece. *)
Ltac destruct_split c s cur rest E :=
  destruct (split c s) as [|cur rest] eqn:E; [by apply split_not_nil in E|].

Lemma join_cons_char c a x l : join c (String a x :: l) = String a (join c (x :: l)).
Proof. by destruct l. Qed.

Lemma join_cons2 c x y l : join c (x :: y :: l) = x +:+ String c (join c (y :: l)).
Proof. done. Qed.

(** Joining the pieces with the separator gives back the string. *)
Lemma join_split c s : join c (split c s) = s.
Proof.
  induction s as [|a s IH]; [done|].
  destruct (decide (a = c)) as [->|Hne].
  - rewrite split_cons_eq. destruct_split c s cur rest E. by rewrite join_cons2, IH.
  - destruct_split c s cur rest E.
    rewrite (split_cons_ne _ _ _ cur rest Hne E), join_cons_char. by rewrite IH.
Qed.

(** No piece contains the separator. *)
Lemma split_pieces_no_sep c s : Forall (λ p, has_char c p = false) (split c s).
Proof.
  induction s as [|a s IH]; [by repeat constructor|].
  destruct (decide (a = c)) as [->|Hne].
  - rewrite split_cons_eq. by constructor.
  - destruct_split c s cur rest E. rewrite (split_cons_ne _ _ _ cur rest Hne E).
    apply Forall_cons in IH as [Hcur Hrest]. constructor; [|done].
    simpl. rewrite Hcur, bool_decide_false; done.
Qed.

(** A string without the separator is one piece. *)
Lemma split_no_sep c s : has_char c s = false → split c s = [s].
Proof.
  induction s as [|a s IH]; [done|]. simpl. intros [Ha Hs]%orb_false_iff.
  apply bool_decide_eq_false in Ha. by apply (split_cons_ne _ _ _ s []), IH.
Qed.

Lemma to_int_not_nil n :
  Z.to_int n ≠ Decimal.Pos Decimal.Nil ∧ Z.to_int n ≠ Decimal.Neg Decimal.Nil.
Proof.
  split; intros E; pose proof (DecimalZ.of_to n) as H; rewrite E in H;
    simpl in H; subst n; discriminate.
Qed.

(** [int(str(n)) == n]. *)
Lemma int_of_str_of_Z n : int_of_str (str_of_Z n) = Some n.
Proof.
  unfold int_of_str, str_of_Z. destruct (to_int_not_nil n) as [H1 H2].
  rewrite (NilZero.isi _ H1 H2). simpl. by rewrite DecimalZ.of_to.
Qed.

End PyStr.

#[export] Hint Resolve PyStr.split_not_nil : overlay.
#[export] Hint Rewrite PyStr.join_split PyStr.int_of_str_of_Z : overlay_rw.
