(* ===== verification/Currency.v ===== *)
(** * Copper to gold

    [value // (100 * 100)] (main.py 88, 109, 112, 208, 226, 229): the
    game's currency counts copper, and a gold coin is worth 100 silver of
    100 copper each.  Python's [//] on ints is floor division, which is
    [Z.div] for a positive divisor. *)

From S2P Require Import Prelude.

Module Currency.

#[local] Open Scope Z_scope.

(** [100 * 100], as the source writes it. *)
Definition COPPER_PER_GOLD : Z := 100 * 100.

(** [copper // (100 * 100)]. *)
Definition to_gold (copper : Z) : Z := copper `div` COPPER_PER_GOLD.

(** The floor-division contract: [g] is the gold amount of [c] copper
    exactly when [g] whole coins fit in [c] and [g + 1] do not. *)
Definition is_floor_gold (c g : Z) : Prop :=
  COPPER_PER_GOLD * g ≤ c < COPPER_PER_GOLD * (g + 1).

Lemma to_gold_floor c : is_floor_gold c (to_gold c).
Proof.
  unfold is_floor_gold, to_gold, COPPER_PER_GOLD.
  pose proof (Z.mul_div_le c (100 * 100)) as H1.
  pose proof (Z.mod_pos_bound c (100 * 100)) as H2.
  pose proof (Z.div_mod c (100 * 100)) as H3. lia.
Qed.

Lemma is_floor_gold_unique c g1 g2 :
  is_floor_gold c g1 → is_floor_gold c g2 → g1 = g2.
Proof. unfold is_floor_gold, COPPER_PER_GOLD. lia. Qed.

Lemma to_gold_nonneg c : 0 ≤ c → 0 ≤ to_gold c.
Proof. intros. unfold to_gold, COPPER_PER_GOLD. apply Z.div_pos; lia. Qed.

Lemma to_gold_mono c1 c2 : c1 ≤ c2 → to_gold c1 ≤ to_gold c2.
Proof. intros. unfold to_gold, COPPER_PER_GOLD. apply Z.div_le_mono; lia. Qed.

Lemma to_gold_le c : 0 ≤ c → to_gold c ≤ c.
Proof. intros. unfold to_gold, COPPER_PER_GOLD. apply Z.div_le_upper_bound; lia. Qed.

Lemma to_gold_small c : 0 ≤ c < COPPER_PER_GOLD → to_gold c = 0.
Proof. intros. unfold to_gold. by apply Z.div_small. Qed.

Lemma to_gold_add_coins c k : to_gold (c + COPPER_PER_GOLD * k) = to_gold c + k.
Proof.
  unfold to_gold, COPPER_PER_GOLD. rewrite Z.mul_comm, Z.div_add; lia.
Qed.

End Currency.

#[export] Hint Resolve Currency.to_gold_nonneg Currency.to_gold_floor : overlay.
