(* ===== verification/Wallet.v ===== *)
(** * The wallet and the gold amount

    [wallet = await api.account.wallet()] returns the account's currency
    balances.  The handlers keep those of currency 1 (gold)
    ([gold_obj = [x for x in wallet if x.id == 1]], main.py 87 and 207) and
    convert the first one to gold ([gold_obj[0].value // (100 * 100)],
    main.py 88 and 208).  [gold_obj[0]] raises [IndexError] when the wallet
    has no gold entry. *)

From S2P Require Import Prelude Currency.

Module Wallet.

#[local] Open Scope Z_scope.

(** A pygw2 wallet entry: the currency id and the amount. *)
Record WalletEntry := mkWalletEntry { id : Z; value : Z }.

#[export] Instance WalletEntry_eq_dec : EqDecision WalletEntry.
Proof. solve_decision. Defined.

(** [[x for x in wallet if x.id == 1]]. *)
Definition gold_obj (wallet : list WalletEntry) : list WalletEntry :=
  filter (λ x, id x = 1) wallet.

(** [gold_obj[0].value // (100 * 100)]. *)
Definition gold_amount (wallet : list WalletEntry) : PyResult Z :=
  match py_index0 (gold_obj wallet) with
  | inl e => inl e
  | inr x => inr (Currency.to_gold (value x))
  end.

(** No entry of the wallet is gold. *)
Definition no_gold (wallet : list WalletEntry) : Prop := Forall (λ x, id x ≠ 1) wallet.

Lemma gold_obj_app l1 l2 : gold_obj (l1 ++ l2) = gold_obj l1 ++ gold_obj l2.
Proof. apply filter_app. Qed.

Lemma gold_obj_no_gold l : no_gold l ↔ gold_obj l = [].
Proof.
  unfold no_gold, gold_obj. induction l as [|x l IH]; [split; auto|].
  rewrite Forall_cons, filter_cons. case_decide; [naive_solver|rewrite <- IH; naive_solver].
Qed.

(** Entries of other currencies before the gold one do not matter. *)
Lemma gold_amount_skip pre w : no_gold pre → gold_amount (pre ++ w) = gold_amount w.
Proof.
  intros Hpre. unfold gold_amount. rewrite gold_obj_app.
  by apply gold_obj_no_gold in Hpre as ->.
Qed.

Lemma gold_amount_cons_gold x w : id x = 1 → gold_amount (x :: w) = inr (Currency.to_gold (value x)).
Proof. intros H. unfold gold_amount, gold_obj. by rewrite filter_cons_True. Qed.

Lemma gold_amount_cons_other x w : id x ≠ 1 → gold_amount (x :: w) = gold_amount w.
Proof. intros H. apply (gold_amount_skip [x]). by repeat constructor. Qed.

Lemma gold_amount_exc w e : gold_amount w = inl e → e = IndexError.
Proof. unfold gold_amount. by destruct (gold_obj w) as [|x ?]; intros [=]. Qed.

Lemma gold_amount_index_error w : gold_amount w = inl IndexError ↔ no_gold w.
Proof. rewrite gold_obj_no_gold. unfold gold_amount. destruct (gold_obj w); naive_solver. Qed.

(** ** Properties *)

(** C3: the handlers' gold amount is the floor of the first gold entry's
    copper value divided by 10000: the result is [g] exactly when the
    wallet is [pre ++ e :: post] with no gold entry in [pre], [e] of
    currency 1, and [g] whole gold coins fit in [e.value] copper while
    [g + 1] do not. *)
Theorem gold_amount_first (w : list WalletEntry) (g : Z) :
  gold_amount w = inr g ↔
  ∃ pre e post, w = pre ++ e :: post ∧ no_gold pre ∧ id e = 1 ∧
                Currency.is_floor_gold (value e) g.
Proof.
  split.
  - induction w as [|x w IH]; [done|]. intros Hg.
    destruct (decide (id x = 1)) as [Hx|Hx].
    + rewrite gold_amount_cons_gold in Hg by done. injection Hg as <-.
      exists [], x, w. split_and!; auto with overlay. by constructor.
    + rewrite gold_amount_cons_other in Hg by done.
      destruct (IH Hg) as (pre & e & post & -> & Hpre & He & Hfl).
      exists (x :: pre), e, post. split_and!; try done. by constructor.
  - intros (pre & e & post & -> & Hpre & He & Hfl).
    rewrite gold_amount_skip, gold_amount_cons_gold by done.
    f_equal. eauto using Currency.is_floor_gold_unique with overlay.
Qed.

(** C4: when the wallet has no gold entry the handlers fail with
    [IndexError] from [gold_obj[0]], and only then; no other exception
    comes from this step. *)
Theorem gold_amount_missing (w : list WalletEntry) :
  (gold_amount w = inl IndexError ↔ no_gold w) ∧
  (∀ e, gold_amount w = inl e → e = IndexError).
Proof.
  split; [apply gold_amount_index_error|apply gold_amount_exc].
Qed.

Example gold_amount_example :
  gold_amount [mkWalletEntry 2 500; mkWalletEntry 1 123456] = inr 12.
Proof. reflexivity. Qed.

End Wallet.
