(* ===== verification/Prices.v ===== *)
(** * Trading-post prices and the target amount

    When an item is given, the handlers fetch its prices
    ([api.commerce.prices(...)], main.py 101 and 220).  The response is a
    [Price], or a list of them, and the handlers keep the first element
    (main.py 105-106, 222-223).  The target then becomes the buy price
    in gold when there is one (main.py 108-109, 225-226), and the sell
    price overrides it (main.py 111-112, 228-229).  An [if] tests the
    price for truthiness, so a unit price of 0 counts as absent.

    The spec's contract for the target (§4.3) is [spec_target], on a
    normalised quote (§9).  [resolve_target_refines] proves that the code
    implements it. *)

From S2P Require Import Prelude Currency.

Module Prices.

#[local] Open Scope Z_scope.

(** pygw2's [PriceInfo]: the best order on one side of the market. *)
Record PriceInfo := mkPriceInfo { quantity : Z; unit_price : Z }.

(** pygw2's [Price]: the item id and both sides of the market, either of
    which may be [None]. *)
Record Price := mkPrice {
  price_id : Z;
  whitelisted : bool;
  buys : option PriceInfo;
  sells : option PriceInfo
}.

(** What [api.commerce.prices] may return: a [Price], a list, or some
    other value that fails the [isinstance(prices, Price)] tests. *)
Inductive PricesResp :=
  | RPrice (p : Price)
  | RList (l : list PricesResp)
  | ROther.

(** [if isinstance(prices, list): prices = prices[0]]. *)
Definition unwrap_list (r : PricesResp) : PyResult PricesResp :=
  match r with
  | RList l => py_index0 l
  | _ => inr r
  end.

(** [side and side.unit_price]: the unit price when the side exists and
    the price is truthy (non-zero). *)
Definition truthy_price (side : option PriceInfo) : option Z :=
  match side with
  | Some b => if decide (unit_price b = 0) then None else Some (unit_price b)
  | None => None
  end.

(** [if isinstance(prices, Price) and prices.buys and prices.buys.unit_price:
        target = prices.buys.unit_price // (100 * 100)]. *)
Definition apply_buys (r : PricesResp) (target : Z) : Z :=
  match r with
  | RPrice p =>
      match truthy_price (buys p) with
      | Some u => Currency.to_gold u
      | None => target
      end
  | _ => target
  end.

(** The same statement for [prices.sells], which runs second. *)
Definition apply_sells (r : PricesResp) (target : Z) : Z :=
  match r with
  | RPrice p =>
      match truthy_price (sells p) with
      | Some u => Currency.to_gold u
      | None => target
      end
  | _ => target
  end.

(** main.py 105-112 (and 222-229): the target after the price lookup,
    starting from the query's [target]. *)
Definition resolve_target (prices : PricesResp) (target : Z) : PyResult Z :=
  match unwrap_list prices with
  | inl e => inl e
  | inr p => inr (apply_sells p (apply_buys p target))
  end.

(** ** The spec's contract *)

(** A normalised quote (spec §3 [PriceQuote]). *)
Record Quote := mkQuote { q_buy : option Z; q_sell : option Z }.

(** Spec §4.3: the sell price when present, else the buy price, else the
    fallback, each in gold. *)
Definition spec_target (q : option Quote) (fallback : Z) : Z :=
  match q with
  | None => fallback
  | Some q =>
      match q_sell q, q_buy q with
      | Some s, _ => Currency.to_gold s
      | None, Some b => Currency.to_gold b
      | None, None => fallback
      end
  end.

(** The quote the code sees: the first element of a list, the two truthy
    prices of a [Price], no quote for another value. *)
Definition quote_of (r : PricesResp) : PyResult (option Quote) :=
  match unwrap_list r with
  | inl e => inl e
  | inr (RPrice p) => inr (Some (mkQuote (truthy_price (buys p)) (truthy_price (sells p))))
  | inr _ => inr None
  end.

(** ** Lemmas *)

Lemma truthy_price_some side u :
  truthy_price side = Some u ↔ ∃ b, side = Some b ∧ unit_price b = u ∧ u ≠ 0.
Proof.
  destruct side as [b|]; simpl; [|naive_solver].
  case_decide; split; intros; naive_solver.
Qed.

Lemma resolve_target_price p t :
  resolve_target (RPrice p) t = inr (apply_sells (RPrice p) (apply_buys (RPrice p) t)).
Proof. done. Qed.

Lemma resolve_target_list x rest t : resolve_target (RList (x :: rest)) t =
  inr (apply_sells x (apply_buys x t)).
Proof. done. Qed.

(** Whether the lookup raises does not depend on the fallback. *)
Lemma resolve_target_ok_any r t t' t1 :
  resolve_target r t = inr t1 → ∃ t0, resolve_target r t' = inr t0.
Proof. unfold resolve_target. destruct (unwrap_list r); [done|by eexists]. Qed.

(** ** Properties *)

(** C5: the code refines the spec's contract: the target the handlers
    compute is [spec_target] of the quote they see, and both fail with
    the same exception. *)
Theorem resolve_target_refines (r : PricesResp) (t : Z) :
  resolve_target r t =
  match quote_of r with
  | inl e => inl e
  | inr q => inr (spec_target q t)
  end.
Proof.
  unfold resolve_target, quote_of.
  destruct (unwrap_list r) as [e|[p| |]]; [done| |done|done].
  simpl. by destruct (truthy_price (sells p)), (truthy_price (buys p)).
Qed.

(** C6: on a [Price] the sell side decides when its unit price is
    non-zero, whatever the buy side and the query's target; a sell side
    that is missing or at 0 counts as absent, and then a non-zero buy
    price decides; when both sides are missing or at 0, and for a
    response that is not a [Price], the query's target is kept.  Each
    price is converted with [// 10000]. *)
Theorem resolve_target_cases (p : Price) (t : Z) :
  (∀ s, sells p = Some s → unit_price s ≠ 0 →
        resolve_target (RPrice p) t = inr (Currency.to_gold (unit_price s))) ∧
  (∀ b, buys p = Some b → unit_price b ≠ 0 → (∀ s, sells p = Some s → unit_price s = 0) →
        resolve_target (RPrice p) t = inr (Currency.to_gold (unit_price b))) ∧
  ((∀ b, buys p = Some b → unit_price b = 0) → (∀ s, sells p = Some s → unit_price s = 0) →
        resolve_target (RPrice p) t = inr t) ∧
  resolve_target ROther t = inr t.
Proof.
  rewrite resolve_target_price. simpl. split_and!; [| | |done].
  - intros s Hs Hs0. rewrite Hs. simpl. by rewrite decide_False.
  - intros b Hb Hb0 Hs. rewrite Hb. simpl. rewrite decide_False by done.
    destruct (sells p) as [s|]; simpl; [|done]. by rewrite decide_True by auto.
  - intros Hb Hs. destruct (buys p) as [b|], (sells p) as [s|]; simpl;
      rewrite ?decide_True by auto; done.
Qed.

(** C7: only the first element of a list response is used: a list
    [x :: rest] gives the same target as [x] alone, whenever [x] is not
    itself a list. *)
Theorem resolve_target_first (x : PricesResp) (rest : list PricesResp) (t : Z) :
  (∀ l, x ≠ RList l) →
  resolve_target (RList (x :: rest)) t = resolve_target x t.
Proof.
  intros Hx. rewrite resolve_target_list. unfold resolve_target.
  destruct x as [p|l|]; [done|by destruct (Hx l)|done].
Qed.

(** C8: the target resolution fails exactly on an empty list response,
    and then with [IndexError] from [prices[0]], whatever the fallback;
    the spec's normalisation (§9) would take it as no quote and keep the
    fallback ([spec_target None t = t]). *)
Theorem resolve_target_error (r : PricesResp) (t : Z) (e : PyExc) :
  resolve_target r t = inl e ↔ r = RList [] ∧ e = IndexError.
Proof.
  unfold resolve_target, unwrap_list. split.
  - destruct r as [p|[|x l]|]; simpl; intros He; by simplify_eq.
  - by intros [-> ->].
Qed.

Example resolve_target_spec_example :
  resolve_target (RPrice (mkPrice 19976 true (Some (mkPriceInfo 5 50000))
                                    (Some (mkPriceInfo 3 80000)))) 0 = inr 8 ∧
  resolve_target (RPrice (mkPrice 19976 true (Some (mkPriceInfo 5 200000))
                                    (Some (mkPriceInfo 0 0)))) 0 = inr 20.
Proof. split; reflexivity. Qed.

(** ** Witnesses *)

Definition demo_price : Price :=
  mkPrice 19976 true (Some (mkPriceInfo 5 50000)) (Some (mkPriceInfo 3 80000)).

Lemma resolve_target_cases_witness :
  resolve_target (RPrice demo_price) 0 = inr (Currency.to_gold 80000) ∧
  resolve_target (RPrice (mkPrice 19976 true (Some (mkPriceInfo 5 200000)) (Some (mkPriceInfo 0 0)))) 0
    = inr (Currency.to_gold 200000) ∧
  resolve_target (RPrice (mkPrice 24 false None (Some (mkPriceInfo 0 0)))) 7 = inr 7.
Proof.
  split_and!.
  - apply (proj1 (resolve_target_cases demo_price 0) (mkPriceInfo 3 80000)); [reflexivity|simpl; lia].
  - apply (proj1 (proj2 (resolve_target_cases _ 0)) (mkPriceInfo 5 200000)); [reflexivity|simpl; lia|].
    intros s [= <-]. reflexivity.
  - apply (proj1 (proj2 (proj2 (resolve_target_cases _ 7)))); [intros b [=]|intros s [= <-]; reflexivity].
Defined.

Lemma resolve_target_first_witness :
  resolve_target (RList [RPrice demo_price; ROther]) 0 = resolve_target (RPrice demo_price) 0.
Proof. apply resolve_target_first. intros l. discriminate. Defined.

End Prices.
