(* ===== verification/NumFormat.v ===== *)
(** * Locale-aware integer formatting: [f"{n:n}"]

    main.py 116, 132, 232 and 233 format the gold amount and the target
    with the [n] presentation type.  For an [int], CPython writes the
    decimal digits of [abs(n)] and inserts the current locale's
    [thousands_sep] between the groups that [localeconv()]'s [grouping]
    describes.  It walks the digits from the right with the
    [GroupGenerator] of [Objects/stringlib/localeutil.h], and a [-] comes
    first for a negative number.  This is CPython library code, not code of
    the repository: it is modelled from CPython's algorithm.

    [grouping] is the C string of group sizes without its NUL terminator.
    At the terminator (or at a 0 byte) the generator repeats the previous
    size.  At [CHAR_MAX] it stops, and the remaining digits form one
    group. *)

From S2P Require Import Prelude PyStr.
From Stdlib Require Import Ascii.

Module NumFormat.

(** The numeric conventions [localeconv()] reports for a locale. *)
Record LocaleConv := mkConv { thousands_sep : string; grouping : list nat }.

(** [CHAR_MAX] of a signed [char]. *)
Definition CHAR_MAX : nat := 127.

(** [GroupGenerator_next]: the next group size (0 stops the loop), the
    rest of the grouping string, and the new [previous]. *)
Definition group_next (g : list nat) (previous : nat) : nat * list nat * nat :=
  match g with
  | [] => (previous, g, previous)
  | ch :: g' =>
      if decide (ch = 0%nat) then (previous, g, previous)
      else if decide (ch = CHAR_MAX) then (0%nat, g, previous)
      else (ch, g', ch)
  end.

(** The grouping loop of [_PyUnicode_InsertThousandsGrouping] on the
    digits [ds], least significant first: the groups, least significant
    first, each with its digits reversed.  Every iteration takes at least
    one digit, so [length ds] is enough fuel ([group_rev_fuel]). *)
Fixpoint group_rev (fuel : nat) (g : list nat) (prev : nat) (ds : list ascii)
    : list (list ascii) :=
  match fuel with
  | O => [ds]
  | S fuel' =>
      let '(l, g', prev') := group_next g prev in
      if decide (l = 0%nat) then [ds]
      else
        match drop l ds with
        | [] => [take l ds]
        | rest => take l ds :: group_rev fuel' g' prev' rest
        end
  end.

(** [sep.join(groups)] on character lists. *)
Fixpoint sep_join (sep : list ascii) (gs : list (list ascii)) : list ascii :=
  match gs with
  | [] => []
  | [x] => x
  | x :: gs' => x ++ sep ++ sep_join sep gs'
  end.

(** The digits of [str(abs(n))]. *)
Definition digits_of (n : Z) : list ascii :=
  String.list_ascii_of_string (PyStr.str_of_Z (Z.abs n)).

(** The grouped digits, most significant group first. *)
Definition grouped (conv : LocaleConv) (ds : list ascii) : list (list ascii) :=
  rev (map (λ gr, rev gr) (group_rev (length ds) (grouping conv) 0 (rev ds))).

(** [format(n, "n")] in the locale whose conventions are [conv]. *)
Definition format_n (conv : LocaleConv) (n : Z) : string :=
  String.string_of_list_ascii
    ((if decide (n < 0)%Z then ["-"%char] else []) ++
     sep_join (String.list_ascii_of_string (thousands_sep conv)) (grouped conv (digits_of n))).

(** The reference formatter: the digits with [sep] before every digit
    that has a positive multiple of [k] digits after it. *)
Fixpoint insert_seps (sep : list ascii) (k : nat) (ds : list ascii) : list ascii :=
  match ds with
  | [] => []
  | d :: ds' =>
      d :: (if decide (ds' ≠ [] ∧ length ds' `mod` k = 0)%nat then sep else []) ++ insert_seps sep k ds'
  end.

(** The [C] locale, which Python starts in: no separator, no grouping. *)
Definition conv_C : LocaleConv := mkConv "" [].
(** [en_US.UTF-8]: [","], groups of 3. *)
Definition conv_en_US : LocaleConv := mkConv "," [3%nat; 3%nat].
(** [de_DE.UTF-8]: ["."], groups of 3. *)
Definition conv_de_DE : LocaleConv := mkConv "." [3%nat; 3%nat].
(** [en_IN]: [","], a group of 3 then groups of 2. *)
Definition conv_en_IN : LocaleConv := mkConv "," [3%nat; 2%nat].

(** ** The grouping loop *)

(** One step of the loop, when the generator gives [l > 0]. *)
Lemma group_rev_step fuel g p ds l g' p' :
  group_next g p = (l, g', p') → l ≠ 0%nat →
  group_rev (S fuel) g p ds =
    match drop l ds with
    | [] => [take l ds]
    | rest => take l ds :: group_rev fuel g' p' rest
    end.
Proof. intros Hn Hl. simpl. rewrite Hn. by rewrite decide_False. Qed.

Lemma group_rev_stop fuel g p ds g' p' :
  group_next g p = (0%nat, g', p') → group_rev fuel g p ds = [ds].
Proof. intros Hn. destruct fuel; simpl; [done|]. by rewrite Hn. Qed.

(** The groups are the digits, cut into pieces. *)
Lemma group_rev_concat fuel g p ds : concat (group_rev fuel g p ds) = ds.
Proof.
  revert g p ds. induction fuel as [|fuel IH]; intros g p ds; simpl; [apply app_nil_r|].
  destruct (group_next g p) as [[l g'] p']. case_decide; [apply app_nil_r|].
  pose proof (take_drop l ds) as Htd.
  destruct (drop l ds) as [|d rest] eqn:Hd; simpl.
  - rewrite ?Hd, !app_nil_r in *. done.
  - rewrite IH. rewrite ?Hd in Htd. done.
Qed.

Lemma group_rev_nil fuel g p : group_rev fuel g p [] = [[]].
Proof.
  destruct fuel; simpl; [done|]. destruct (group_next g p) as [[l g'] p'].
  case_decide; [done|]. by rewrite drop_nil, take_nil.
Qed.

Lemma drop_nonempty_length {A} (l : list A) n x rest :
  drop n l = x :: rest → n ≠ 0%nat → length (x :: rest) < length l.
Proof.
  intros Hd Hn. rewrite <- Hd, length_drop.
  assert (length (drop n l) ≠ 0%nat) by (rewrite Hd; done).
  rewrite length_drop in *. lia.
Qed.

(** ** Digits and the sign *)

(** An ASCII decimal digit. *)
Definition is_digit (c : ascii) : bool :=
  bool_decide (48 ≤ nat_of_ascii c ≤ 57)%nat.

(** The characters a reader keeps to read the number back. *)
Definition is_num_char (c : ascii) : bool := bool_decide (c = "-"%char) || is_digit c.

(** The string without its separators. *)
Definition keep_num (s : string) : string :=
  String.string_of_list_ascii (filter (λ c, is_num_char c = true) (String.list_ascii_of_string s)).

Lemma uint_digits d :
  Forall (λ c, is_num_char c = true)
    (String.list_ascii_of_string (DecimalString.NilEmpty.string_of_uint d)).
Proof. induction d; simpl; constructor; done. Qed.

Lemma digits_of_num n : Forall (λ c, is_num_char c = true) (digits_of n).
Proof.
  unfold digits_of, PyStr.str_of_Z. destruct n as [|p|p]; simpl; [by repeat constructor| |];
    destruct (Pos.to_uint p) eqn:E; try apply uint_digits;
    pose proof (DecimalPos.Unsigned.to_uint_nonnil p) as H; by rewrite E in H.
Qed.

Lemma str_of_Z_sign n :
  String.list_ascii_of_string (PyStr.str_of_Z n) =
  (if decide (n < 0)%Z then ["-"%char] else []) ++ digits_of n.
Proof. unfold digits_of. destruct n as [|p|p]; done. Qed.

Lemma filter_sep_join (P : ascii → Prop) `{∀ c, Decision (P c)} sep gs :
  filter P sep = [] → filter P (sep_join sep gs) = filter P (concat gs).
Proof.
  intros Hsep. induction gs as [|x [|y gs] IH]; [done|by simpl; rewrite app_nil_r|].
  change (sep_join sep (x :: y :: gs)) with (x ++ sep ++ sep_join sep (y :: gs)).
  change (concat (x :: y :: gs)) with (x ++ concat (y :: gs)).
  by rewrite !filter_app, Hsep, IH.
Qed.

Lemma concat_rev_map_rev {A} (G : list (list A)) :
  concat (rev (map (λ gr, rev gr) G)) = rev (concat G).
Proof.
  induction G as [|x G IH]; [done|]. simpl.
  by rewrite concat_app, IH, rev_app_distr; simpl; rewrite app_nil_r.
Qed.

Lemma concat_grouped conv ds : concat (grouped conv ds) = ds.
Proof. unfold grouped. by rewrite concat_rev_map_rev, group_rev_concat, rev_involutive. Qed.

(** A grouping string that asks for groups of [k] from here on: [k]s
    still to read, or the terminator with [k] as the previous size. *)
Definition uniform (k : nat) (g : list nat) (p : nat) : Prop :=
  (g ≠ [] ∧ Forall (λ h, h = k) g) ∨ (g = [] ∧ p = k).

Lemma group_next_uniform k g p :
  uniform k g p → k ≠ 0%nat → k ≠ CHAR_MAX →
  ∃ g' p', group_next g p = (k, g', p') ∧ uniform k g' p'.
Proof.
  intros [[Hg Hall]|[-> ->]] Hk0 Hkm; [|exists [], k; split; [done|by right]].
  destruct g as [|h g']; [done|]. apply Forall_cons in Hall as [-> Hall].
  exists g', k. simpl. rewrite !decide_False by done. split; [done|].
  destruct g'; [by right|left; split; done].
Qed.

Lemma group_rev_uniform k fuel g p ds :
  uniform k g p → k ≠ 0%nat → k ≠ CHAR_MAX → ds ≠ [] → (length ds ≤ fuel)%nat →
  ∃ G last, group_rev fuel g p ds = G ++ [last] ∧
            Forall (λ gr, length gr = k) G ∧ (1 ≤ length last ≤ k)%nat.
Proof.
  intros Hu Hk0 Hkm. revert g p ds Hu. induction fuel as [|fuel IH]; intros g p ds Hu Hds Hlen.
  { destruct ds; [done|simpl in Hlen; lia]. }
  destruct (group_next_uniform k g p Hu Hk0 Hkm) as (g' & p' & Hn & Hu').
  rewrite (group_rev_step fuel g p ds k g' p' Hn Hk0).
  destruct (drop k ds) as [|d rest] eqn:Hd.
  - exists [], (take k ds). split; [done|split; [done|]].
    assert (length (drop k ds) = 0%nat) as Hl by (by rewrite Hd).
    rewrite length_drop in Hl. rewrite length_take.
    destruct ds; [done|simpl in *; lia].
  - pose proof (drop_nonempty_length ds k d rest Hd Hk0) as Hlt.
    destruct (IH g' p' (d :: rest) Hu' ltac:(done) ltac:(simpl in *; lia))
      as (G & last & -> & HG & Hlast).
    exists (take k ds :: G), last. split; [done|split; [|done]].
    constructor; [|done]. pose proof (length_drop ds k) as Hl. rewrite Hd in Hl.
    rewrite length_take. simpl in *; lia.
Qed.

(** The shape of the groups under a uniform grouping of [k]. *)
Lemma grouped_uniform (conv : LocaleConv) (k : nat) (ds : list ascii) :
  grouping conv ≠ [] → Forall (λ h, h = k) (grouping conv) →
  k ≠ 0%nat → k ≠ CHAR_MAX → ds ≠ [] →
  ∃ first rest, grouped conv ds = first :: rest ∧
    (1 ≤ length first ≤ k)%nat ∧ Forall (λ gr, length gr = k) rest.
Proof.
  intros Hg Hall Hk0 Hkm Hds.
  destruct (group_rev_uniform k (length ds) (grouping conv) 0 (rev ds))
    as (G & last & HG & Hsz & Hlast); [by left|done|done|by destruct ds using rev_ind; [|rewrite rev_unit]|by rewrite length_rev|].
  exists (rev last), (rev (map (λ gr, rev gr) G)). unfold grouped. rewrite HG.
  rewrite map_app, rev_app_distr. split; [done|]. rewrite length_rev. split; [done|].
  apply Forall_rev, Forall_map. eapply Forall_impl; [done|]. intros gr Hgr. by rewrite length_rev.
Qed.

Lemma digits_of_nonempty n : digits_of n ≠ [].
Proof.
  unfold digits_of, PyStr.str_of_Z. destruct n as [|p|p]; simpl; [done| |];
    destruct (Pos.to_uint p) eqn:E; try done;
    pose proof (DecimalPos.Unsigned.to_uint_nonnil p) as H; by rewrite E in H.
Qed.

Lemma length_concat_uniform {A} k (G : list (list A)) :
  Forall (λ gr, length gr = k) G → length (concat G) = (k * length G)%nat.
Proof. induction 1 as [|gr G Hgr _ IH]; simpl; [lia|]. rewrite length_app, IH. lia. Qed.

(** A leading group of 1 to [k] digits before a multiple of [k] digits. *)
Lemma insert_seps_group sep k (g rest : list ascii) m :
  (1 ≤ length g ≤ k)%nat → length rest = (k * m)%nat →
  insert_seps sep k (g ++ rest) = g ++ (if decide (rest = []) then [] else sep) ++ insert_seps sep k rest.
Proof.
  intros Hg Hr. induction g as [|d g IH]; [simpl in Hg; lia|].
  destruct g as [|d' g].
  - simpl. f_equal. f_equal. rewrite Hr, Nat.mul_comm, Nat.Div0.mod_mul.
    by repeat case_decide; naive_solver.
  - simpl in *. rewrite decide_False; [by rewrite IH by lia|].
    intros [_ Hmod]. rewrite length_app, Hr, <- Nat.add_succ_l, (Nat.mul_comm k m), Nat.Div0.mod_add,
      Nat.mod_small in Hmod;
      simpl in *; lia.
Qed.

Lemma sep_join_insert_seps sep k first G :
  (1 ≤ length first ≤ k)%nat → Forall (λ gr, length gr = k) G →
  sep_join sep (first :: G) = insert_seps sep k (concat (first :: G)).
Proof.
  intros Hf HG. revert first Hf. induction HG as [|g G Hg HG IH]; intros first Hf.
  - pose proof (insert_seps_group sep k first [] 0 Hf ltac:(simpl; lia)) as H.
    rewrite app_nil_r, decide_True, !app_nil_r in H by done. simpl. by rewrite app_nil_r, H.
  - change (concat (first :: g :: G)) with (first ++ concat (g :: G)).
    rewrite (insert_seps_group sep k first _ (length (g :: G))) by
      (done || apply length_concat_uniform; by constructor).
    rewrite decide_False by (destruct g; simpl in *; [lia|done]).
    rewrite <- IH by lia. done.
Qed.

(** ** Properties *)

(** CPython's grouping loop needs no more iterations than there are
    digits: with at least [length ds] fuel the result does not depend on
    the fuel, so [format_n]'s fuel never cuts the loop short. *)
Theorem group_rev_fuel (f1 f2 : nat) (g : list nat) (p : nat) (ds : list ascii) :
  (length ds ≤ f1)%nat → (length ds ≤ f2)%nat →
  group_rev f1 g p ds = group_rev f2 g p ds.
Proof.
  revert f2 g p ds. induction f1 as [|f1 IH]; intros f2 g p ds H1 H2.
  - destruct ds; [by rewrite !group_rev_nil|simpl in H1; lia].
  - destruct f2 as [|f2]; [destruct ds; [by rewrite !group_rev_nil|simpl in H2; lia]|].
    simpl. destruct (group_next g p) as [[l g'] p']. case_decide; [done|].
    destruct (drop l ds) as [|d rest] eqn:Hd; [done|].
    pose proof (drop_nonempty_length ds l d rest Hd) as Hlt.
    f_equal. apply IH; simpl in *; lia.
Qed.

(** C9: the formatted number reads back: dropping the separators from
    [f"{n:n}"] gives [str(n)], so [int] of it is [n], in every locale
    whose [thousands_sep] has no digit and no minus sign. *)
Theorem format_n_roundtrip (conv : LocaleConv) (n : Z) :
  filter (λ c, is_num_char c = true) (String.list_ascii_of_string (thousands_sep conv)) = [] →
  keep_num (format_n conv n) = PyStr.str_of_Z n ∧
  PyStr.int_of_str (keep_num (format_n conv n)) = Some n.
Proof.
  intros Hsep.
  assert (keep_num (format_n conv n) = PyStr.str_of_Z n) as ->; [|split; [done|apply PyStr.int_of_str_of_Z]].
  unfold keep_num, format_n. rewrite String.list_ascii_of_string_of_list_ascii, filter_app,
    filter_sep_join, concat_grouped by done.
  rewrite (filter_Forall_id _ _ (digits_of_num n)).
  rewrite <- (String.string_of_list_ascii_of_string (PyStr.str_of_Z n)), str_of_Z_sign.
  by case_decide.
Qed.

(** C11: without grouping (the [C] locale that Python starts in, or a
    grouping that starts with [CHAR_MAX]), [f"{n:n}"] is [str(n)]. *)
Theorem format_n_no_grouping (conv : LocaleConv) (n : Z) :
  (grouping conv = [] ∨ head (grouping conv) = Some CHAR_MAX) →
  format_n conv n = PyStr.str_of_Z n.
Proof.
  intros Hg. assert (∀ ds, grouped conv ds = [ds]) as Hgr.
  { intros ds. unfold grouped.
    rewrite (group_rev_stop _ _ _ _ (grouping conv) 0); [simpl; by rewrite rev_involutive|].
    destruct Hg as [->|Hh]; [done|]. destruct (grouping conv) as [|h g]; [done|].
    injection Hh as ->. done. }
  unfold format_n. rewrite Hgr. simpl.
  by rewrite <- str_of_Z_sign, String.string_of_list_ascii_of_string.
Qed.

(** C33: with a uniform grouping of [k] digits (3 in the locales that
    group thousands), CPython's [GroupGenerator] loop is the reference
    formatter: [f"{n:n}"] is the sign and then the digits of [abs(n)]
    with the locale's separator before every digit that has a positive
    multiple of [k] digits after it. *)
Theorem format_n_insert_seps (conv : LocaleConv) (k : nat) (n : Z) :
  grouping conv ≠ [] → Forall (λ h, h = k) (grouping conv) → k ≠ 0%nat → k ≠ CHAR_MAX →
  format_n conv n =
    String.string_of_list_ascii
      ((if decide (n < 0)%Z then ["-"%char] else []) ++
       insert_seps (String.list_ascii_of_string (thousands_sep conv)) k (digits_of n)).
Proof.
  intros Hg Hall Hk0 Hkm.
  destruct (grouped_uniform conv k (digits_of n) Hg Hall Hk0 Hkm (digits_of_nonempty n))
    as (first & rest & Hgr & Hf & Hr).
  unfold format_n. rewrite Hgr, (sep_join_insert_seps _ k) by done.
  by rewrite <- Hgr, concat_grouped.
Qed.

(** ** Witnesses *)

Lemma group_rev_fuel_witness :
  group_rev 7 [3%nat] 0 (rev (digits_of 1234567)) = group_rev 9 [3%nat] 0 (rev (digits_of 1234567)).
Proof. apply group_rev_fuel; vm_compute; lia. Defined.

Lemma format_n_roundtrip_witness :
  keep_num (format_n conv_en_US (-1234567)) = PyStr.str_of_Z (-1234567) ∧
  PyStr.int_of_str (keep_num (format_n conv_en_US (-1234567))) = Some (-1234567)%Z.
Proof. apply format_n_roundtrip. vm_compute. reflexivity. Defined.

Lemma format_n_no_grouping_witness : format_n conv_C 1234567 = PyStr.str_of_Z 1234567.
Proof. apply format_n_no_grouping. left. reflexivity. Defined.

Lemma format_n_insert_seps_witness :
  format_n conv_de_DE (-1234567) =
  String.string_of_list_ascii (["-"%char] ++ insert_seps ["."%char] 3 (digits_of (-1234567))).
Proof. apply (format_n_insert_seps conv_de_DE 3); [discriminate|repeat constructor|lia|vm_compute; lia]. Defined.

Example format_n_examples :
  format_n conv_en_US 1234567 = "1,234,567" ∧ format_n conv_en_US (-1234) = "-1,234" ∧
  format_n conv_de_DE 1000 = "1.000" ∧ format_n conv_C 1234567 = "1234567" ∧
  format_n conv_en_IN 1234567 = "12,34,567" ∧ format_n conv_en_US 999 = "999".
Proof. vm_compute. repeat split. Qed.

End NumFormat.
