(* ===== verification/Locale.v ===== *)
(** * Locale negotiation: main.py 90-97 (and 210-217)

    The handler reads [request.headers["accept-language"]], which raises
    [KeyError] when the header is missing.  It splits the value on [","],
    keeps each piece's text before [";"] (the quality weight is
    dropped), and calls [locale.setlocale(locale.LC_ALL,
    locale.normalize(language))] on each language in order.  The loop
    stops at the first call that succeeds and ignores every failure.  The
    locale it sets is process-wide: it is the state of [PyM].

    The C library's locale support is the interface [LocaleLib]:
    [normalize], [setlocale] ([None] is [locale.Error]) and the numeric
    conventions ([localeconv]) of a locale.  The theorems hold for every
    instance. *)

From S2P Require Import Prelude PyStr NumFormat.
From Stdlib Require Import Ascii.

Module Locale.

(** What Python's [locale] module offers on top of the C library. *)
Class LocaleLib := {
  (** [locale.normalize(name)] *)
  normalize : string → string;
  (** [locale.setlocale(LC_ALL, name)]: the new locale, or [None] when
      it raises [locale.Error] *)
  setlocale : string → option string;
  (** [localeconv()]'s numeric fields in a locale *)
  localeconv : string → NumFormat.LocaleConv
}.

(** The locale of a fresh Python process. *)
Definition initial_locale : string := "C".

(** Request headers as the ASGI server hands them over: (name, value)
    pairs with lower-case names, in arrival order. *)
Definition Headers := list (string * string).

(** Starlette's [Headers.__getitem__]: the first value under the name,
    or [KeyError]. *)
Fixpoint header_get (hs : Headers) (key : string) : PyResult string :=
  match hs with
  | [] => inl (KeyError key)
  | (k, v) :: hs' => if decide (k = key) then inr v else header_get hs' key
  end.

(** [[x.split(";")[0] for x in header.split(",")]]. *)
Fixpoint first_pieces (xs : list string) : PyResult (list string) :=
  match xs with
  | [] => inr []
  | x :: xs' =>
      match py_index0 (PyStr.split ";"%char x) with
      | inl e => inl e
      | inr l =>
          match first_pieces xs' with
          | inl e => inl e
          | inr ls => inr (l :: ls)
          end
      end
  end.

Definition parse_languages (header : string) : PyResult (list string) :=
  first_pieces (PyStr.split ","%char header).

(** The languages of a header, which [parse_languages] always returns. *)
Definition lang_list (header : string) : list string :=
  map (λ x, default "" (head (PyStr.split ";"%char x))) (PyStr.split ","%char header).

Lemma header_get_exc hs key e : header_get hs key = inl e → e = KeyError key.
Proof.
  induction hs as [|[k v] hs IH]; simpl; [congruence|]. case_decide; [done|auto].
Qed.

Section WithLib.
Context `{L : LocaleLib}.

(** The [for ... try ... break ... except: pass] loop, from the current
    locale [cur]: the locale of the first language [setlocale] accepts,
    or [cur] when it accepts none. *)
Fixpoint set_first (langs : list string) (cur : string) : string :=
  match langs with
  | [] => cur
  | l :: ls =>
      match setlocale (normalize l) with
      | Some st => st
      | None => set_first ls cur
      end
  end.

(** main.py 90-97 as a step of the handler: read the header, parse it,
    run the loop on the process-wide locale. *)
Definition negotiate (hs : Headers) : PyM string unit :=
  header ← pym_lift (header_get hs "accept-language");
  languages ← pym_lift (parse_languages header);
  cur ← pym_get;
  pym_put (set_first languages cur).

(** [f"{n:n}"] in the locale [cur]. *)
Definition fmt_n (cur : string) (n : Z) : string :=
  NumFormat.format_n (localeconv cur) n.

(** A locale [setlocale] can switch to. *)
Definition accepted (st : string) : Prop := ∃ name, setlocale name = Some st.

(** [setlocale] accepts none of the languages. *)
Definition all_rejected (langs : list string) : Prop :=
  Forall (λ l, setlocale (normalize l) = None) langs.

(** ** Lemmas *)

Lemma first_pieces_spec xs :
  first_pieces xs = inr (map (λ x, default "" (head (PyStr.split ";"%char x))) xs).
Proof.
  induction xs as [|x xs IH]; [done|]. simpl. rewrite IH.
  by PyStr.destruct_split ";"%char x l rest E.
Qed.

Lemma parse_languages_eq h : parse_languages h = inr (lang_list h).
Proof. apply first_pieces_spec. Qed.

(** The loop's result depends on the starting locale only when every
    language is rejected, so running it twice is running it once. *)
Lemma set_first_idem langs cur : set_first langs (set_first langs cur) = set_first langs cur.
Proof.
  induction langs as [|l ls IH]; [done|]. simpl.
  destruct (setlocale (normalize l)); [done|apply IH].
Qed.

Lemma negotiate_eq hs cur :
  negotiate hs cur =
  match header_get hs "accept-language" with
  | inl e => (inl e, cur)
  | inr h => (inr tt, set_first (lang_list h) cur)
  end.
Proof.
  unfold negotiate. pym_unfold. destruct (header_get hs "accept-language"); [done|].
  by rewrite parse_languages_eq.
Qed.

Lemma set_first_app_rejected pre langs cur :
  all_rejected pre → set_first (pre ++ langs) cur = set_first langs cur.
Proof. induction 1 as [|l pre Hl _ IH]; [done|]. simpl. by rewrite Hl. Qed.

(** ** Properties *)

(** C12: parsing [accept-language] never raises: it gives one language
    per comma-separated piece, in order, each the text of its piece
    before the first [";"], so it holds no [","] and no [";"]. *)
Theorem parse_languages_spec (h : string) :
  ∃ langs, parse_languages h = inr langs ∧
    Forall2 (λ piece l, ∃ rest, PyStr.split ";"%char piece = l :: rest)
            (PyStr.split ","%char h) langs ∧
    Forall (λ l, PyStr.has_char ","%char l = false ∧ PyStr.has_char ";"%char l = false) langs.
Proof.
  eexists. unfold parse_languages. split; [apply first_pieces_spec|].
  pose proof (PyStr.split_pieces_no_sep ","%char h) as Hc.
  induction (PyStr.split ","%char h) as [|x xs IH]; [simpl; split; constructor|].
  apply Forall_cons in Hc as [Hx Hxs]. destruct (IH Hxs) as [IH1 IH2].
  pose proof (PyStr.split_pieces_no_sep ";"%char x) as Hs.
  pose proof (PyStr.join_split ";"%char x) as Hj.
  simpl. PyStr.destruct_split ";"%char x l rest E.
  simpl. split; [constructor; [exists rest; by rewrite E|done]|].
  apply Forall_cons in Hs as [Hl _]. constructor; [|done]. split; [|done].
  (* the first piece is a prefix of [x], which holds no comma *)
  clear - Hx Hj. revert Hj. destruct rest as [|r rest]; simpl; intros <-; [done|].
  revert Hx. induction l as [|a l IHl]; [done|]. simpl. intros [-> ?]%orb_false_iff. by apply IHl.
Qed.

(** The first language [setlocale] accepts decides. *)
Lemma set_first_first pre l post cur st :
  all_rejected pre → setlocale (normalize l) = Some st → set_first (pre ++ l :: post) cur = st.
Proof. intros Hpre Hl. rewrite set_first_app_rejected by done. simpl. by rewrite Hl. Qed.

(** When [setlocale] rejects every language the locale stays. *)
Lemma set_first_rejected langs cur : all_rejected langs → set_first langs cur = cur.
Proof. intros Hall. rewrite <- (app_nil_r langs). by rewrite set_first_app_rejected. Qed.

(** The loop leaves the locale alone or switches to an accepted one. *)
Lemma set_first_same_or_accepted langs cur : set_first langs cur = cur ∨ accepted (set_first langs cur).
Proof.
  induction langs as [|l ls IH]; simpl; [by left|].
  destruct (setlocale (normalize l)) as [st|] eqn:E; [right; by exists (normalize l)|done].
Qed.

(** C13: the [setlocale] loop never raises and follows the spec's
    contract: the locale becomes the one [setlocale] returns for the
    first language it accepts, every earlier language being skipped; when
    it accepts none, the previous process-wide locale stays in effect. *)
Theorem set_first_spec (langs : list string) (cur st : string) :
  set_first langs cur = st ↔
  (∃ pre l post, langs = pre ++ l :: post ∧ all_rejected pre ∧
                 setlocale (normalize l) = Some st) ∨
  (all_rejected langs ∧ st = cur).
Proof.
  split.
  - induction langs as [|l ls IH]; simpl; intros Hst; [right; split; [constructor|done]|].
    destruct (setlocale (normalize l)) as [st'|] eqn:E.
    + left. exists [], l, ls. subst st'. split_and!; [done|constructor|done].
    + destruct (IH Hst) as [(pre & l' & post & -> & Hpre & Hl')|[Hall ->]].
      * left. exists (l :: pre), l', post. split_and!; [done|by constructor|done].
      * right. split; [by constructor|done].
  - intros [(pre & l & post & -> & Hpre & Hl)|[Hall ->]].
    + by apply set_first_first.
    + by apply set_first_rejected.
Qed.

(** The locale after the loop is the previous one, or the locale
    [setlocale] returned for one of the header's languages. *)
Theorem set_first_accepted (langs : list string) (cur : string) :
  set_first langs cur = cur ∨ ∃ l, l ∈ langs ∧ setlocale (normalize l) = Some (set_first langs cur).
Proof.
  induction langs as [|l ls IH]; simpl; [by left|].
  destruct (setlocale (normalize l)) as [st|] eqn:E.
  - right. exists l. split; [by left|done].
  - destruct IH as [->|(l' & Hl' & Hs)]; [by left|]. right. exists l'. split; [by right|done].
Qed.

(** C14: negotiation raises [KeyError] exactly when the request has no
    [accept-language] header, and then leaves the locale unchanged;
    otherwise it returns normally with the locale of the [setlocale]
    loop. *)
Theorem negotiate_spec (hs : Headers) (cur : string) :
  match header_get hs "accept-language" with
  | inl e => e = KeyError "accept-language" ∧ negotiate hs cur = (inl e, cur)
  | inr h => ∃ langs, parse_languages h = inr langs ∧
                      negotiate hs cur = (inr tt, set_first langs cur)
  end.
Proof.
  unfold negotiate. pym_unfold. destruct (header_get hs "accept-language") as [e|h] eqn:E.
  - split; [|done]. by apply header_get_exc in E.
  - unfold parse_languages. rewrite first_pieces_spec. by eexists.
Qed.

End WithLib.

Arguments set_first {_} _ _.
Arguments negotiate {_} _ _.
Arguments fmt_n {_} _ _.

(** ** A locale library for examples

    Installed: [C], [en_US.ISO8859-1] and [de_DE.ISO8859-1]; [normalize]
    maps the two tags [en-US] and [de-DE] to them.  This is an
    illustration, not CPython's alias table: [locale.normalize] looks
    up the lower-cased name, where ["en"] and ["en_us"] are keys but
    ["en-us"] is not, so CPython returns ["en-US"] unchanged.  The
    theorems hold for every [LocaleLib]; this one only instantiates
    them. *)
Definition demo_normalize (s : string) : string :=
  if decide (s = "en-US") then "en_US.ISO8859-1"
  else if decide (s = "de-DE") then "de_DE.ISO8859-1"
  else s.

Definition demo_installed : list string := ["C"; "en_US.ISO8859-1"; "de_DE.ISO8859-1"].

Definition demo_setlocale (name : string) : option string :=
  if decide (name ∈ demo_installed) then Some name else None.

Definition demo_localeconv (name : string) : NumFormat.LocaleConv :=
  if decide (name = "en_US.ISO8859-1") then NumFormat.conv_en_US
  else if decide (name = "de_DE.ISO8859-1") then NumFormat.conv_de_DE
  else NumFormat.conv_C.

Definition demo_lib : LocaleLib :=
  {| normalize := demo_normalize; setlocale := demo_setlocale; localeconv := demo_localeconv |}.

(** The parser keeps the space that may follow a comma
    ([Accept-Language: fi-FI, en-US;q=0.8], the header's optional white
    space).  [locale.normalize] does not strip it, so [" en-US"] is
    rejected and the request stays in the [C] locale, which [en-US]
    alone would have left. *)
Theorem negotiate_keeps_space :
  parse_languages "fi-FI, en-US;q=0.8" = inr ["fi-FI"; " en-US"] ∧
  negotiate (L:=demo_lib) [("accept-language", "fi-FI, en-US;q=0.8")] initial_locale
    = (inr tt, initial_locale) ∧
  negotiate (L:=demo_lib) [("accept-language", "fi-FI,en-US;q=0.8")] initial_locale
    = (inr tt, "en_US.ISO8859-1").
Proof. vm_compute. repeat split. Qed.

Example set_first_example :
  set_first (L:=demo_lib) ["fi"; "en-US"; "de-DE"] initial_locale = "en_US.ISO8859-1" ∧
  fmt_n (L:=demo_lib) "en_US.ISO8859-1" 1234567 = "1,234,567".
Proof. vm_compute. split; reflexivity. Qed.

End Locale.
