(* ===== verification/Html.v ===== *)
(** * The HTML overlay: the f-string templates of [gold]

    Each template of main.py is a list of its lines, character for
    character, so that [lines] rebuilds the Python string: [dq] stands
    for a double quote, [{{] and [}}] are already single braces, and each
    [{...}] placeholder is an argument.  The formatted numbers are
    arguments as strings: the handler formats them first.

    This file also holds the response models [GoldData] (main.py 20-22)
    and [Meta] (main.py 15-17), and what the inline script does with a
    polling response (main.py 177). *)

From S2P Require Import Prelude.

Module Html.

(** [GoldData(BaseModel)]: the [/gold_data] response. *)
Record GoldData := mkGoldData { current : string; target : string }.

(** [Meta(BaseModel)]: the [/meta] response. *)
Record Meta := mkMeta { version : option string; build : option string }.

(** main.py 102: [f"<img src=\"{item_obj.icon}\" />"]. *)
Definition image_tag (icon : string) : string :=
  "<img src=" +:+ dq +:+ icon +:+ dq +:+ " />".

(** [{text} {gold_amount:n}/{target:n}]: the text of the [<p id="text">]
    element that the body templates write (main.py 116 and 132). *)
Definition shown_text (text gold target : string) : string :=
  text +:+ " " +:+ gold +:+ "/" +:+ target.

(** main.py 114-119: the body with the item's icon. *)
Definition body_item (item_name : string) (gold : string) (target : string) (image : string) : string :=
  lines [
    "";
    "        <div class=" +:+ dq +:+ "Row" +:+ dq +:+ ">";
    "        <div class=" +:+ dq +:+ "Column" +:+ dq +:+ "><p class=" +:+ dq +:+ "Text" +:+ dq +:+ " id=" +:+ dq +:+ "text" +:+ dq +:+ ">" +:+ shown_text ("Gold for " +:+ item_name) gold target +:+ "</p></div>";
    "        <div class=" +:+ dq +:+ "Column" +:+ dq +:+ ">" +:+ image +:+ "</div>";
    "        </div>";
    "        " ].

(** main.py 123-128: the polling query for an item. *)
Definition params_item (apikey : string) (item : string) : string :=
  lines [
    "";
    "        new URLSearchParams({";
    "            apikey: " +:+ dq +:+ apikey +:+ dq +:+ ",";
    "            item: " +:+ dq +:+ item +:+ dq +:+ ",";
    "        })";
    "        " ].

(** main.py 130-134: the body without an item. *)
Definition body_plain (text : string) (gold : string) (target : string) : string :=
  lines [
    "";
    "        <div class=" +:+ dq +:+ "Row" +:+ dq +:+ ">";
    "        <div class=" +:+ dq +:+ "Column" +:+ dq +:+ "><p class=" +:+ dq +:+ "Text" +:+ dq +:+ " id=" +:+ dq +:+ "text" +:+ dq +:+ ">" +:+ shown_text text gold target +:+ "</p></div>";
    "        </div>";
    "        " ].

(** main.py 136-141: the polling query with the target. *)
Definition params_plain (apikey : string) (target : string) : string :=
  lines [
    "";
    "        new URLSearchParams({";
    "            apikey: " +:+ dq +:+ apikey +:+ dq +:+ ",";
    "            target: " +:+ dq +:+ target +:+ dq;
    "        })";
    "        " ].

(** main.py 143-168: the style sheet (a plain string). *)
Definition css : string :=
  lines [
    "";
    "    <style>";
    "        .Row {";
    "        display: table;";
    "    }";
    "    .Column {";
    "        display: table-cell;";
    "        padding-left: 5px;";
    "        padding-right: 5px;";
    "        text-align: center;";
    "        vertical-align: middle;";
    "    }";
    "    .Text {";
    "        font-size: 2em;";
    "        color: #FFD700;";
    "        -webkit-text-stroke: 1px white;";
    "        font-family: " +:+ dq +:+ "Lucida Console" +:+ dq +:+ ", " +:+ dq +:+ "Courier New" +:+ dq +:+ ", monospace;";
    "        font-weight: bold;";
    "    }";
    "    ";
    "    body {";
    "        background-color: transparent;";
    "    }";
    "";
    "    </style>";
    "    " ].

(** main.py 170-181: the polling script. *)
Definition js (text : string) (params : string) (interval : string) : string :=
  lines [
    "";
    "    <script>";
    "    const text = " +:+ dq +:+ text +:+ dq +:+ ";";
    "    async function updateText() {";
    "        const textElem = document.getElementById(" +:+ dq +:+ "text" +:+ dq +:+ ");";
    "        const response = await fetch(" +:+ dq +:+ "/gold_data?" +:+ dq +:+ " + " +:+ params +:+ ");";
    "        const data = await response.json();";
    "        textElem.innerText = text + " +:+ dq +:+ " " +:+ dq +:+ " + data.current + " +:+ dq +:+ "/" +:+ dq +:+ " + data.target;";
    "    }";
    "    setInterval(updateText, " +:+ interval +:+ "*1000)";
    "    </script>";
    "    " ].

(** main.py 183-194: the document. *)
Definition page (css : string) (js : string) (body : string) : string :=
  lines [
    "";
    "        <html>";
    "            <head>";
    "                " +:+ css;
    "                " +:+ js;
    "                <title>Gold overlay</title>";
    "            </head>";
    "            <body>";
    "                " +:+ body;
    "            </body>";
    "        </html>";
    "        " ].

(** The request the script's [fetch("/gold_data?" + params)] sends,
    for string literals without quotes, backslashes or line breaks: the
    values of [URLSearchParams]' fields. *)
Record Poll := mkPoll {
  poll_apikey : string;
  poll_item : option string;
  poll_target : option string
}.

(** What [params_plain apikey target] denotes. *)
Definition poll_plain (apikey target : string) : Poll := mkPoll apikey None (Some target).
(** What [params_item apikey item] denotes. *)
Definition poll_of_item (apikey item : string) : Poll := mkPoll apikey (Some item) None.

(** main.py 177: [textElem.innerText = text + " " + data.current + "/" +
    data.target], the text the script shows after a poll. *)
Definition update_text (text : string) (data : GoldData) : string :=
  text +:+ " " +:+ current data +:+ "/" +:+ target data.

End Html.
