(* ===== verification/Api.v ===== *)
(** * The Guild Wars 2 API client (pygw2), as an interface

    The handlers build [pygw2.api.Api(api_key=apikey)] and await three of
    its calls: [account.wallet()] (main.py 85, 205), [items.get(item)]
    (main.py 100) and [commerce.prices(id)] (main.py 101, 220).  They
    are HTTP requests to the game's servers, outside this repository.  A
    [GW2Api] instance is one state of those servers: each call returns a
    value or raises.  Theorems about the handlers hold for every
    instance. *)

From S2P Require Import Prelude Wallet Prices.

Module Api.

(** pygw2's [Item], as far as the handlers read it. *)
Record Item := mkItem { id : Z; name : string; icon : string }.

Class GW2Api := {
  (** [await Api(api_key=key).account.wallet()] *)
  account_wallet : string → PyResult (list Wallet.WalletEntry);
  (** [await api.items.get(item)] *)
  items_get : string → PyResult Item;
  (** [await api.commerce.prices(id)], the id written into the request *)
  commerce_prices : string → PyResult Prices.PricesResp
}.

End Api.
