(* ===== verification/Handlers.v ===== *)
(** * The request handlers [gold] and [gold_data]

    Both handlers do the same steps in the same order:
    await the wallet; compute the gold amount ([IndexError] without a
    gold entry); negotiate the locale ([KeyError] without an
    [accept-language] header); when [item] is truthy, look up its prices
    and resolve the target; format the two numbers in the process-wide
    locale.  [gold] also fetches the item for its name and icon and
    renders the page.  Each handler is a [PyM] computation over the
    process-wide locale, so an exception keeps the locale already set. *)

From S2P Require Import Prelude PyStr Wallet Prices Locale Html Api.

Module Handlers.

(** [if item:] on an [Optional[str]] query parameter. *)
Definition item_truthy (item : option string) : option string :=
  match item with
  | Some s => if PyStr.truthy s then Some s else None
  | None => None
  end.

Section WithLibs.
Context `{A : Api.GW2Api} `{L : Locale.LocaleLib}.

(** The two formatted numbers, in the locale at the time of the
    f-string. *)
Definition format_pair (gold target : Z) : PyM string (string * string) :=
  cur ← pym_get;
  mret (Locale.fmt_n cur gold, Locale.fmt_n cur target).

(** main.py 197-234: [GET /gold_data]. *)
Definition gold_data (hs : Locale.Headers) (apikey : string) (item : option string)
    (target : Z) : PyM string Html.GoldData :=
  wallet ← pym_lift (Api.account_wallet apikey);
  gold_amount ← pym_lift (Wallet.gold_amount wallet);
  _ ← Locale.negotiate hs;
  target ← match item_truthy item with
           | Some it =>
               prices ← pym_lift (Api.commerce_prices it);
               pym_lift (Prices.resolve_target prices target)
           | None => mret target
           end;
  '(c, t) ← format_pair gold_amount target;
  mret (Html.mkGoldData c t).

(** main.py 75-194: [GET /gold]. *)
Definition gold (hs : Locale.Headers) (apikey : string) (item : option string)
    (text : string) (target : Z) (interval : Z) : PyM string string :=
  wallet ← pym_lift (Api.account_wallet apikey);
  gold_amount ← pym_lift (Wallet.gold_amount wallet);
  _ ← Locale.negotiate hs;
  '(body, text, params) ←
    match item_truthy item with
    | Some it =>
        item_obj ← pym_lift (Api.items_get it);
        prices ← pym_lift (Api.commerce_prices (PyStr.str_of_Z (Api.id item_obj)));
        let image := Html.image_tag (Api.icon item_obj) in
        let item_name := Api.name item_obj in
        target ← pym_lift (Prices.resolve_target prices target);
        '(g, t) ← format_pair gold_amount target;
        mret (Html.body_item item_name g t image,
              "Gold for " +:+ item_name,
              Html.params_item apikey it)
    | None =>
        '(g, t) ← format_pair gold_amount target;
        mret (Html.body_plain text g t, text, Html.params_plain apikey (PyStr.str_of_Z target))
    end;
  mret (Html.page Html.css (Html.js text params (PyStr.str_of_Z interval)) body).

(** [GET /gold_data?...] as FastAPI serves a poll: [target] defaults to
    [0] (main.py 201) and must parse as an [int].  [PyStr.int_of_str]
    reads decimal literals with an optional sign, which covers what the
    polling script sends ([str(target)]); pydantic's other spellings of
    an [int] (surrounding blanks, [_] between digits) are outside the
    model and count as a failed parse here. *)
Definition gold_data_query (hs : Locale.Headers) (q : Html.Poll) : PyM string Html.GoldData :=
  match Html.poll_target q with
  | None => gold_data hs (Html.poll_apikey q) (Html.poll_item q) 0
  | Some s =>
      match PyStr.int_of_str s with
      | Some t => gold_data hs (Html.poll_apikey q) (Html.poll_item q) t
      | None => pym_raise (RequestValidationError "target")
      end
  end.

(** ** How the handlers run *)

Lemma item_truthy_Some item it : item_truthy item = Some it → PyStr.truthy it = true.
Proof. destruct item as [s|]; simpl; [|done]. destruct (PyStr.truthy s) eqn:E; naive_solver. Qed.


(** The target after the optional price lookup (main.py 219-229). *)
Definition data_target (item : option string) (t : Z) : PyResult Z :=
  match item_truthy item with
  | Some it =>
      match Api.commerce_prices it with
      | inl e => inl e
      | inr p => Prices.resolve_target p t
      end
  | None => inr t
  end.

Lemma gold_data_run hs apikey item t cur :
  gold_data hs apikey item t cur =
  match Api.account_wallet apikey with
  | inl e => (inl e, cur)
  | inr w =>
    match Wallet.gold_amount w with
    | inl e => (inl e, cur)
    | inr g =>
      match Locale.header_get hs "accept-language" with
      | inl e => (inl e, cur)
      | inr h =>
        let cur' := Locale.set_first (Locale.lang_list h) cur in
        match data_target item t with
        | inl e => (inl e, cur')
        | inr t' => (inr (Html.mkGoldData (Locale.fmt_n cur' g) (Locale.fmt_n cur' t')), cur')
        end
      end
    end
  end.
Proof.
  unfold gold_data, data_target, format_pair. pym_unfold.
  destruct (Api.account_wallet apikey) as [e|w]; [done|].
  destruct (Wallet.gold_amount w) as [e|g]; [done|].
  rewrite Locale.negotiate_eq. destruct (Locale.header_get hs "accept-language") as [e|h]; [done|].
  destruct (item_truthy item) as [it|]; [|done].
  by destruct (Api.commerce_prices it) as [e|p]; [|destruct (Prices.resolve_target p t)].
Qed.

(** The page of [gold] once the locale is [cur] and the gold amount
    [g] (main.py 99-194). *)
Definition gold_page (apikey : string) (item : option string) (text : string)
    (target interval : Z) (cur : string) (g : Z) : PyResult string :=
  match item_truthy item with
  | Some it =>
      match Api.items_get it with
      | inl e => inl e
      | inr o =>
          match Api.commerce_prices (PyStr.str_of_Z (Api.id o)) with
          | inl e => inl e
          | inr p =>
              match Prices.resolve_target p target with
              | inl e => inl e
              | inr t =>
                  inr (Html.page Html.css
                         (Html.js ("Gold for " +:+ Api.name o) (Html.params_item apikey it)
                                  (PyStr.str_of_Z interval))
                         (Html.body_item (Api.name o) (Locale.fmt_n cur g) (Locale.fmt_n cur t)
                                         (Html.image_tag (Api.icon o))))
              end
          end
      end
  | None =>
      inr (Html.page Html.css
             (Html.js text (Html.params_plain apikey (PyStr.str_of_Z target)) (PyStr.str_of_Z interval))
             (Html.body_plain text (Locale.fmt_n cur g) (Locale.fmt_n cur target)))
  end.

Lemma gold_run hs apikey item text target interval cur :
  gold hs apikey item text target interval cur =
  match Api.account_wallet apikey with
  | inl e => (inl e, cur)
  | inr w =>
    match Wallet.gold_amount w with
    | inl e => (inl e, cur)
    | inr g =>
      match Locale.header_get hs "accept-language" with
      | inl e => (inl e, cur)
      | inr h =>
        let cur' := Locale.set_first (Locale.lang_list h) cur in
        (gold_page apikey item text target interval cur' g, cur')
      end
    end
  end.
Proof.
  unfold gold, gold_page, format_pair. pym_unfold.
  destruct (Api.account_wallet apikey) as [e|w]; [done|].
  destruct (Wallet.gold_amount w) as [e|g]; [done|].
  rewrite Locale.negotiate_eq. destruct (Locale.header_get hs "accept-language") as [e|h]; [done|].
  destruct (item_truthy item) as [it|]; [|done].
  destruct (Api.items_get it) as [e|o]; [done|].
  destruct (Api.commerce_prices _) as [e|p]; [done|].
  by destruct (Prices.resolve_target p target).
Qed.

(** ** Properties *)

(** Without an item, the page's polling script reproduces the page:
    the page shows [text gold/target], and the [gold_data] poll that
    [params] sends (the same [apikey], the target written with
    [str(target)]) returns exactly these two numbers when it runs
    against the same servers and the same headers. *)
Theorem gold_poll_consistent_plain (hs : Locale.Headers) (apikey : string)
    (item : option string) (text : string) (target interval : Z)
    (cur page cur1 : string) :
  item_truthy item = None →
  gold hs apikey item text target interval cur = (inr page, cur1) →
  ∃ c t data,
    page = Html.page Html.css
             (Html.js text (Html.params_plain apikey (PyStr.str_of_Z target)) (PyStr.str_of_Z interval))
             (Html.body_plain text c t) ∧
    fst (gold_data_query hs (Html.poll_plain apikey (PyStr.str_of_Z target)) cur1) = inr data ∧
    Html.update_text text data = Html.shown_text text c t.
Proof.
  intros Hitem Hgold. rewrite gold_run in Hgold. unfold gold_page in Hgold. rewrite Hitem in Hgold.
  destruct (Api.account_wallet apikey) as [e|w] eqn:Hw; [done|].
  destruct (Wallet.gold_amount w) as [e|g] eqn:Hg; [done|].
  destruct (Locale.header_get hs "accept-language") as [e|h] eqn:Hh; [done|].
  injection Hgold as <- <-. eexists _, _, _. split; [done|].
  unfold gold_data_query. simpl. autorewrite with overlay_rw. rewrite gold_data_run, Hw, Hg, Hh.
  simpl. rewrite Locale.set_first_idem. by split.
Qed.

(** C2: with an item, the poll sends [apikey] and [item] but no target,
    so [gold_data] falls back to [0] where the page fell back to the
    query's [target].  The page shows [Gold for name gold/t1] with [t1]
    the target resolved from [target], and the poll shows the same gold
    amount and [t0], the target resolved from [0].  The two agree when
    the prices give the target, and differ otherwise (see
    [gold_poll_item_diverges]).  The item id is canonical: [item] is
    [str(item_obj.id)]. *)
Theorem gold_poll_item (hs : Locale.Headers) (apikey : string) (item : option string)
    (it : string) (o : Api.Item) (text : string) (target interval : Z) (cur page cur1 : string) :
  item_truthy item = Some it → Api.items_get it = inr o → it = PyStr.str_of_Z (Api.id o) →
  gold hs apikey item text target interval cur = (inr page, cur1) →
  ∃ c p t1 t0 data,
    Api.commerce_prices it = inr p ∧
    Prices.resolve_target p target = inr t1 ∧ Prices.resolve_target p 0 = inr t0 ∧
    page = Html.page Html.css
             (Html.js ("Gold for " +:+ Api.name o) (Html.params_item apikey it) (PyStr.str_of_Z interval))
             (Html.body_item (Api.name o) c (Locale.fmt_n cur1 t1) (Html.image_tag (Api.icon o))) ∧
    fst (gold_data_query hs (Html.poll_of_item apikey it) cur1) = inr data ∧
    Html.update_text ("Gold for " +:+ Api.name o) data =
      Html.shown_text ("Gold for " +:+ Api.name o) c (Locale.fmt_n cur1 t0).
Proof.
  intros Hitem Ho Hid Hgold. rewrite gold_run in Hgold. unfold gold_page in Hgold.
  rewrite Hitem, Ho, <- Hid in Hgold.
  destruct (Api.account_wallet apikey) as [e|w] eqn:Hw; [done|].
  destruct (Wallet.gold_amount w) as [e|g] eqn:Hg; [done|].
  destruct (Locale.header_get hs "accept-language") as [e|h] eqn:Hh; [done|].
  destruct (Api.commerce_prices it) as [e|p] eqn:Hp; [done|].
  destruct (Prices.resolve_target p target) as [e|t1] eqn:Ht1; [done|].
  destruct (Prices.resolve_target_ok_any p target 0 t1 Ht1) as [t0 Ht0].
  injection Hgold as <- <-. eexists _, p, t1, t0, _. split_and!; [done|done|done|done| |].
  - unfold gold_data_query. simpl. rewrite gold_data_run, Hw, Hg, Hh.
    unfold data_target. simpl. rewrite (item_truthy_Some _ _ Hitem), Hp, Ht0.
    simpl. reflexivity.
  - simpl. by rewrite Locale.set_first_idem.
Qed.

(** C16: the failures before the locale negotiation leave the
    process-wide locale as it was.  A wallet error is re-raised; a wallet
    without gold raises [IndexError]; a request without
    [accept-language] raises [KeyError]. *)
Theorem gold_errors_before_locale (hs : Locale.Headers) (apikey : string) (item : option string)
    (text : string) (target interval : Z) (cur : string) :
  (∀ e, Api.account_wallet apikey = inl e →
        gold hs apikey item text target interval cur = (inl e, cur)) ∧
  (∀ w, Api.account_wallet apikey = inr w → Wallet.no_gold w →
        gold hs apikey item text target interval cur = (inl IndexError, cur)) ∧
  (∀ w, Api.account_wallet apikey = inr w → ¬ Wallet.no_gold w →
        Locale.header_get hs "accept-language" = inl (KeyError "accept-language") →
        gold hs apikey item text target interval cur = (inl (KeyError "accept-language"), cur)).
Proof.
  rewrite gold_run. split_and!.
  - by intros e ->.
  - intros w -> Hno. by rewrite (proj2 (Wallet.gold_amount_index_error w) Hno).
  - intros w -> Hng Hh. destruct (Wallet.gold_amount w) as [e|g] eqn:Hg; [|by rewrite Hh].
    exfalso. apply Hng. pose proof (Wallet.gold_amount_exc w e Hg) as ->.
    by apply Wallet.gold_amount_index_error.
Qed.

(** C17: a request that fails after the negotiation (the item is not
    found, the price lookup fails, or [prices[0]] raises) still leaves
    its locale as the process-wide locale for the requests that follow. *)
Theorem gold_error_after_locale (hs : Locale.Headers) (apikey : string) (item : option string)
    (text : string) (target interval : Z) (cur : string) (w : list Wallet.WalletEntry) (g : Z)
    (h : string) (e : PyExc) :
  Api.account_wallet apikey = inr w → Wallet.gold_amount w = inr g →
  Locale.header_get hs "accept-language" = inr h →
  gold_page apikey item text target interval (Locale.set_first (Locale.lang_list h) cur) g = inl e →
  gold hs apikey item text target interval cur = (inl e, Locale.set_first (Locale.lang_list h) cur).
Proof. intros Hw Hg Hh He. by rewrite gold_run, Hw, Hg, Hh; simpl; rewrite He. Qed.

(** C18: [gold] embeds [apikey] and [text] in the page as they are,
    without escaping: both occur verbatim in every page it renders.  An
    [apikey] holding [</script>] therefore closes the script element and
    injects markup (spec §4.4 and §8 require escaping). *)
Theorem gold_embeds_unescaped (hs : Locale.Headers) (apikey : string) (item : option string)
    (text : string) (target interval : Z) (cur page cur1 : string) :
  item_truthy item = None →
  gold hs apikey item text target interval cur = (inr page, cur1) →
  str_infix apikey page ∧ str_infix text page.
Proof.
  intros Hitem Hgold. rewrite gold_run in Hgold. unfold gold_page in Hgold. rewrite Hitem in Hgold.
  destruct (Api.account_wallet apikey) as [e|w]; [done|].
  destruct (Wallet.gold_amount w) as [e|g]; [done|].
  destruct (Locale.header_get hs "accept-language") as [e|h]; [done|].
  injection Hgold as <- _. unfold Html.page, Html.js, Html.params_plain. simpl.
  split; str_infix_search.
Qed.

(** With an item, [gold] embeds [apikey] and the [item] query
    parameter in the polling script, and the item's name from the API in
    the title and the body, all without escaping. *)
Theorem gold_item_embeds_unescaped (hs : Locale.Headers) (apikey : string) (item : option string)
    (it text : string) (target interval : Z) (cur page cur1 : string) :
  item_truthy item = Some it →
  gold hs apikey item text target interval cur = (inr page, cur1) →
  str_infix apikey page ∧ str_infix it page ∧
  ∃ obj, Api.items_get it = inr obj ∧ str_infix (Api.name obj) page.
Proof.
  intros Hitem Hgold. rewrite gold_run in Hgold. unfold gold_page in Hgold. rewrite Hitem in Hgold.
  destruct (Api.account_wallet apikey) as [e|w]; [done|].
  destruct (Wallet.gold_amount w) as [e|g]; [done|].
  destruct (Locale.header_get hs "accept-language") as [e|h]; [done|]. simpl in Hgold.
  destruct (Api.items_get it) as [e|obj]; [done|].
  destruct (Api.commerce_prices _) as [e|pr]; [done|].
  destruct (Prices.resolve_target pr target) as [e|t]; [done|].
  injection Hgold as <- _. unfold Html.page, Html.js, Html.params_item. simpl.
  split_and!; [str_infix_search|str_infix_search|]. eexists; split; [done|str_infix_search].
Qed.

End WithLibs.

(** ** Example servers *)

Definition demo_icon : string := "https://render.guildwars2.com/coin.png".

(** A wallet with 123456 copper (12 gold), item 19976 with a buy order
    at 50000 and a sell offer at 80000. *)
Definition demo_api : Api.GW2Api := {|
  Api.account_wallet := λ _, inr [Wallet.mkWalletEntry 2 500; Wallet.mkWalletEntry 1 123456];
  Api.items_get := λ _, inr (Api.mkItem 19976 "Mystic Coin" demo_icon);
  Api.commerce_prices := λ _, inr (Prices.RPrice Prices.demo_price) |}.

(** The same account, with an item whose both sides are at 0. *)
Definition demo_api_unpriced : Api.GW2Api := {|
  Api.account_wallet := λ _, inr [Wallet.mkWalletEntry 1 123456];
  Api.items_get := λ _, inr (Api.mkItem 19976 "Mystic Coin" demo_icon);
  Api.commerce_prices := λ _, inr (Prices.RPrice
      (Prices.mkPrice 19976 true (Some (Prices.mkPriceInfo 0 0)) (Some (Prices.mkPriceInfo 0 0)))) |}.

(** The same account, with an item lookup that fails. *)
Definition demo_api_missing : Api.GW2Api := {|
  Api.account_wallet := λ _, inr [Wallet.mkWalletEntry 1 123456];
  Api.items_get := λ _, inl (ApiException ApiNotFound);
  Api.commerce_prices := λ _, inl (ApiException ApiNotFound) |}.

Definition demo_headers : Locale.Headers := [("accept-language", "en-US,en;q=0.9")].

Definition demo_item_page : string :=
  match fst (gold (A:=demo_api) (L:=Locale.demo_lib) demo_headers "KEY" (Some "19976") "Gold" 50 60
               Locale.initial_locale) with
  | inr p => p
  | inl _ => ""
  end.

Definition demo_injected_page : string :=
  match fst (gold (A:=demo_api) (L:=Locale.demo_lib) demo_headers "</script><script>alert(1)</script>"
               None "Gold" 50 60 Locale.initial_locale) with
  | inr p => p
  | inl _ => ""
  end.

Definition demo_page : string :=
  match fst (gold (A:=demo_api) (L:=Locale.demo_lib) demo_headers "KEY" None "Gold" 50 60
               Locale.initial_locale) with
  | inr p => p
  | inl _ => ""
  end.

(** The polling script of an item page loses the query's target.
    For an item whose prices are both 0, the page shows the target 50
    that the query asked for, and every poll replaces it with 0, the
    default of [/gold_data]: the refresh does not keep the initial
    configuration (spec §4.4). *)
Theorem gold_poll_item_diverges :
  gold (A:=demo_api_unpriced) (L:=Locale.demo_lib) demo_headers "KEY" (Some "19976") "Gold" 50 60
       Locale.initial_locale =
    (inr (Html.page Html.css (Html.js "Gold for Mystic Coin" (Html.params_item "KEY" "19976") "60")
            (Html.body_item "Mystic Coin" "12" "50" (Html.image_tag demo_icon))),
     "en_US.ISO8859-1") ∧
  gold_data_query (A:=demo_api_unpriced) (L:=Locale.demo_lib) demo_headers
    (Html.poll_of_item "KEY" "19976") "en_US.ISO8859-1" =
    (inr (Html.mkGoldData "12" "0"), "en_US.ISO8859-1").
Proof. split; vm_compute; reflexivity. Qed.

(** ** Witnesses *)

Lemma gold_poll_consistent_plain_witness :
  ∃ c t data,
    demo_page = Html.page Html.css
      (Html.js "Gold" (Html.params_plain "KEY" (PyStr.str_of_Z 50)) (PyStr.str_of_Z 60))
      (Html.body_plain "Gold" c t) ∧
    fst (gold_data_query (A:=demo_api) (L:=Locale.demo_lib) demo_headers
           (Html.poll_plain "KEY" (PyStr.str_of_Z 50)) "en_US.ISO8859-1") = inr data ∧
    Html.update_text "Gold" data = Html.shown_text "Gold" c t.
Proof.
  apply (gold_poll_consistent_plain (A:=demo_api) (L:=Locale.demo_lib) demo_headers "KEY" None
           "Gold" 50 60 Locale.initial_locale); [reflexivity|vm_compute; reflexivity].
Defined.

Lemma gold_poll_item_witness :
  ∃ c p t1 t0 data,
    Api.commerce_prices (GW2Api:=demo_api) "19976" = inr p ∧
    Prices.resolve_target p 50 = inr t1 ∧ Prices.resolve_target p 0 = inr t0 ∧
    demo_item_page = Html.page Html.css
      (Html.js ("Gold for " +:+ "Mystic Coin") (Html.params_item "KEY" "19976") (PyStr.str_of_Z 60))
      (Html.body_item "Mystic Coin" c (Locale.fmt_n (L:=Locale.demo_lib) "en_US.ISO8859-1" t1)
         (Html.image_tag demo_icon)) ∧
    fst (gold_data_query (A:=demo_api) (L:=Locale.demo_lib) demo_headers
           (Html.poll_of_item "KEY" "19976") "en_US.ISO8859-1") = inr data ∧
    Html.update_text ("Gold for " +:+ "Mystic Coin") data =
      Html.shown_text ("Gold for " +:+ "Mystic Coin") c
        (Locale.fmt_n (L:=Locale.demo_lib) "en_US.ISO8859-1" t0).
Proof.
  apply (gold_poll_item (A:=demo_api) (L:=Locale.demo_lib) demo_headers "KEY" (Some "19976") "19976"
           (Api.mkItem 19976 "Mystic Coin" demo_icon) "Gold" 50 60 Locale.initial_locale);
    vm_compute; reflexivity.
Defined.

Lemma gold_error_after_locale_witness :
  gold (A:=demo_api_missing) (L:=Locale.demo_lib) demo_headers "KEY" (Some "0") "Gold" 50 60
       Locale.initial_locale
  = (inl (ApiException ApiNotFound),
     Locale.set_first (L:=Locale.demo_lib) (Locale.lang_list "en-US,en;q=0.9") Locale.initial_locale).
Proof.
  apply (gold_error_after_locale (A:=demo_api_missing) (L:=Locale.demo_lib) demo_headers "KEY"
           (Some "0") "Gold" 50 60 Locale.initial_locale [Wallet.mkWalletEntry 1 123456] 12
           "en-US,en;q=0.9"); vm_compute; reflexivity.
Defined.

Lemma gold_embeds_unescaped_witness :
  str_infix "</script><script>alert(1)</script>" demo_injected_page ∧ str_infix "Gold" demo_injected_page.
Proof.
  apply (gold_embeds_unescaped (A:=demo_api) (L:=Locale.demo_lib) demo_headers
           "</script><script>alert(1)</script>" None "Gold" 50 60 Locale.initial_locale _ "en_US.ISO8859-1");
    [reflexivity|vm_compute; reflexivity].
Defined.

Lemma gold_item_embeds_unescaped_witness :
  str_infix "KEY" demo_item_page ∧ str_infix "19976" demo_item_page ∧
  ∃ obj, Api.items_get (GW2Api:=demo_api) "19976" = inr obj ∧ str_infix (Api.name obj) demo_item_page.
Proof.
  apply (gold_item_embeds_unescaped (A:=demo_api) (L:=Locale.demo_lib) demo_headers
           "KEY" (Some "19976") "19976" "Gold" 50 60 Locale.initial_locale _ "en_US.ISO8859-1");
    [reflexivity|vm_compute; reflexivity].
Defined.

(** The model renders the same bytes as the f-strings of main.py, for
    the request above without an item and with item 19976. *)
Example gold_page_bytes :
  map Ascii.nat_of_ascii (String.list_ascii_of_string demo_page) =
  [ 10; 32; 32; 32; 32; 32; 32; 32; 32; 60; 104; 116; 109; 108; 62; 10; 32; 32; 32; 32; 32; 32; 32;
    32; 32; 32; 32; 32; 60; 104; 101; 97; 100; 62; 10; 32; 32; 32; 32; 32; 32; 32; 32; 32; 32; 32;
    32; 32; 32; 32; 32; 10; 32; 32; 32; 32; 60; 115; 116; 121; 108; 101; 62; 10; 32; 32; 32; 32; 32;
    32; 32; 32; 46; 82; 111; 119; 32; 123; 10; 32; 32; 32; 32; 32; 32; 32; 32; 100; 105; 115; 112;
    108; 97; 121; 58; 32; 116; 97; 98; 108; 101; 59; 10; 32; 32; 32; 32; 125; 10; 32; 32; 32; 32;
    46; 67; 111; 108; 117; 109; 110; 32; 123; 10; 32; 32; 32; 32; 32; 32; 32; 32; 100; 105; 115;
    112; 108; 97; 121; 58; 32; 116; 97; 98; 108; 101; 45; 99; 101; 108; 108; 59; 10; 32; 32; 32; 32;
    32; 32; 32; 32; 112; 97; 100; 100; 105; 110; 103; 45; 108; 101; 102; 116; 58; 32; 53; 112; 120;
    59; 10; 32; 32; 32; 32; 32; 32; 32; 32; 112; 97; 100; 100; 105; 110; 103; 45; 114; 105; 103;
    104; 116; 58; 32; 53; 112; 120; 59; 10; 32; 32; 32; 32; 32; 32; 32; 32; 116; 101; 120; 116; 45;
    97; 108; 105; 103; 110; 58; 32; 99; 101; 110; 116; 101; 114; 59; 10; 32; 32; 32; 32; 32; 32; 32;
    32; 118; 101; 114; 116; 105; 99; 97; 108; 45; 97; 108; 105; 103; 110; 58; 32; 109; 105; 100;
    100; 108; 101; 59; 10; 32; 32; 32; 32; 125; 10; 32; 32; 32; 32; 46; 84; 101; 120; 116; 32; 123;
    10; 32; 32; 32; 32; 32; 32; 32; 32; 102; 111; 110; 116; 45; 115; 105; 122; 101; 58; 32; 50; 101;
    109; 59; 10; 32; 32; 32; 32; 32; 32; 32; 32; 99; 111; 108; 111; 114; 58; 32; 35; 70; 70; 68; 55;
    48; 48; 59; 10; 32; 32; 32; 32; 32; 32; 32; 32; 45; 119; 101; 98; 107; 105; 116; 45; 116; 101;
    120; 116; 45; 115; 116; 114; 111; 107; 101; 58; 32; 49; 112; 120; 32; 119; 104; 105; 116; 101;
    59; 10; 32; 32; 32; 32; 32; 32; 32; 32; 102; 111; 110; 116; 45; 102; 97; 109; 105; 108; 121; 58;
    32; 34; 76; 117; 99; 105; 100; 97; 32; 67; 111; 110; 115; 111; 108; 101; 34; 44; 32; 34; 67;
    111; 117; 114; 105; 101; 114; 32; 78; 101; 119; 34; 44; 32; 109; 111; 110; 111; 115; 112; 97;
    99; 101; 59; 10; 32; 32; 32; 32; 32; 32; 32; 32; 102; 111; 110; 116; 45; 119; 101; 105; 103;
    104; 116; 58; 32; 98; 111; 108; 100; 59; 10; 32; 32; 32; 32; 125; 10; 32; 32; 32; 32; 10; 32;
    32; 32; 32; 98; 111; 100; 121; 32; 123; 10; 32; 32; 32; 32; 32; 32; 32; 32; 98; 97; 99; 107;
    103; 114; 111; 117; 110; 100; 45; 99; 111; 108; 111; 114; 58; 32; 116; 114; 97; 110; 115; 112;
    97; 114; 101; 110; 116; 59; 10; 32; 32; 32; 32; 125; 10; 10; 32; 32; 32; 32; 60; 47; 115; 116;
    121; 108; 101; 62; 10; 32; 32; 32; 32; 10; 32; 32; 32; 32; 32; 32; 32; 32; 32; 32; 32; 32; 32;
    32; 32; 32; 10; 32; 32; 32; 32; 60; 115; 99; 114; 105; 112; 116; 62; 10; 32; 32; 32; 32; 99;
    111; 110; 115; 116; 32; 116; 101; 120; 116; 32; 61; 32; 34; 71; 111; 108; 100; 34; 59; 10; 32;
    32; 32; 32; 97; 115; 121; 110; 99; 32; 102; 117; 110; 99; 116; 105; 111; 110; 32; 117; 112; 100;
    97; 116; 101; 84; 101; 120; 116; 40; 41; 32; 123; 10; 32; 32; 32; 32; 32; 32; 32; 32; 99; 111;
    110; 115; 116; 32; 116; 101; 120; 116; 69; 108; 101; 109; 32; 61; 32; 100; 111; 99; 117; 109;
    101; 110; 116; 46; 103; 101; 116; 69; 108; 101; 109; 101; 110; 116; 66; 121; 73; 100; 40; 34;
    116; 101; 120; 116; 34; 41; 59; 10; 32; 32; 32; 32; 32; 32; 32; 32; 99; 111; 110; 115; 116; 32;
    114; 101; 115; 112; 111; 110; 115; 101; 32; 61; 32; 97; 119; 97; 105; 116; 32; 102; 101; 116;
    99; 104; 40; 34; 47; 103; 111; 108; 100; 95; 100; 97; 116; 97; 63; 34; 32; 43; 32; 10; 32; 32;
    32; 32; 32; 32; 32; 32; 110; 101; 119; 32; 85; 82; 76; 83; 101; 97; 114; 99; 104; 80; 97; 114;
    97; 109; 115; 40; 123; 10; 32; 32; 32; 32; 32; 32; 32; 32; 32; 32; 32; 32; 97; 112; 105; 107;
    101; 121; 58; 32; 34; 75; 69; 89; 34; 44; 10; 32; 32; 32; 32; 32; 32; 32; 32; 32; 32; 32; 32;
    116; 97; 114; 103; 101; 116; 58; 32; 34; 53; 48; 34; 10; 32; 32; 32; 32; 32; 32; 32; 32; 125;
    41; 10; 32; 32; 32; 32; 32; 32; 32; 32; 41; 59; 10; 32; 32; 32; 32; 32; 32; 32; 32; 99; 111;
    110; 115; 116; 32; 100; 97; 116; 97; 32; 61; 32; 97; 119; 97; 105; 116; 32; 114; 101; 115; 112;
    111; 110; 115; 101; 46; 106; 115; 111; 110; 40; 41; 59; 10; 32; 32; 32; 32; 32; 32; 32; 32; 116;
    101; 120; 116; 69; 108; 101; 109; 46; 105; 110; 110; 101; 114; 84; 101; 120; 116; 32; 61; 32;
    116; 101; 120; 116; 32; 43; 32; 34; 32; 34; 32; 43; 32; 100; 97; 116; 97; 46; 99; 117; 114; 114;
    101; 110; 116; 32; 43; 32; 34; 47; 34; 32; 43; 32; 100; 97; 116; 97; 46; 116; 97; 114; 103; 101;
    116; 59; 10; 32; 32; 32; 32; 125; 10; 32; 32; 32; 32; 115; 101; 116; 73; 110; 116; 101; 114;
    118; 97; 108; 40; 117; 112; 100; 97; 116; 101; 84; 101; 120; 116; 44; 32; 54; 48; 42; 49; 48;
    48; 48; 41; 10; 32; 32; 32; 32; 60; 47; 115; 99; 114; 105; 112; 116; 62; 10; 32; 32; 32; 32; 10;
    32; 32; 32; 32; 32; 32; 32; 32; 32; 32; 32; 32; 32; 32; 32; 32; 60; 116; 105; 116; 108; 101; 62;
    71; 111; 108; 100; 32; 111; 118; 101; 114; 108; 97; 121; 60; 47; 116; 105; 116; 108; 101; 62;
    10; 32; 32; 32; 32; 32; 32; 32; 32; 32; 32; 32; 32; 60; 47; 104; 101; 97; 100; 62; 10; 32; 32;
    32; 32; 32; 32; 32; 32; 32; 32; 32; 32; 60; 98; 111; 100; 121; 62; 10; 32; 32; 32; 32; 32; 32;
    32; 32; 32; 32; 32; 32; 32; 32; 32; 32; 10; 32; 32; 32; 32; 32; 32; 32; 32; 60; 100; 105; 118;
    32; 99; 108; 97; 115; 115; 61; 34; 82; 111; 119; 34; 62; 10; 32; 32; 32; 32; 32; 32; 32; 32; 60;
    100; 105; 118; 32; 99; 108; 97; 115; 115; 61; 34; 67; 111; 108; 117; 109; 110; 34; 62; 60; 112;
    32; 99; 108; 97; 115; 115; 61; 34; 84; 101; 120; 116; 34; 32; 105; 100; 61; 34; 116; 101; 120;
    116; 34; 62; 71; 111; 108; 100; 32; 49; 50; 47; 53; 48; 60; 47; 112; 62; 60; 47; 100; 105; 118;
    62; 10; 32; 32; 32; 32; 32; 32; 32; 32; 60; 47; 100; 105; 118; 62; 10; 32; 32; 32; 32; 32; 32;
    32; 32; 10; 32; 32; 32; 32; 32; 32; 32; 32; 32; 32; 32; 32; 60; 47; 98; 111; 100; 121; 62; 10;
    32; 32; 32; 32; 32; 32; 32; 32; 60; 47; 104; 116; 109; 108; 62; 10; 32; 32; 32; 32; 32; 32; 32;
    32 ].
Proof. vm_compute. reflexivity. Qed.

Example gold_item_page_bytes :
  map Ascii.nat_of_ascii (String.list_ascii_of_string demo_item_page) =
  [ 10; 32; 32; 32; 32; 32; 32; 32; 32; 60; 104; 116; 109; 108; 62; 10; 32; 32; 32; 32; 32; 32; 32;
    32; 32; 32; 32; 32; 60; 104; 101; 97; 100; 62; 10; 32; 32; 32; 32; 32; 32; 32; 32; 32; 32; 32;
    32; 32; 32; 32; 32; 10; 32; 32; 32; 32; 60; 115; 116; 121; 108; 101; 62; 10; 32; 32; 32; 32; 32;
    32; 32; 32; 46; 82; 111; 119; 32; 123; 10; 32; 32; 32; 32; 32; 32; 32; 32; 100; 105; 115; 112;
    108; 97; 121; 58; 32; 116; 97; 98; 108; 101; 59; 10; 32; 32; 32; 32; 125; 10; 32; 32; 32; 32;
    46; 67; 111; 108; 117; 109; 110; 32; 123; 10; 32; 32; 32; 32; 32; 32; 32; 32; 100; 105; 115;
    112; 108; 97; 121; 58; 32; 116; 97; 98; 108; 101; 45; 99; 101; 108; 108; 59; 10; 32; 32; 32; 32;
    32; 32; 32; 32; 112; 97; 100; 100; 105; 110; 103; 45; 108; 101; 102; 116; 58; 32; 53; 112; 120;
    59; 10; 32; 32; 32; 32; 32; 32; 32; 32; 112; 97; 100; 100; 105; 110; 103; 45; 114; 105; 103;
    104; 116; 58; 32; 53; 112; 120; 59; 10; 32; 32; 32; 32; 32; 32; 32; 32; 116; 101; 120; 116; 45;
    97; 108; 105; 103; 110; 58; 32; 99; 101; 110; 116; 101; 114; 59; 10; 32; 32; 32; 32; 32; 32; 32;
    32; 118; 101; 114; 116; 105; 99; 97; 108; 45; 97; 108; 105; 103; 110; 58; 32; 109; 105; 100;
    100; 108; 101; 59; 10; 32; 32; 32; 32; 125; 10; 32; 32; 32; 32; 46; 84; 101; 120; 116; 32; 123;
    10; 32; 32; 32; 32; 32; 32; 32; 32; 102; 111; 110; 116; 45; 115; 105; 122; 101; 58; 32; 50; 101;
    109; 59; 10; 32; 32; 32; 32; 32; 32; 32; 32; 99; 111; 108; 111; 114; 58; 32; 35; 70; 70; 68; 55;
    48; 48; 59; 10; 32; 32; 32; 32; 32; 32; 32; 32; 45; 119; 101; 98; 107; 105; 116; 45; 116; 101;
    120; 116; 45; 115; 116; 114; 111; 107; 101; 58; 32; 49; 112; 120; 32; 119; 104; 105; 116; 101;
    59; 10; 32; 32; 32; 32; 32; 32; 32; 32; 102; 111; 110; 116; 45; 102; 97; 109; 105; 108; 121; 58;
    32; 34; 76; 117; 99; 105; 100; 97; 32; 67; 111; 110; 115; 111; 108; 101; 34; 44; 32; 34; 67;
    111; 117; 114; 105; 101; 114; 32; 78; 101; 119; 34; 44; 32; 109; 111; 110; 111; 115; 112; 97;
    99; 101; 59; 10; 32; 32; 32; 32; 32; 32; 32; 32; 102; 111; 110; 116; 45; 119; 101; 105; 103;
    104; 116; 58; 32; 98; 111; 108; 100; 59; 10; 32; 32; 32; 32; 125; 10; 32; 32; 32; 32; 10; 32;
    32; 32; 32; 98; 111; 100; 121; 32; 123; 10; 32; 32; 32; 32; 32; 32; 32; 32; 98; 97; 99; 107;
    103; 114; 111; 117; 110; 100; 45; 99; 111; 108; 111; 114; 58; 32; 116; 114; 97; 110; 115; 112;
    97; 114; 101; 110; 116; 59; 10; 32; 32; 32; 32; 125; 10; 10; 32; 32; 32; 32; 60; 47; 115; 116;
    121; 108; 101; 62; 10; 32; 32; 32; 32; 10; 32; 32; 32; 32; 32; 32; 32; 32; 32; 32; 32; 32; 32;
    32; 32; 32; 10; 32; 32; 32; 32; 60; 115; 99; 114; 105; 112; 116; 62; 10; 32; 32; 32; 32; 99;
    111; 110; 115; 116; 32; 116; 101; 120; 116; 32; 61; 32; 34; 71; 111; 108; 100; 32; 102; 111;
    114; 32; 77; 121; 115; 116; 105; 99; 32; 67; 111; 105; 110; 34; 59; 10; 32; 32; 32; 32; 97; 115;
    121; 110; 99; 32; 102; 117; 110; 99; 116; 105; 111; 110; 32; 117; 112; 100; 97; 116; 101; 84;
    101; 120; 116; 40; 41; 32; 123; 10; 32; 32; 32; 32; 32; 32; 32; 32; 99; 111; 110; 115; 116; 32;
    116; 101; 120; 116; 69; 108; 101; 109; 32; 61; 32; 100; 111; 99; 117; 109; 101; 110; 116; 46;
    103; 101; 116; 69; 108; 101; 109; 101; 110; 116; 66; 121; 73; 100; 40; 34; 116; 101; 120; 116;
    34; 41; 59; 10; 32; 32; 32; 32; 32; 32; 32; 32; 99; 111; 110; 115; 116; 32; 114; 101; 115; 112;
    111; 110; 115; 101; 32; 61; 32; 97; 119; 97; 105; 116; 32; 102; 101; 116; 99; 104; 40; 34; 47;
    103; 111; 108; 100; 95; 100; 97; 116; 97; 63; 34; 32; 43; 32; 10; 32; 32; 32; 32; 32; 32; 32;
    32; 110; 101; 119; 32; 85; 82; 76; 83; 101; 97; 114; 99; 104; 80; 97; 114; 97; 109; 115; 40;
    123; 10; 32; 32; 32; 32; 32; 32; 32; 32; 32; 32; 32; 32; 97; 112; 105; 107; 101; 121; 58; 32;
    34; 75; 69; 89; 34; 44; 10; 32; 32; 32; 32; 32; 32; 32; 32; 32; 32; 32; 32; 105; 116; 101; 109;
    58; 32; 34; 49; 57; 57; 55; 54; 34; 44; 10; 32; 32; 32; 32; 32; 32; 32; 32; 125; 41; 10; 32; 32;
    32; 32; 32; 32; 32; 32; 41; 59; 10; 32; 32; 32; 32; 32; 32; 32; 32; 99; 111; 110; 115; 116; 32;
    100; 97; 116; 97; 32; 61; 32; 97; 119; 97; 105; 116; 32; 114; 101; 115; 112; 111; 110; 115; 101;
    46; 106; 115; 111; 110; 40; 41; 59; 10; 32; 32; 32; 32; 32; 32; 32; 32; 116; 101; 120; 116; 69;
    108; 101; 109; 46; 105; 110; 110; 101; 114; 84; 101; 120; 116; 32; 61; 32; 116; 101; 120; 116;
    32; 43; 32; 34; 32; 34; 32; 43; 32; 100; 97; 116; 97; 46; 99; 117; 114; 114; 101; 110; 116; 32;
    43; 32; 34; 47; 34; 32; 43; 32; 100; 97; 116; 97; 46; 116; 97; 114; 103; 101; 116; 59; 10; 32;
    32; 32; 32; 125; 10; 32; 32; 32; 32; 115; 101; 116; 73; 110; 116; 101; 114; 118; 97; 108; 40;
    117; 112; 100; 97; 116; 101; 84; 101; 120; 116; 44; 32; 54; 48; 42; 49; 48; 48; 48; 41; 10; 32;
    32; 32; 32; 60; 47; 115; 99; 114; 105; 112; 116; 62; 10; 32; 32; 32; 32; 10; 32; 32; 32; 32; 32;
    32; 32; 32; 32; 32; 32; 32; 32; 32; 32; 32; 60; 116; 105; 116; 108; 101; 62; 71; 111; 108; 100;
    32; 111; 118; 101; 114; 108; 97; 121; 60; 47; 116; 105; 116; 108; 101; 62; 10; 32; 32; 32; 32;
    32; 32; 32; 32; 32; 32; 32; 32; 60; 47; 104; 101; 97; 100; 62; 10; 32; 32; 32; 32; 32; 32; 32;
    32; 32; 32; 32; 32; 60; 98; 111; 100; 121; 62; 10; 32; 32; 32; 32; 32; 32; 32; 32; 32; 32; 32;
    32; 32; 32; 32; 32; 10; 32; 32; 32; 32; 32; 32; 32; 32; 60; 100; 105; 118; 32; 99; 108; 97; 115;
    115; 61; 34; 82; 111; 119; 34; 62; 10; 32; 32; 32; 32; 32; 32; 32; 32; 60; 100; 105; 118; 32;
    99; 108; 97; 115; 115; 61; 34; 67; 111; 108; 117; 109; 110; 34; 62; 60; 112; 32; 99; 108; 97;
    115; 115; 61; 34; 84; 101; 120; 116; 34; 32; 105; 100; 61; 34; 116; 101; 120; 116; 34; 62; 71;
    111; 108; 100; 32; 102; 111; 114; 32; 77; 121; 115; 116; 105; 99; 32; 67; 111; 105; 110; 32; 49;
    50; 47; 56; 60; 47; 112; 62; 60; 47; 100; 105; 118; 62; 10; 32; 32; 32; 32; 32; 32; 32; 32; 60;
    100; 105; 118; 32; 99; 108; 97; 115; 115; 61; 34; 67; 111; 108; 117; 109; 110; 34; 62; 60; 105;
    109; 103; 32; 115; 114; 99; 61; 34; 104; 116; 116; 112; 115; 58; 47; 47; 114; 101; 110; 100;
    101; 114; 46; 103; 117; 105; 108; 100; 119; 97; 114; 115; 50; 46; 99; 111; 109; 47; 99; 111;
    105; 110; 46; 112; 110; 103; 34; 32; 47; 62; 60; 47; 100; 105; 118; 62; 10; 32; 32; 32; 32; 32;
    32; 32; 32; 60; 47; 100; 105; 118; 62; 10; 32; 32; 32; 32; 32; 32; 32; 32; 10; 32; 32; 32; 32;
    32; 32; 32; 32; 32; 32; 32; 32; 60; 47; 98; 111; 100; 121; 62; 10; 32; 32; 32; 32; 32; 32; 32;
    32; 60; 47; 104; 116; 109; 108; 62; 10; 32; 32; 32; 32; 32; 32; 32; 32 ].
Proof. vm_compute. reflexivity. Qed.

End Handlers.
