(* ===== verification/Concurrency.v ===== *)
(** * Concurrent requests over the process-wide locale

    FastAPI runs the [async] handlers on one asyncio event loop.  A
    handler runs without interruption from one [await] to the next, and
    at an [await] the loop may run any other request.  The locale set by
    [locale.setlocale] is shared by all requests.

    A request is a coroutine ([Coro]): a chain of atomic segments.  Each
    segment reads the process-wide locale, writes it, and picks the rest
    of the request.  [gold_data] has the segments of main.py 197-205
    (up to [await ...wallet()]), 207-220 (up to [await
    ...prices(item)], or to the end without an item), and 222-234;
    [gold] those of main.py 83-85, 87-100, 101 and 102-194.  The
    pygw2 calls answer from a fixed [GW2Api] instance; only the locale
    changes between segments.

    [step] runs one segment of one request; [rtc step] is every
    interleaving the event loop can produce. *)

From stdpp Require Import relations.
From S2P Require Import Prelude PyStr Wallet Prices Locale Html Api Handlers.

Module Concurrency.

(** A response of either handler. *)
Inductive Response :=
  | RHtml (page : string)
  | RData (data : Html.GoldData).

(** A coroutine: finished with a result, or ready to run a segment that
    maps the locale [g] to [eff g] and continues with [k g]. *)
Inductive Coro :=
  | CDone (r : PyResult Response)
  | CStep (eff : string → string) (k : string → Coro).

(** A segment given as a [PyM] computation that returns the rest of the
    request; an exception ends the request. *)
Definition seg (m : PyM string Coro) : Coro :=
  CStep (λ g, snd (m g))
        (λ g, match fst (m g) with
              | inl e => CDone (inl e)
              | inr c => c
              end).

(** The point where the request suspends at an [await] before anything
    of its own has run. *)
Definition await_first (c : Coro) : Coro := CStep (λ g, g) (λ _, c).

(** Running a request alone from the locale [g]. *)
Fixpoint run (c : Coro) (g : string) : PyResult Response * string :=
  match c with
  | CDone r => (r, g)
  | CStep eff k => run (k g) (eff g)
  end.

Section WithLibs.
Context `{A : Api.GW2Api} `{L : Locale.LocaleLib}.

(** [gold_data] after its price [await] (main.py 220-234): the target,
    and the two numbers formatted in the locale current at that point. *)
Definition gold_data_seg2 (it : string) (target gold_amount : Z) : PyM string Coro :=
  prices ← pym_lift (Api.commerce_prices it);
  t ← pym_lift (Prices.resolve_target prices target);
  '(c, t) ← Handlers.format_pair gold_amount t;
  mret (CDone (inr (RData (Html.mkGoldData c t)))).

(** [gold_data] after its wallet [await] (main.py 205-220): the
    gold amount and the negotiation, then either the price [await] or
    the response. *)
Definition gold_data_seg1 (hs : Locale.Headers) (apikey : string) (item : option string)
    (target : Z) : PyM string Coro :=
  wallet ← pym_lift (Api.account_wallet apikey);
  gold_amount ← pym_lift (Wallet.gold_amount wallet);
  _ ← Locale.negotiate hs;
  match Handlers.item_truthy item with
  | Some it => mret (seg (gold_data_seg2 it target gold_amount))
  | None =>
      '(c, t) ← Handlers.format_pair gold_amount target;
      mret (CDone (inr (RData (Html.mkGoldData c t))))
  end.

(** [gold_data] split at its [await]s. *)
Definition gold_data_coro (hs : Locale.Headers) (apikey : string) (item : option string)
    (target : Z) : Coro :=
  await_first (seg (gold_data_seg1 hs apikey item target)).

(** [gold] after its price [await] (main.py 102-194): the target, and
    the page with the amounts formatted in the locale current then. *)
Definition gold_seg3 (apikey it : string) (item_obj : Api.Item) (target interval gold_amount : Z)
    : PyM string Coro :=
  prices ← pym_lift (Api.commerce_prices (PyStr.str_of_Z (Api.id item_obj)));
  t ← pym_lift (Prices.resolve_target prices target);
  '(g, t) ← Handlers.format_pair gold_amount t;
  mret (CDone (inr (RHtml
    (Html.page Html.css
       (Html.js ("Gold for " +:+ Api.name item_obj) (Html.params_item apikey it)
                (PyStr.str_of_Z interval))
       (Html.body_item (Api.name item_obj) g t (Html.image_tag (Api.icon item_obj))))))).

(** [gold] after its item [await] (main.py 101): the price lookup. *)
Definition gold_seg2 (apikey it : string) (target interval gold_amount : Z) : PyM string Coro :=
  item_obj ← pym_lift (Api.items_get it);
  mret (seg (gold_seg3 apikey it item_obj target interval gold_amount)).

(** [gold] after its wallet [await] (main.py 87-100): the gold amount
    and the negotiation, then either the item [await] or the page. *)
Definition gold_seg1 (hs : Locale.Headers) (apikey : string) (item : option string)
    (text : string) (target interval : Z) : PyM string Coro :=
  wallet ← pym_lift (Api.account_wallet apikey);
  gold_amount ← pym_lift (Wallet.gold_amount wallet);
  _ ← Locale.negotiate hs;
  match Handlers.item_truthy item with
  | Some it => mret (seg (gold_seg2 apikey it target interval gold_amount))
  | None =>
      '(g, t) ← Handlers.format_pair gold_amount target;
      mret (CDone (inr (RHtml
        (Html.page Html.css
           (Html.js text (Html.params_plain apikey (PyStr.str_of_Z target)) (PyStr.str_of_Z interval))
           (Html.body_plain text g t)))))
  end.

(** [gold] split at its [await]s. *)
Definition gold_coro (hs : Locale.Headers) (apikey : string) (item : option string)
    (text : string) (target interval : Z) : Coro :=
  await_first (seg (gold_seg1 hs apikey item text target interval)).

(** The sequential handler's result as a [Response]. *)
Definition as_data (r : PyResult Html.GoldData * string) : PyResult Response * string :=
  (match fst r with inl e => inl e | inr d => inr (RData d) end, snd r).
Definition as_html (r : PyResult string * string) : PyResult Response * string :=
  (match fst r with inl e => inl e | inr p => inr (RHtml p) end, snd r).

(** ** Alone, a coroutine is its handler *)

(** A [gold_data] request that no other request interrupts gives
    the result and the final locale of the sequential handler. *)
Theorem gold_data_coro_run (hs : Locale.Headers) (apikey : string) (item : option string)
    (target : Z) (g : string) :
  run (gold_data_coro hs apikey item target) g = as_data (Handlers.gold_data hs apikey item target g).
Proof.
  rewrite Handlers.gold_data_run.
  unfold gold_data_coro, gold_data_seg1, gold_data_seg2, await_first, seg, Handlers.data_target.
  simpl. pym_unfold. rewrite Locale.negotiate_eq.
  destruct (Api.account_wallet apikey) as [e|w]; [done|].
  destruct (Wallet.gold_amount w) as [e|ga]; [done|].
  destruct (Locale.header_get hs "accept-language") as [e|h]; [done|].
  destruct (Handlers.item_truthy item) as [it|]; [|done]. simpl.
  destruct (Api.commerce_prices it) as [e|p]; [done|].
  by destruct (Prices.resolve_target p target).
Qed.

(** The same for [gold]. *)
Theorem gold_coro_run (hs : Locale.Headers) (apikey : string) (item : option string)
    (text : string) (target interval : Z) (g : string) :
  run (gold_coro hs apikey item text target interval) g =
  as_html (Handlers.gold hs apikey item text target interval g).
Proof.
  rewrite Handlers.gold_run. unfold gold_coro, gold_seg1, gold_seg2, gold_seg3, await_first, seg, Handlers.gold_page.
  simpl. pym_unfold. rewrite Locale.negotiate_eq.
  destruct (Api.account_wallet apikey) as [e|w]; [done|].
  destruct (Wallet.gold_amount w) as [e|ga]; [done|].
  destruct (Locale.header_get hs "accept-language") as [e|h]; [done|].
  destruct (Handlers.item_truthy item) as [it|]; [|done]. simpl.
  destruct (Api.items_get it) as [e|o]; [done|]. simpl.
  destruct (Api.commerce_prices _) as [e|p]; [done|].
  by destruct (Prices.resolve_target p target).
Qed.

End WithLibs.

(** ** The event loop *)

(** The process-wide locale and the requests in flight, by index. *)
Record Config := mkConfig { glob : string; reqs : list Coro }.

(** One segment of request [i] runs. *)
Inductive step : Config → Config → Prop :=
  | step_run (g : string) (cs : list Coro) (i : nat) eff k :
      cs !! i = Some (CStep eff k) →
      step (mkConfig g cs) (mkConfig (eff g) (<[i := k g]> cs)).

(** The event loop following a schedule: each entry names the request
    whose next segment runs; a finished request is skipped. *)
Fixpoint exec (sched : list nat) (cfg : Config) : Config :=
  match sched with
  | [] => cfg
  | i :: sched' =>
      match reqs cfg !! i with
      | Some (CStep eff k) =>
          exec sched' (mkConfig (eff (glob cfg)) (<[i := k (glob cfg)]> (reqs cfg)))
      | _ => exec sched' cfg
      end
  end.

(** Every schedule is an interleaving of [step]s. *)
Lemma exec_rtc sched cfg : rtc step cfg (exec sched cfg).
Proof.
  revert cfg. induction sched as [|i sched IH]; intros [g cs]; simpl; [apply rtc_refl|].
  destruct (cs !! i) as [[r|eff k]|] eqn:Hi; [apply IH| |apply IH].
  eapply rtc_l; [by constructor|apply IH].
Qed.

(** Case analysis on every pygw2 answer and every early return a
    handler's segments depend on. *)
Ltac seg_cases :=
  pym_unfold; rewrite ?Locale.negotiate_eq;
  repeat match goal with
  | |- context [match Api.account_wallet ?k with _ => _ end] => destruct (Api.account_wallet k)
  | |- context [match Wallet.gold_amount ?w with _ => _ end] => destruct (Wallet.gold_amount w)
  | |- context [match Locale.header_get ?hs ?n with _ => _ end] => destruct (Locale.header_get hs n)
  | |- context [match Handlers.item_truthy ?i with _ => _ end] => destruct (Handlers.item_truthy i)
  | |- context [match Api.items_get ?i with _ => _ end] => destruct (Api.items_get i)
  | |- context [match Api.commerce_prices ?i with _ => _ end] => destruct (Api.commerce_prices i)
  | |- context [match Prices.resolve_target ?p ?t with _ => _ end] => destruct (Prices.resolve_target p t)
  end; simpl.

(** The schedule's one entry for a request still running is a [step]. *)
Lemma exec_one_step cfg i :
  is_Some (reqs cfg !! i) → (∀ r, reqs cfg !! i ≠ Some (CDone r)) → step cfg (exec [i] cfg).
Proof.
  destruct cfg as [g cs]; simpl. intros [c Hi] Hnd. rewrite Hi.
  destruct c as [r|eff k]; [by destruct (Hnd r)|]. by constructor.
Qed.

(** ** The locale invariant *)

Section Invariant.
Context `{A : Api.GW2Api} `{L : Locale.LocaleLib}.

(** The locales the process can be in: the initial one, or one that
    [setlocale] switched to. *)
Definition locale_ok (g : string) : Prop := g = Locale.initial_locale ∨ Locale.accepted g.

(** A segment that leaves the locale alone or switches to an accepted
    one. *)
Definition seg_ok (eff : string → string) : Prop := ∀ g, eff g = g ∨ Locale.accepted (eff g).

(** Every segment a coroutine may run is [seg_ok]. *)
Inductive good : Coro → Prop :=
  | good_done r : good (CDone r)
  | good_step eff k : seg_ok eff → (∀ g, good (k g)) → good (CStep eff k).

Definition writes_ok {X} (m : PyM string X) : Prop :=
  ∀ g, snd (m g) = g ∨ Locale.accepted (snd (m g)).
Definition returns_good (m : PyM string Coro) : Prop :=
  ∀ g c, fst (m g) = inr c → good c.

Lemma good_seg m : writes_ok m → returns_good m → good (seg m).
Proof.
  intros Hw Hr. constructor; [exact Hw|]. intros g.
  destruct (fst (m g)) as [e|c] eqn:E; [constructor|by apply (Hr g)].
Qed.

Lemma good_await_first c : good c → good (await_first c).
Proof. intros Hc. constructor; [by left|done]. Qed.

(** Segments that only read the locale. *)
Lemma good_seg_reader (m : PyM string Coro) :
  (∀ g, snd (m g) = g) → returns_good m → good (seg m).
Proof. intros Hr. apply good_seg. intros g. left. apply Hr. Qed.

(** Close [good] for a finished request or a segment that only reads. *)
Ltac good_close :=
  repeat first
    [ apply good_done
    | apply good_seg_reader; [done|]; intros ? ? Hm; simpl in Hm; simplify_eq ].

Lemma gold_data_coro_good hs apikey item target : good (gold_data_coro hs apikey item target).
Proof.
  apply good_await_first, good_seg; unfold gold_data_seg1, gold_data_seg2.
  - intros g. seg_cases; try (by left); apply Locale.set_first_same_or_accepted.
  - intros g c. seg_cases; intros Hc; simplify_eq; good_close.
Qed.

Lemma gold_coro_good hs apikey item text target interval :
  good (gold_coro hs apikey item text target interval).
Proof.
  apply good_await_first, good_seg; unfold gold_seg1, gold_seg2, gold_seg3.
  - intros g. seg_cases; try (by left); apply Locale.set_first_same_or_accepted.
  - intros g c. seg_cases; intros Hc; simplify_eq; good_close.
Qed.

(** A request as the server creates it: a fresh call of a handler. *)
Definition handler_req (c : Coro) : Prop :=
  (∃ hs apikey item target, c = gold_data_coro hs apikey item target) ∨
  (∃ hs apikey item text target interval, c = gold_coro hs apikey item text target interval).

Lemma handler_req_good c : handler_req c → good c.
Proof.
  intros [(hs & k & i & t & ->)|(hs & k & i & tx & t & n & ->)];
    [apply gold_data_coro_good|apply gold_coro_good].
Qed.

Lemma step_preserves cfg cfg' :
  step cfg cfg' → locale_ok (glob cfg) → Forall good (reqs cfg) →
  locale_ok (glob cfg') ∧ Forall good (reqs cfg').
Proof.
  intros [g cs i eff k Hi] Hg Hcs; simpl in *.
  pose proof (Forall_lookup_1 _ _ _ _ Hcs Hi) as Hgood. inversion Hgood as [|? ? Heff Hk]; subst.
  split; [|by apply Forall_insert].
  destruct (Heff g) as [->|Hacc]; [done|by right].
Qed.

Lemma reachable_good (cfg cfg' : Config) :
  rtc step cfg cfg' → locale_ok (glob cfg) → Forall good (reqs cfg) →
  locale_ok (glob cfg') ∧ Forall good (reqs cfg').
Proof.
  induction 1 as [|x y z Hxy _ IH]; [done|]. intros Hx Hgood.
  destruct (step_preserves x y Hxy Hx Hgood). by apply IH.
Qed.

(** Starting from an acceptable locale with any requests of the two
    handlers, under every interleaving the process-wide locale is the
    initial one or one that [setlocale] accepted. *)
Theorem reachable_locale_ok (cfg cfg' : Config) :
  rtc step cfg cfg' → locale_ok (glob cfg) → Forall handler_req (reqs cfg) →
  locale_ok (glob cfg').
Proof.
  intros Hsteps Hg Hreqs. apply (reachable_good cfg cfg' Hsteps Hg).
  eapply Forall_impl; [exact Hreqs|apply handler_req_good].
Qed.

End Invariant.

(** ** Isolation of the request without an item *)

Section Isolation.
Context `{A : Api.GW2Api} `{L : Locale.LocaleLib}.

Lemma step_lookup_other (g : string) (cs : list Coro) i j (k : string → Coro) :
  i ≠ j → (<[i := k g]> cs : list Coro) !! j = cs !! j.
Proof. intros Hij. by apply list_lookup_insert_ne. Qed.

Lemma step_lookup_same (g : string) (cs : list Coro) i (eff : string → string) (k : string → Coro) :
  cs !! i = Some (CStep eff k) → (<[i := k g]> cs : list Coro) !! i = Some (k g).
Proof. intros Hi. apply list_lookup_insert_eq. by eapply lookup_lt_Some. Qed.

(** How far a request has come: one of [stages], or not in flight. *)
Lemma rtc_step_stages (P : Coro → Prop) i cfg cfg' :
  (∀ eff k g, P (CStep eff k) → P (k g)) →
  rtc step cfg cfg' → (∀ c, reqs cfg !! i = Some c → P c) →
  ∀ c, reqs cfg' !! i = Some c → P c.
Proof.
  intros HP. induction 1 as [|x y z Hxy _ IH]; [done|]. intros Hx. apply IH.
  destruct Hxy as [g cs j eff k Hj]; simpl in *. intros c.
  destruct (decide (j = i)) as [->|Hne].
  - rewrite (step_lookup_same g cs i eff k Hj). intros [= <-]. by apply (HP eff), Hx.
  - rewrite (step_lookup_other g cs j i k Hne). apply Hx.
Qed.

(** A request that waits once and then finishes in one segment with [r0],
    whatever the locale, finishes with [r0] under every interleaving. *)
Lemma one_segment_result (m : PyM string Coro) (r0 : PyResult Response) i cfg cfg' :
  (∀ g, fst (m g) = inr (CDone r0)) →
  reqs cfg !! i = Some (await_first (seg m)) → rtc step cfg cfg' →
  ∀ r, reqs cfg' !! i = Some (CDone r) → r = r0.
Proof.
  intros Hm Hi Hsteps r Hr.
  apply (rtc_step_stages (λ c, c = await_first (seg m) ∨ c = seg m ∨ c = CDone r0)
           i cfg cfg') in Hr; [naive_solver| |done|].
  - intros eff k g [Hc|[Hc|Hc]]; [| |done].
    + injection Hc as _ ->. by right; left.
    + injection Hc as _ ->. right; right. by rewrite Hm.
  - intros c Hc. left. congruence.
Qed.

(** The negotiation of a header whose languages are [pre ++ l :: post],
    [pre] all rejected and [l] accepted as [st], from any locale. *)
Lemma negotiate_selects (hs : Locale.Headers) h pre l post st g :
  Locale.header_get hs "accept-language" = inr h →
  Locale.lang_list h = pre ++ l :: post → Locale.all_rejected pre →
  Locale.setlocale (Locale.normalize l) = Some st →
  Locale.negotiate hs g = (inr (), st).
Proof.
  intros Hh Hl Hpre Hst. rewrite Locale.negotiate_eq, Hh. simpl.
  f_equal. rewrite Hl. by apply Locale.set_first_first.
Qed.

(** C20: a request without an item whose header names a language that
    [setlocale] accepts answers in that language's locale, under every
    interleaving with other requests: its negotiation and its formatting
    run in the same segment, with no [await] between them. *)
Theorem no_item_isolated (hs : Locale.Headers) (apikey : string) (item : option string)
    (target : Z) (w : list Wallet.WalletEntry) (ga : Z) (h : string)
    (pre : list string) (l : string) (post : list string) (st : string)
    (cfg cfg' : Config) (i : nat) :
  Handlers.item_truthy item = None → Api.account_wallet apikey = inr w →
  Wallet.gold_amount w = inr ga → Locale.header_get hs "accept-language" = inr h →
  Locale.lang_list h = pre ++ l :: post → Locale.all_rejected pre →
  Locale.setlocale (Locale.normalize l) = Some st →
  reqs cfg !! i = Some (gold_data_coro hs apikey item target) →
  rtc step cfg cfg' →
  ∀ r, reqs cfg' !! i = Some (CDone r) →
       r = inr (RData (Html.mkGoldData (Locale.fmt_n st ga) (Locale.fmt_n st target))).
Proof.
  intros Hitem Hw Hga Hh Hl Hpre Hst Hi.
  apply (one_segment_result (gold_data_seg1 hs apikey item target) _ i cfg cfg'); [|done].
  intros g. unfold gold_data_seg1. pym_unfold.
  rewrite Hw, Hga, (negotiate_selects hs h pre l post st g Hh Hl Hpre Hst), Hitem. done.
Qed.

(** The same holds of the overlay page: a [gold] request without an
    item shows the gold amount and the target in the locale of the first
    accepted language, under every interleaving with other requests. *)
Theorem no_item_page_isolated (hs : Locale.Headers) (apikey : string) (item : option string)
    (text : string) (target interval : Z) (w : list Wallet.WalletEntry) (ga : Z) (h : string)
    (pre : list string) (l : string) (post : list string) (st : string)
    (cfg cfg' : Config) (i : nat) :
  Handlers.item_truthy item = None → Api.account_wallet apikey = inr w →
  Wallet.gold_amount w = inr ga → Locale.header_get hs "accept-language" = inr h →
  Locale.lang_list h = pre ++ l :: post → Locale.all_rejected pre →
  Locale.setlocale (Locale.normalize l) = Some st →
  reqs cfg !! i = Some (gold_coro hs apikey item text target interval) →
  rtc step cfg cfg' →
  ∀ r, reqs cfg' !! i = Some (CDone r) →
       r = inr (RHtml (Html.page Html.css
             (Html.js text (Html.params_plain apikey (PyStr.str_of_Z target)) (PyStr.str_of_Z interval))
             (Html.body_plain text (Locale.fmt_n st ga) (Locale.fmt_n st target)))).
Proof.
  intros Hitem Hw Hga Hh Hl Hpre Hst Hi.
  apply (one_segment_result (gold_seg1 hs apikey item text target interval) _ i cfg cfg'); [|done].
  intros g. unfold gold_seg1. pym_unfold.
  rewrite Hw, Hga, (negotiate_selects hs h pre l post st g Hh Hl Hpre Hst), Hitem. done.
Qed.

(** The step that finishes a request runs its last segment from the
    locale of the configuration it starts in. *)
Lemma step_finishes cfg cfg' i c r :
  step cfg cfg' → reqs cfg !! i = Some c → (∀ r', c ≠ CDone r') →
  reqs cfg' !! i = Some (CDone r) →
  ∃ eff k, c = CStep eff k ∧ k (glob cfg) = CDone r.
Proof.
  intros [g cs j eff k Hj] Hi Hc Hr; simpl in *.
  destruct (decide (j = i)) as [->|Hne].
  - rewrite Hi in Hj. injection Hj as ->. rewrite (step_lookup_same g cs i eff k) in Hr by congruence.
    injection Hr as Hk. by exists eff, k.
  - rewrite (step_lookup_other g cs j i k Hne), Hi in Hr. injection Hr as ->. by destruct (Hc r).
Qed.

(** A request all of whose segments but [Mlast] lead to another segment
    answers with [res g], where [g] is the locale its last segment starts
    from. *)
Lemma last_segment_answer (S : Coro → Prop) (Mlast : PyM string Coro)
    (res : string → PyResult Response) c0 cfg0 cfg cfg' i c r :
  (∀ eff k g, S (CStep eff k) → S (k g)) →
  (∀ eff k g r, S (CStep eff k) → k g = CDone r → CStep eff k = seg Mlast) →
  (∀ g, fst (Mlast g) = inr (CDone (res g))) →
  S c0 → reqs cfg0 !! i = Some c0 → rtc step cfg0 cfg → step cfg cfg' →
  reqs cfg !! i = Some c → (∀ r', c ≠ CDone r') → reqs cfg' !! i = Some (CDone r) →
  r = res (glob cfg).
Proof.
  intros Hcl Hlast Hres HS0 H0 Hsteps Hstep Hc Hnd Hr.
  destruct (step_finishes cfg cfg' i c r Hstep Hc Hnd Hr) as (eff & k & -> & Hk).
  assert (S (CStep eff k)) as HS.
  { apply (rtc_step_stages S i cfg0 cfg Hcl Hsteps); [|done]. intros c1 Hc1. congruence. }
  pose proof (Hlast eff k _ r HS Hk) as Hseg. injection Hseg as _ ->.
  simpl in Hk. rewrite Hres in Hk. by injection Hk.
Qed.

(** A segment [seg m] whose [m] always continues with [c'] does not finish
    the request. *)
Lemma seg_continues (m : PyM string Coro) c' eff k g r :
  (∀ g, fst (m g) = inr c') → (∀ r', c' ≠ CDone r') →
  CStep eff k = seg m → k g = CDone r → False.
Proof. intros Hm Hc' Hs Hk. injection Hs as _ ->. simpl in Hk. rewrite Hm in Hk. by eapply Hc'. Qed.

(** C21: a [gold_data] request with an item answers in whatever locale
    the process is in when its last segment starts, after
    [await api.commerce.prices(item)], not in the locale its own
    negotiation chose: under every interleaving, the step that finishes
    it formats the gold amount and the target with the process-wide
    locale of the configuration it runs from, which another request
    may have set in between (spec §5 names this race). *)
Theorem item_answer_current_locale (hs : Locale.Headers) (apikey : string) (item : option string)
    (it : string) (target : Z) (w : list Wallet.WalletEntry) (ga : Z) (h : string)
    (prices : Prices.PricesResp) (t : Z) (cfg0 cfg cfg' : Config) (i : nat) (c : Coro)
    (r : PyResult Response) :
  Handlers.item_truthy item = Some it → Api.account_wallet apikey = inr w →
  Wallet.gold_amount w = inr ga → Locale.header_get hs "accept-language" = inr h →
  Api.commerce_prices it = inr prices → Prices.resolve_target prices target = inr t →
  reqs cfg0 !! i = Some (gold_data_coro hs apikey item target) →
  rtc step cfg0 cfg → step cfg cfg' →
  reqs cfg !! i = Some c → (∀ r', c ≠ CDone r') → reqs cfg' !! i = Some (CDone r) →
  r = inr (RData (Html.mkGoldData (Locale.fmt_n (glob cfg) ga) (Locale.fmt_n (glob cfg) t))).
Proof.
  intros Hitem Hw Hga Hh Hp Ht H0 Hsteps Hstep Hc Hnd Hr.
  set (M1 := gold_data_seg1 hs apikey item target). set (M2 := gold_data_seg2 it target ga).
  assert (∀ g, fst (M1 g) = inr (seg M2)) as HM1.
  { intros g. subst M1. unfold gold_data_seg1. pym_unfold.
    by rewrite Hw, Hga, Locale.negotiate_eq, Hh, Hitem. }
  apply (last_segment_answer (λ c, c = await_first (seg M1) ∨ c = seg M1 ∨ c = seg M2 ∨ ∃ r', c = CDone r')
           M2 (λ g, inr (RData (Html.mkGoldData (Locale.fmt_n g ga) (Locale.fmt_n g t))))
           (gold_data_coro hs apikey item target) cfg0 cfg cfg' i c r);
    [| |intros g; subst M2; unfold gold_data_seg2; pym_unfold; by rewrite Hp, Ht|by left|done..].
  - intros eff k g [Hs|[Hs|[Hs|[r' Hs]]]]; [| | |done]; injection Hs as _ ->; simpl.
    + by right; left.
    + rewrite HM1. by right; right; left.
    + subst M2. unfold gold_data_seg2. pym_unfold. rewrite Hp, Ht. right; right; right. by eexists.
  - intros eff k g r0 [Hs|[Hs|[Hs|[r' Hs]]]] Hk; [| |done|done].
    + injection Hs as _ ->. discriminate.
    + destruct (seg_continues M1 (seg M2) eff k g r0 HM1 ltac:(discriminate) Hs Hk).
Qed.

(** The same for the overlay page with an item: the step that finishes a
    [gold] request, after its item and price [await]s, renders the amounts
    in the locale current when that step starts. *)
Theorem item_page_current_locale (hs : Locale.Headers) (apikey : string) (item : option string)
    (it text : string) (target interval : Z) (w : list Wallet.WalletEntry) (ga : Z) (h : string)
    (obj : Api.Item) (prices : Prices.PricesResp) (t : Z) (cfg0 cfg cfg' : Config) (i : nat)
    (c : Coro) (r : PyResult Response) :
  Handlers.item_truthy item = Some it → Api.account_wallet apikey = inr w →
  Wallet.gold_amount w = inr ga → Locale.header_get hs "accept-language" = inr h →
  Api.items_get it = inr obj → Api.commerce_prices (PyStr.str_of_Z (Api.id obj)) = inr prices →
  Prices.resolve_target prices target = inr t →
  reqs cfg0 !! i = Some (gold_coro hs apikey item text target interval) →
  rtc step cfg0 cfg → step cfg cfg' →
  reqs cfg !! i = Some c → (∀ r', c ≠ CDone r') → reqs cfg' !! i = Some (CDone r) →
  r = inr (RHtml (Html.page Html.css
        (Html.js ("Gold for " +:+ Api.name obj) (Html.params_item apikey it) (PyStr.str_of_Z interval))
        (Html.body_item (Api.name obj) (Locale.fmt_n (glob cfg) ga) (Locale.fmt_n (glob cfg) t)
                        (Html.image_tag (Api.icon obj))))).
Proof.
  intros Hitem Hw Hga Hh Ho Hp Ht H0 Hsteps Hstep Hc Hnd Hr.
  set (M1 := gold_seg1 hs apikey item text target interval).
  set (M2 := gold_seg2 apikey it target interval ga).
  set (M3 := gold_seg3 apikey it obj target interval ga).
  assert (∀ g, fst (M1 g) = inr (seg M2)) as HM1.
  { intros g. subst M1. unfold gold_seg1. pym_unfold.
    by rewrite Hw, Hga, Locale.negotiate_eq, Hh, Hitem. }
  assert (∀ g, fst (M2 g) = inr (seg M3)) as HM2.
  { intros g. subst M2. unfold gold_seg2. pym_unfold. by rewrite Ho. }
  apply (last_segment_answer
           (λ c, c = await_first (seg M1) ∨ c = seg M1 ∨ c = seg M2 ∨ c = seg M3 ∨ ∃ r', c = CDone r')
           M3 (λ g, inr (RHtml (Html.page Html.css
                 (Html.js ("Gold for " +:+ Api.name obj) (Html.params_item apikey it) (PyStr.str_of_Z interval))
                 (Html.body_item (Api.name obj) (Locale.fmt_n g ga) (Locale.fmt_n g t)
                                 (Html.image_tag (Api.icon obj))))))
           (gold_coro hs apikey item text target interval) cfg0 cfg cfg' i c r);
    [| |intros g; subst M3; unfold gold_seg3; pym_unfold; by rewrite Hp, Ht|by left|done..].
  - intros eff k g [Hs|[Hs|[Hs|[Hs|[r' Hs]]]]]; [| | | |done]; injection Hs as _ ->; simpl.
    + by right; left.
    + rewrite HM1. by right; right; left.
    + rewrite HM2. by right; right; right; left.
    + subst M3. unfold gold_seg3. pym_unfold. rewrite Hp, Ht. right; right; right; right. by eexists.
  - intros eff k g r0 [Hs|[Hs|[Hs|[Hs|[r' Hs]]]]] Hk; [| | |done|done].
    + injection Hs as _ ->. discriminate.
    + destruct (seg_continues M1 (seg M2) eff k g r0 HM1 ltac:(discriminate) Hs Hk).
    + destruct (seg_continues M2 (seg M3) eff k g r0 HM2 ltac:(discriminate) Hs Hk).
Qed.

(** C22: a [gold_data] request without an item whose languages
    [setlocale] all rejects never sets a locale of its own: under every
    interleaving it formats its numbers in whatever locale the previous
    requests left when its segment runs.  The same request therefore
    answers differently depending on earlier traffic. *)
Theorem rejected_answer_current_locale (hs : Locale.Headers) (apikey : string) (item : option string)
    (target : Z) (w : list Wallet.WalletEntry) (ga : Z) (h : string) (cfg0 cfg cfg' : Config)
    (i : nat) (c : Coro) (r : PyResult Response) :
  Handlers.item_truthy item = None → Api.account_wallet apikey = inr w →
  Wallet.gold_amount w = inr ga → Locale.header_get hs "accept-language" = inr h →
  Locale.all_rejected (Locale.lang_list h) →
  reqs cfg0 !! i = Some (gold_data_coro hs apikey item target) →
  rtc step cfg0 cfg → step cfg cfg' →
  reqs cfg !! i = Some c → (∀ r', c ≠ CDone r') → reqs cfg' !! i = Some (CDone r) →
  r = inr (RData (Html.mkGoldData (Locale.fmt_n (glob cfg) ga) (Locale.fmt_n (glob cfg) target))).
Proof.
  intros Hitem Hw Hga Hh Hrej H0 Hsteps Hstep Hc Hnd Hr.
  set (M1 := gold_data_seg1 hs apikey item target).
  assert (∀ g, Locale.negotiate hs g = (inr (), g)) as Hneg.
  { intros g. rewrite Locale.negotiate_eq, Hh. simpl. f_equal.
    by apply (Locale.set_first_rejected (Locale.lang_list h) g). }
  assert (∀ g, fst (M1 g) =
            inr (CDone (inr (RData (Html.mkGoldData (Locale.fmt_n g ga) (Locale.fmt_n g target))))))
    as HM1.
  { intros g. subst M1. unfold gold_data_seg1. pym_unfold. by rewrite Hw, Hga, Hneg, Hitem. }
  apply (last_segment_answer (λ c, c = await_first (seg M1) ∨ c = seg M1 ∨ ∃ r', c = CDone r')
           M1 (λ g, inr (RData (Html.mkGoldData (Locale.fmt_n g ga) (Locale.fmt_n g target))))
           (gold_data_coro hs apikey item target) cfg0 cfg cfg' i c r); [| |done|by left|done..].
  - intros eff k g [Hs|[Hs|[r' Hs]]]; [| |done]; injection Hs as _ ->; simpl; [by right; left|].
    rewrite HM1. right; right. by eexists.
  - intros eff k g r0 [Hs|[Hs|[r' Hs]]] Hk; [|done|done]. injection Hs as _ ->. discriminate.
Qed.

End Isolation.

(** ** The race on the item path *)

(** An account with 12345678 copper (1234 gold) and item 19976. *)
Definition demo_api_rich : Api.GW2Api := {|
  Api.account_wallet := λ _, inr [Wallet.mkWalletEntry 1 12345678];
  Api.items_get := λ _, inr (Api.mkItem 19976 "Mystic Coin" Handlers.demo_icon);
  Api.commerce_prices := λ _, inr (Prices.RPrice Prices.demo_price) |}.

(** A poll for item 19976 from an English browser. *)
Definition req_en_item : Coro :=
  gold_data_coro (A:=demo_api_rich) (L:=Locale.demo_lib)
    [("accept-language", "en-US")] "KEY" (Some "19976") 0.
(** A poll without an item from a German browser. *)
Definition req_de : Coro :=
  gold_data_coro (A:=demo_api_rich) (L:=Locale.demo_lib) [("accept-language", "de-DE")] "KEY" None 0.
(** A poll whose only language is not installed. *)
Definition req_xx : Coro :=
  gold_data_coro (A:=demo_api_rich) (L:=Locale.demo_lib) [("accept-language", "xx")] "KEY" None 0.

Definition race_start : Config := mkConfig Locale.initial_locale [req_en_item; req_de].

(** The race of [item_answer_current_locale] on a schedule: the English
    request sets [en_US] and suspends at [await api.commerce.prices(item)];
    the German request runs in between and sets [de_DE]; the English
    request then formats its 1234 gold as ["1.234"].  Run alone it
    answers ["1,234"]. *)
Example item_request_raced :
  rtc step race_start (exec [0; 0; 1; 1; 0] race_start)%nat ∧
  reqs (exec [0; 0; 1; 1; 0] race_start)%nat !! 0%nat =
    Some (CDone (inr (RData (Html.mkGoldData "1.234" "8")))) ∧
  fst (run req_en_item Locale.initial_locale) = inr (RData (Html.mkGoldData "1,234" "8")).
Proof. split; [apply exec_rtc|vm_compute; split; reflexivity]. Qed.

(** The inheritance of [rejected_answer_current_locale] on a schedule:
    after a German request, the request for [xx] formats ["1.234"], and
    alone it formats ["1234"] in the [C] locale. *)
Example rejected_language_inherits_locale :
  reqs (exec [0; 0; 1; 1] (mkConfig Locale.initial_locale [req_de; req_xx]))%nat !! 1%nat =
    Some (CDone (inr (RData (Html.mkGoldData "1.234" "0")))) ∧
  fst (run req_xx Locale.initial_locale) = inr (RData (Html.mkGoldData "1234" "0")).
Proof. vm_compute. split; reflexivity. Qed.

(** ** Witnesses *)

Lemma reachable_locale_ok_witness :
  locale_ok (L:=Locale.demo_lib) (glob (exec [0; 0; 1; 1; 0] race_start))%nat.
Proof.
  apply (reachable_locale_ok (A:=demo_api_rich) (L:=Locale.demo_lib) race_start);
    [apply exec_rtc|by left|].
  constructor; [left; by eexists _, _, _, _|].
  constructor; [left; by eexists _, _, _, _|]. constructor.
Defined.

Lemma no_item_isolated_witness :
  (inr (RData (Html.mkGoldData "1.234" "0")) : PyResult Response) =
  inr (RData (Html.mkGoldData (Locale.fmt_n (L:=Locale.demo_lib) "de_DE.ISO8859-1" 1234)
                              (Locale.fmt_n (L:=Locale.demo_lib) "de_DE.ISO8859-1" 0))).
Proof.
  apply (no_item_isolated (A:=demo_api_rich) (L:=Locale.demo_lib) [("accept-language", "de-DE")]
           "KEY" None 0 [Wallet.mkWalletEntry 1 12345678] 1234 "de-DE" [] "de-DE" []
           "de_DE.ISO8859-1" race_start (exec [0; 0; 1; 1; 0] race_start)%nat 1%nat);
    try (vm_compute; reflexivity).
  - constructor.
  - apply exec_rtc.
Defined.

(** The German overlay page raced against the English item poll. *)
Definition req_de_page : Coro :=
  gold_coro (A:=demo_api_rich) (L:=Locale.demo_lib) [("accept-language", "de-DE")] "KEY" None
    "Gold" 0 5.
Definition page_race_start : Config := mkConfig Locale.initial_locale [req_en_item; req_de_page].

(** What the page request has answered after [sched], if it has. *)
Definition answer (sched : list nat) (cfg : Config) (i : nat) : PyResult Response :=
  match reqs (exec sched cfg) !! i with
  | Some (CDone r) => r
  | _ => inl TypeError
  end.

Lemma no_item_page_isolated_witness :
  answer [0; 0; 1; 1; 0]%nat page_race_start 1 =
  inr (RHtml (Html.page Html.css
     (Html.js "Gold" (Html.params_plain "KEY" (PyStr.str_of_Z 0)) (PyStr.str_of_Z 5))
     (Html.body_plain "Gold" (Locale.fmt_n (L:=Locale.demo_lib) "de_DE.ISO8859-1" 1234)
                             (Locale.fmt_n (L:=Locale.demo_lib) "de_DE.ISO8859-1" 0)))).
Proof.
  apply (no_item_page_isolated (A:=demo_api_rich) (L:=Locale.demo_lib) [("accept-language", "de-DE")]
           "KEY" None "Gold" 0 5 [Wallet.mkWalletEntry 1 12345678] 1234 "de-DE" [] "de-DE" []
           "de_DE.ISO8859-1" page_race_start (exec [0; 0; 1; 1; 0] page_race_start)%nat 1%nat);
    try (vm_compute; reflexivity).
  - constructor.
  - apply exec_rtc.
Defined.

(** The race configuration just before the English request's last
    segment. *)
Definition race_mid : Config := exec [0; 0; 1; 1] race_start.

Definition race_mid_req : Coro :=
  match reqs race_mid !! 0 with Some c => c | None => CDone (inl TypeError) end.

Lemma item_answer_current_locale_witness :
  answer [0] race_mid 0 =
  inr (RData (Html.mkGoldData (Locale.fmt_n (L:=Locale.demo_lib) (glob race_mid) 1234)
                              (Locale.fmt_n (L:=Locale.demo_lib) (glob race_mid) 8))).
Proof.
  apply (item_answer_current_locale (A:=demo_api_rich) (L:=Locale.demo_lib) [("accept-language", "en-US")]
           "KEY" (Some "19976") "19976" 0 [Wallet.mkWalletEntry 1 12345678] 1234 "en-US"
           (Prices.RPrice Prices.demo_price) 8 race_start race_mid (exec [0] race_mid) 0 race_mid_req);
    try reflexivity; try apply exec_rtc;
    try (apply exec_one_step; [by eexists|]); try (intros r H; vm_compute in H; discriminate).
Defined.

(** In that configuration the German request has already set [de_DE]. *)
Example race_mid_locale : glob race_mid = "de_DE.ISO8859-1".
Proof. vm_compute. reflexivity. Qed.

(** Two requests one after the other: the German one, then one for [xx]. *)
Definition inherit_start : Config := mkConfig Locale.initial_locale [req_de; req_xx].
Definition inherit_mid : Config := exec [0; 0; 1] inherit_start.
Definition inherit_mid_req : Coro :=
  match reqs inherit_mid !! 1 with Some c => c | None => CDone (inl TypeError) end.

Lemma rejected_answer_current_locale_witness :
  answer [1] inherit_mid 1 =
  inr (RData (Html.mkGoldData (Locale.fmt_n (L:=Locale.demo_lib) (glob inherit_mid) 1234)
                              (Locale.fmt_n (L:=Locale.demo_lib) (glob inherit_mid) 0))).
Proof.
  apply (rejected_answer_current_locale (A:=demo_api_rich) (L:=Locale.demo_lib) [("accept-language", "xx")]
           "KEY" None 0 [Wallet.mkWalletEntry 1 12345678] 1234 "xx" inherit_start inherit_mid
           (exec [1] inherit_mid) 1 inherit_mid_req);
    try reflexivity; try apply exec_rtc;
    try (apply exec_one_step; [by eexists|]); try (intros r H; vm_compute in H; discriminate).
  repeat constructor.
Defined.

End Concurrency.
