(* ===== verification/OpenApi.v ===== *)
(** * [custom_openapi]: the nullable rewrite of the OpenAPI schema

    main.py 25-56.  On the first call it takes the schema FastAPI
    generates ([get_openapi], library code, here the input [generated]).
    For every component schema that has a non-empty ["required"] list and
    a non-empty ["properties"] dict, it sets [field["nullable"] = True] on
    each property not listed in ["required"].  It stores the result in
    [app.openapi_schema], which later calls return while it is truthy.

    JSON values are Python values: a dict is an association list in
    insertion order with distinct keys.  [d[k] = v] replaces the value in
    place, or appends when [k] is new.  [in], [d[k]] and [.items()] raise
    [TypeError] or [AttributeError] on values of the wrong type, as
    Python does.  The fields are updated in place through aliases
    ([field] is the dict inside the schema).  Here that is the same as
    rebuilding the schema with the updated values, since every
    reassignment of main.py 50 and 52 writes back the same object under
    its own key. *)

From S2P Require Import Prelude.

Module OpenApi.

(** A JSON value as [json.loads] would build it. *)
Inductive Json :=
  | JNull
  | JBool (b : bool)
  | JNum (z : Z)
  | JStr (s : string)
  | JArr (l : list Json)
  | JObj (kvs : list (string * Json)).

(** [d.get(k)] on a dict. *)
Fixpoint dget (k : string) (kvs : list (string * Json)) : option Json :=
  match kvs with
  | [] => None
  | (k', v) :: r => if decide (k = k') then Some v else dget k r
  end.

(** [d[k] = v]: in place when [k] is a key, appended otherwise. *)
Fixpoint dset (k : string) (v : Json) (kvs : list (string * Json)) : list (string * Json) :=
  match kvs with
  | [] => [(k, v)]
  | (k', v') :: r => if decide (k = k') then (k', v) :: r else (k', v') :: dset k v r
  end.

(** [bool(v)]. *)
Definition truthy (v : Json) : bool :=
  match v with
  | JNull => false
  | JBool b => b
  | JNum z => bool_decide (z ≠ 0)%Z
  | JStr s => bool_decide (s ≠ EmptyString)
  | JArr l => bool_decide (l ≠ [])
  | JObj kvs => bool_decide (kvs ≠ [])
  end.

(** [s] starts [t]. *)
Fixpoint str_prefix (s t : string) : bool :=
  match s, t with
  | EmptyString, _ => true
  | String a s', String b t' => bool_decide (a = b) && str_prefix s' t'
  | _, _ => false
  end.

(** [s in t] on two strings: a substring test. *)
Fixpoint str_contains (s t : string) : bool :=
  str_prefix s t ||
  match t with
  | EmptyString => false
  | String _ t' => str_contains s t'
  end.

(** [x in v] for a string [x]: an element of a list, a key of a dict, a
    substring of a string; [TypeError] on other values. *)
Definition py_in (x : string) (v : Json) : PyResult bool :=
  match v with
  | JArr l => inr (existsb (λ e, match e with JStr y => bool_decide (y = x) | _ => false end) l)
  | JObj kvs => inr (bool_decide (is_Some (dget x kvs)))
  | JStr s => inr (str_contains x s)
  | _ => inl TypeError
  end.

(** [v[k]] for a string [k]: [KeyError] on a dict without [k],
    [TypeError] on other values. *)
Definition py_getitem (v : Json) (k : string) : PyResult Json :=
  match v with
  | JObj kvs => match dget k kvs with Some x => inr x | None => inl (KeyError k) end
  | _ => inl TypeError
  end.

(** [v.items()]: only dicts have it. *)
Definition py_items (v : Json) : PyResult (list (string * Json)) :=
  match v with
  | JObj kvs => inr kvs
  | _ => inl AttributeError
  end.

(** [field["nullable"] = True] (main.py 47). *)
Definition set_nullable (field : Json) : PyResult Json :=
  match field with
  | JObj kvs => inr (JObj (dset "nullable" (JBool true) kvs))
  | _ => inl TypeError
  end.

(** The loop of main.py 45-50 over [component["properties"].items()]. *)
Fixpoint fix_properties (required : Json) (props : list (string * Json))
    : PyResult (list (string * Json)) :=
  match props with
  | [] => inr []
  | (f_name, field) :: rest =>
      match py_in f_name required with
      | inl e => inl e
      | inr is_req =>
          match (if is_req then inr field else set_nullable field) with
          | inl e => inl e
          | inr field' =>
              match fix_properties required rest with
              | inl e => inl e
              | inr rest' => inr ((f_name, field') :: rest')
              end
          end
      end
  end.

(** [v[k] = x] on a dict. *)
Definition py_setitem (v : Json) (k : string) (x : Json) : PyResult Json :=
  match v with
  | JObj kvs => inr (JObj (dset k x kvs))
  | _ => inl TypeError
  end.

(** main.py 39-50 on one component: the guard of main.py 39-44 with
    Python's short-circuit [and], then the property loop. *)
Definition fix_component (component : Json) : PyResult Json :=
  has_req ← py_in "required" component;
  if negb has_req then mret component else
  req ← py_getitem component "required";
  if negb (truthy req) then mret component else
  has_props ← py_in "properties" component;
  if negb has_props then mret component else
  props ← py_getitem component "properties";
  if negb (truthy props) then mret component else
  kvs ← py_items props;
  kvs' ← fix_properties req kvs;
  py_setitem component "properties" (JObj kvs').

(** The loop of main.py 38-52 over the component schemas. *)
Fixpoint fix_schemas (schemas : list (string * Json)) : PyResult (list (string * Json)) :=
  match schemas with
  | [] => mret []
  | (name, component) :: rest =>
      component' ← fix_component component;
      rest' ← fix_schemas rest;
      mret ((name, component') :: rest')
  end.

(** main.py 37-52 on the generated schema. *)
Definition nullable_pass (schema : Json) : PyResult Json :=
  components ← py_getitem schema "components";
  schemas ← py_getitem components "schemas";
  kvs ← py_items schemas;
  kvs' ← fix_schemas kvs;
  components' ← py_setitem components "schemas" (JObj kvs');
  py_setitem schema "components" components'.

(** main.py 30-56 after the cache test: rewrite the generated schema
    and store it in [app.openapi_schema]; an exception stores nothing. *)
Definition generate_and_cache (generated : Json) : PyM (option Json) Json :=
  s' ← pym_lift (nullable_pass generated);
  _ ← pym_put (Some s');
  mret s'.

(** main.py 25-56: [custom_openapi], with [app.openapi_schema] as state
    ([None] until the first successful call) and the schema [generated]
    that [get_openapi] returns. *)
Definition custom_openapi (generated : Json) : PyM (option Json) Json :=
  cached ← pym_get;
  match cached with
  | Some s => if truthy s then mret s else generate_and_cache generated
  | None => generate_and_cache generated
  end.

(** ** Dicts *)

Lemma dget_dset_eq k v kvs : dget k (dset k v kvs) = Some v.
Proof.
  induction kvs as [|[k' v'] kvs IH]; simpl; [by rewrite decide_True|].
  case_decide as Hk; simpl; [subst; by rewrite decide_True|by rewrite decide_False].
Qed.

Lemma dget_dset_ne k k' v kvs : k ≠ k' → dget k' (dset k v kvs) = dget k' kvs.
Proof.
  intros Hne. induction kvs as [|[k0 v0] kvs IH]; simpl.
  - by rewrite decide_False.
  - case_decide as Hk; simpl; [subst|]; repeat case_decide; congruence.
Qed.

Lemma dset_idem k v kvs : dset k v (dset k v kvs) = dset k v kvs.
Proof.
  induction kvs as [|[k' v'] kvs IH]; simpl; [by rewrite decide_True|].
  case_decide; simpl; [by rewrite decide_True|by rewrite decide_False, IH].
Qed.

Lemma dset_get_id k v kvs : dget k kvs = Some v → dset k v kvs = kvs.
Proof.
  induction kvs as [|[k' v'] kvs IH]; simpl; [done|].
  case_decide as Hk; [by intros [= ->]; subst|intros Hg; by rewrite IH].
Qed.

Lemma dset_keys k v kvs : is_Some (dget k kvs) → map fst (dset k v kvs) = map fst kvs.
Proof.
  induction kvs as [|[k' v'] kvs IH]; simpl; [by intros []|].
  case_decide as Hk; simpl; [done|intros Hs; by rewrite IH].
Qed.

#[export] Hint Rewrite dget_dset_eq dset_idem : overlay_rw.

(** ** The property loop, entry by entry *)

(** What the loop does to one entry of ["properties"]: a required field is
    kept, any other gets ["nullable"]. *)
Definition entry_fixed (required : Json) (e e' : string * Json) : Prop :=
  e'.1 = e.1 ∧
  match py_in e.1 required with
  | inr true => e'.2 = e.2
  | inr false => set_nullable e.2 = inr e'.2
  | inl _ => False
  end.

Lemma fix_properties_spec required props props' :
  fix_properties required props = inr props' → Forall2 (entry_fixed required) props props'.
Proof.
  revert props'. induction props as [|[f field] props IH]; intros props' H; simpl in H.
  - injection H as <-. constructor.
  - destruct (py_in f required) as [e|b] eqn:Hin; [done|].
    destruct (if b then inr field else set_nullable field) as [e|field'] eqn:Hf; [done|].
    destruct (fix_properties required props) as [e|rest'] eqn:Hr; [done|].
    injection H as <-. constructor; [|by apply IH].
    split; [done|]. simpl. rewrite Hin. destruct b; congruence.
Qed.

Lemma entry_fixed_lookup required props props' f v :
  Forall2 (entry_fixed required) props props' → dget f props = Some v →
  ∃ v', dget f props' = Some v' ∧ entry_fixed required (f, v) (f, v').
Proof.
  induction 1 as [|[k w] [k' w'] props props' [Hk He] _ IH]; simpl in *; [done|]. subst k'.
  case_decide as Hf; [intros [= <-]; subst; exists w'; by split|apply IH].
Qed.

Lemma Forall2_entry_fixed_keys required props props' :
  Forall2 (entry_fixed required) props props' → map fst props' = map fst props.
Proof. induction 1 as [|e e' ? ? [He _] _ IH]; simpl; [done|by rewrite He, IH]. Qed.

(** The loop leaves an already rewritten dict as it is. *)
Lemma fix_properties_idem required props props' :
  fix_properties required props = inr props' → fix_properties required props' = inr props'.
Proof.
  intros H. apply fix_properties_spec in H. induction H as [|[f v] [f' v'] props props' [Hk He] _ IH];
    simpl in *; [done|]. subst f'.
  destruct (py_in f required) as [e|[|]]; [done| |].
  - subst v'. by rewrite IH.
  - destruct v as [| | | | |fk]; try done. injection He as <-. simpl. by rewrite dset_idem, IH.
Qed.

Lemma py_getitem_obj v k x : py_getitem v k = inr x → ∃ kvs, v = JObj kvs ∧ dget k kvs = Some x.
Proof. destruct v; simpl; try done. destruct (dget k kvs) eqn:E; [intros [= <-]; by eexists|done]. Qed.

Lemma py_items_obj v kvs : py_items v = inr kvs → v = JObj kvs.
Proof. destruct v; simpl; congruence. Qed.

Lemma Forall2_entry_fixed_nil required props props' :
  Forall2 (entry_fixed required) props props' → props ≠ [] → props' ≠ [].
Proof. by destruct 1. Qed.

(** A component the pass rewrote goes through the guard again, with the
    same ["required"] list and the rewritten ["properties"]. *)
Lemma fix_component_rewritten ckvs req kvs' :
  dget "required" ckvs = Some req → truthy req = true → kvs' ≠ [] →
  fix_properties req kvs' = inr kvs' →
  fix_component (JObj (dset "properties" (JObj kvs') ckvs)) =
    inr (JObj (dset "properties" (JObj kvs') ckvs)).
Proof.
  intros Hreq Hr Hne Hfix. unfold fix_component. pyr_unfold. simpl.
  rewrite dget_dset_eq, (dget_dset_ne "properties" "required"), Hreq by done.
  simpl. rewrite Hr. simpl. rewrite (bool_decide_true (_ ≠ [])) by done. simpl.
  by rewrite Hfix, dset_idem.
Qed.

(** The pass leaves its own output as it is. *)
Lemma fix_component_idem c c' : fix_component c = inr c' → fix_component c' = inr c'.
Proof.
  intros H. pose proof H as H0. unfold fix_component in H. pyr_unfold.
  destruct (py_in "required" c) as [e|[|]]; [done| |by injection H as <-].
  destruct (py_getitem c "required") as [e|req] eqn:E2; [done|].
  destruct (truthy req) eqn:E3; [|by injection H as <-]. simpl in H.
  destruct (py_in "properties" c) as [e|[|]]; [done| |by injection H as <-].
  destruct (py_getitem c "properties") as [e|props] eqn:E5; [done|].
  destruct (truthy props) eqn:E6; [|by injection H as <-]. simpl in H.
  destruct (py_items props) as [e|kvs] eqn:E7; [done|].
  destruct (fix_properties req kvs) as [e|kvs'] eqn:E8; [done|].
  apply py_getitem_obj in E2 as (ckvs & -> & Hreq). apply py_items_obj in E7 as ->.
  injection H as <-. apply (fix_component_rewritten ckvs req kvs'); [done|done| |by eapply fix_properties_idem].
  apply fix_properties_spec in E8. eapply Forall2_entry_fixed_nil; [done|].
  intros ->. done.
Qed.

Lemma fix_schemas_idem kvs kvs' : fix_schemas kvs = inr kvs' → fix_schemas kvs' = inr kvs'.
Proof.
  revert kvs'. induction kvs as [|[name c] kvs IH]; intros kvs' H; simpl in *; pyr_unfold.
  - by injection H as <-.
  - destruct (fix_component c) as [e|c'] eqn:Hc; [done|].
    destruct (fix_schemas kvs) as [e|rest'] eqn:Hr; [done|]. injection H as <-. simpl.
    by rewrite (fix_component_idem _ _ Hc), (IH _ eq_refl).
Qed.

Lemma dset_not_nil k v kvs : dset k v kvs ≠ [].
Proof. destruct kvs as [|[k' v'] ?]; simpl; [done|by case_decide]. Qed.

(** The pass returns a non-empty dict, which the cache test finds
    truthy. *)
Lemma nullable_pass_truthy s s' : nullable_pass s = inr s' → truthy s' = true.
Proof.
  unfold nullable_pass. pyr_unfold.
  destruct (py_getitem s "components") as [e|comps] eqn:E1; [done|].
  destruct (py_getitem comps "schemas") as [e|schemas]; [done|].
  destruct (py_items schemas) as [e|kvs]; [done|].
  destruct (fix_schemas kvs) as [e|kvs']; [done|].
  apply py_getitem_obj in E1 as (skvs & -> & _). destruct comps; try done.
  simpl. intros [= <-]. simpl. apply bool_decide_true, dset_not_nil.
Qed.

(** ** Properties *)

(** C23: in a component with a non-empty ["required"] list and a
    non-empty ["properties"] dict, [custom_openapi]'s loop keeps every
    listed field and sets ["nullable"] on every other field, in place,
    with the fields in their order. *)
Theorem fix_component_spec (ckvs : list (string * Json)) (req : list Json)
    (props : list (string * Json)) (c' : Json) (f : string) (v : Json) :
  dget "required" ckvs = Some (JArr req) → req ≠ [] →
  dget "properties" ckvs = Some (JObj props) → props ≠ [] →
  fix_component (JObj ckvs) = inr c' → dget f props = Some v →
  ∃ props' v', c' = JObj (dset "properties" (JObj props') ckvs) ∧
    map fst props' = map fst props ∧ dget f props' = Some v' ∧
    (if existsb (λ e, match e with JStr y => bool_decide (y = f) | _ => false end) req
     then v' = v else ∃ fk, v = JObj fk ∧ v' = JObj (dset "nullable" (JBool true) fk)).
Proof.
  intros Hreq Hne Hprops Hpne Hfix Hf. unfold fix_component in Hfix. pyr_unfold. simpl in Hfix.
  rewrite Hreq in Hfix. simpl in Hfix. rewrite bool_decide_true in Hfix by done. simpl in Hfix.
  rewrite Hprops in Hfix. simpl in Hfix. rewrite bool_decide_true in Hfix by done. simpl in Hfix.
  destruct (fix_properties (JArr req) props) as [e|props'] eqn:Hp; [done|].
  injection Hfix as <-. apply fix_properties_spec in Hp.
  destruct (entry_fixed_lookup _ _ _ f v Hp Hf) as (v' & Hv' & _ & He).
  exists props', v'. split_and!; [done|by eapply Forall2_entry_fixed_keys|done|].
  simpl in He. destruct (existsb _ req); [done|].
  destruct v as [| | | | |fk]; simpl in He; try done. injection He as <-. by exists fk.
Qed.

(** C24: the first successful call stores its schema in
    [app.openapi_schema], and every later call returns that schema,
    whatever [get_openapi] would generate then. *)
Theorem custom_openapi_cached (gen1 gen2 s1 : Json) (st : option Json) :
  custom_openapi gen1 None = (inr s1, st) →
  st = Some s1 ∧ custom_openapi gen2 st = (inr s1, st).
Proof.
  unfold custom_openapi, generate_and_cache. pym_unfold. simpl.
  destruct (nullable_pass gen1) as [e|s] eqn:E; [done|]. intros [= <- <-].
  split; [done|]. simpl. by rewrite (nullable_pass_truthy _ _ E).
Qed.

(** C25: when the rewrite raises (no ["components"] or ["schemas"] key, a
    non-dict ["properties"] or field), [custom_openapi] raises and caches
    nothing, so the next call generates the schema again. *)
Theorem custom_openapi_error (gen : Json) (e : PyExc) :
  nullable_pass gen = inl e → custom_openapi gen None = (inl e, None).
Proof. intros E. unfold custom_openapi, generate_and_cache. pym_unfold. simpl. by rewrite E. Qed.

(** C26: the rewrite is idempotent: running the pass on its own output
    succeeds and changes nothing. *)
Theorem nullable_pass_idem (s s' : Json) : nullable_pass s = inr s' → nullable_pass s' = inr s'.
Proof.
  unfold nullable_pass. pyr_unfold.
  destruct (py_getitem s "components") as [e|comps] eqn:E1; [done|].
  destruct (py_getitem comps "schemas") as [e|schemas] eqn:E2; [done|].
  destruct (py_items schemas) as [e|kvs] eqn:E3; [done|].
  destruct (fix_schemas kvs) as [e|kvs'] eqn:E4; [done|].
  apply py_getitem_obj in E1 as (skvs & -> & Hc). apply py_getitem_obj in E2 as (ckvs & -> & Hs).
  simpl. intros [= <-]. simpl. autorewrite with overlay_rw. simpl. autorewrite with overlay_rw.
  simpl. rewrite (fix_schemas_idem _ _ E4). simpl. by autorewrite with overlay_rw.
Qed.

(** ** Witnesses and examples *)

(** A component with an optional field [note] and a required [id]. *)
Definition demo_props : list (string * Json) :=
  [("id", JObj [("type", JStr "integer")]); ("note", JObj [("type", JStr "string")])].
Definition demo_ckvs : list (string * Json) :=
  [("properties", JObj demo_props); ("required", JArr [JStr "id"]); ("type", JStr "object")].
Definition demo_component : Json := JObj demo_ckvs.
Definition demo_fixed : Json :=
  JObj [("properties", JObj [("id", JObj [("type", JStr "integer")]);
                             ("note", JObj [("type", JStr "string"); ("nullable", JBool true)])]);
        ("required", JArr [JStr "id"]); ("type", JStr "object")].

Definition demo_schema : Json :=
  JObj [("openapi", JStr "3.1.0");
        ("components", JObj [("schemas", JObj [("Item", demo_component)])])].

Lemma fix_component_spec_witness :
  ∃ props' v', demo_fixed = JObj (dset "properties" (JObj props') demo_ckvs) ∧
    map fst props' = map fst demo_props ∧ dget "note" props' = Some v' ∧
    (if existsb (λ e, match e with JStr y => bool_decide (y = "note") | _ => false end) [JStr "id"]
     then v' = JObj [("type", JStr "string")]
     else ∃ fk, JObj [("type", JStr "string")] = JObj fk ∧
                v' = JObj (dset "nullable" (JBool true) fk)).
Proof.
  apply (fix_component_spec demo_ckvs [JStr "id"] demo_props demo_fixed "note");
    try (vm_compute; reflexivity); discriminate.
Defined.

Lemma nullable_pass_idem_witness :
  nullable_pass (match nullable_pass demo_schema with inr s => s | inl _ => JNull end) =
  inr (match nullable_pass demo_schema with inr s => s | inl _ => JNull end).
Proof. apply (nullable_pass_idem demo_schema). vm_compute. reflexivity. Defined.

Lemma custom_openapi_cached_witness :
  Some (match nullable_pass demo_schema with inr s => s | inl _ => JNull end) =
    Some (match nullable_pass demo_schema with inr s => s | inl _ => JNull end) ∧
  custom_openapi JNull (Some (match nullable_pass demo_schema with inr s => s | inl _ => JNull end)) =
    (inr (match nullable_pass demo_schema with inr s => s | inl _ => JNull end),
     Some (match nullable_pass demo_schema with inr s => s | inl _ => JNull end)).
Proof. apply (custom_openapi_cached demo_schema). vm_compute. reflexivity. Defined.

(** A field given as the boolean schema [true] cannot take a key. *)
Definition demo_bool_field_schema : Json :=
  JObj [("components", JObj [("schemas", JObj [("Flag",
    JObj [("properties", JObj [("id", JObj []); ("extra", JBool true)]);
          ("required", JArr [JStr "id"])])])])].

Lemma custom_openapi_error_witness :
  custom_openapi demo_bool_field_schema None = (inl TypeError, None).
Proof. apply custom_openapi_error. vm_compute. reflexivity. Defined.

(** This application's own schemas: with pydantic 2, [Meta]'s fields
    [str | None] without a default are required, like [GoldData]'s, so
    the pass marks nothing nullable. *)
Definition app_component (name : string) (fields : list string) : Json :=
  JObj [("properties", JObj (map (λ f, (f, JObj [("title", JStr f)])) fields));
        ("required", JArr (map JStr fields)); ("title", JStr name); ("type", JStr "object")].

Definition app_schema : Json :=
  JObj [("components", JObj [("schemas", JObj [
    ("GoldData", app_component "GoldData" ["current"; "target"]);
    ("HTTPValidationError",
       JObj [("properties", JObj [("detail", JObj [("title", JStr "Detail")])]);
             ("title", JStr "HTTPValidationError"); ("type", JStr "object")]);
    ("Meta", app_component "Meta" ["version"; "build"]);
    ("ValidationError", app_component "ValidationError" ["loc"; "msg"; "type"])])])].

Example app_schema_unchanged : nullable_pass app_schema = inr app_schema.
Proof. vm_compute. reflexivity. Qed.

End OpenApi.
