(* ===== verification/JsonEq.v ===== *)
(** * Python's [==] on JSON values, and the nullable rewrite respects it

    Two dicts are equal in Python when they have the same keys and equal
    values under each key, in whatever order; lists compare element by
    element; [True == 1] and [False == 0].  [json_equiv] is that
    relation on the [Json] values of [OpenApi], an equivalence declared
    as stdpp's [≡].  A dict of [json.loads] or of FastAPI's generator
    has distinct keys at every level ([json_wf]).

    The operations of main.py 37-52 respect [≡]: [in], subscript,
    truthiness, [d[k] = v] and [.items()] give equal results on equal
    values, and so does the whole rewrite: on two equal well-formed
    schemas [nullable_pass] fails on both or returns equal schemas.
    Which exception it raises may differ, since the loops visit the
    components in the dicts' own order. *)

From stdpp Require Import sets.
From S2P Require Import Prelude OpenApi.

Module JsonEq.
Import OpenApi.

(** ** An induction principle with the values nested in lists *)

Section json_ind.
Variable P : Json → Prop.
Hypothesis Hnull : P JNull.
Hypothesis Hbool : ∀ b, P (JBool b).
Hypothesis Hnum : ∀ z, P (JNum z).
Hypothesis Hstr : ∀ s, P (JStr s).
Hypothesis Harr : ∀ l, Forall P l → P (JArr l).
Hypothesis Hobj : ∀ kvs, Forall (λ kv, P kv.2) kvs → P (JObj kvs).

Fixpoint json_ind' (v : Json) : P v :=
  match v with
  | JNull => Hnull
  | JBool b => Hbool b
  | JNum z => Hnum z
  | JStr s => Hstr s
  | JArr l =>
      Harr l ((fix go (l : list Json) : Forall P l :=
                 match l with
                 | [] => List.Forall_nil _
                 | x :: l' => List.Forall_cons _ x l' (json_ind' x) (go l')
                 end) l)
  | JObj kvs =>
      Hobj kvs ((fix go (kvs : list (string * Json)) : Forall (λ kv, P kv.2) kvs :=
                   match kvs with
                   | [] => List.Forall_nil _
                   | (k, x) :: kvs' => List.Forall_cons _ (k, x) kvs' (json_ind' x) (go kvs')
                   end) kvs)
  end.
End json_ind.

(** ** Python's [==] *)

Inductive json_equiv : Json → Json → Prop :=
  | jeq_null : json_equiv JNull JNull
  | jeq_bool b : json_equiv (JBool b) (JBool b)
  | jeq_num z : json_equiv (JNum z) (JNum z)
  | jeq_bool_num (b : bool) : json_equiv (JBool b) (JNum (if b then 1%Z else 0%Z))
  | jeq_num_bool (b : bool) : json_equiv (JNum (if b then 1%Z else 0%Z)) (JBool b)
  | jeq_str s : json_equiv (JStr s) (JStr s)
  | jeq_arr l1 l2 : Forall2 json_equiv l1 l2 → json_equiv (JArr l1) (JArr l2)
  | jeq_obj a b : (∀ k, option_Forall2 json_equiv (dget k a) (dget k b)) → json_equiv (JObj a) (JObj b).

(** The constructor that relates two scalars, with [b] evaluated. *)
Ltac jeq_scalar :=
  first [ exact (jeq_bool_num true) | exact (jeq_bool_num false)
        | exact (jeq_num_bool true) | exact (jeq_num_bool false) | constructor ].

#[export] Instance json_equiv_inst : Equiv Json := json_equiv.

(** Two dicts are equal: the same keys, with equal values. *)
Definition dict_equiv (a b : list (string * Json)) : Prop :=
  ∀ k, option_Forall2 (≡) (dget k a) (dget k b).

(** Distinct keys in every dict, as a Python dict has them. *)
Inductive json_wf : Json → Prop :=
  | wf_null : json_wf JNull
  | wf_bool b : json_wf (JBool b)
  | wf_num z : json_wf (JNum z)
  | wf_str s : json_wf (JStr s)
  | wf_arr l : Forall json_wf l → json_wf (JArr l)
  | wf_obj kvs : NoDup kvs.*1 → Forall (λ kv, json_wf kv.2) kvs → json_wf (JObj kvs).

(** [==] and well-formedness, executable: the entries of [a] are
    visited in order, and a key seen before is shadowed. *)
Fixpoint list_eqb (f : Json → Json → bool) (l1 l2 : list Json) : bool :=
  match l1, l2 with
  | [], [] => true
  | x :: l1', y :: l2' => f x y && list_eqb f l1' l2'
  | _, _ => false
  end.

Fixpoint obj_eqb (f : Json → Json → bool) (b : list (string * Json)) (seen : list string)
    (a : list (string * Json)) : bool :=
  match a with
  | [] => true
  | (k, v) :: a' =>
      (bool_decide (k ∈ seen) || match dget k b with Some w => f v w | None => false end)
      && obj_eqb f b (k :: seen) a'
  end.

Fixpoint json_eqb (v w : Json) : bool :=
  match v, w with
  | JNull, JNull => true
  | JBool b, JBool c => Bool.eqb b c
  | JNum z, JNum y => Z.eqb z y
  | JBool b, JNum z | JNum z, JBool b => Z.eqb z (if b then 1 else 0)
  | JStr s, JStr t => bool_decide (s = t)
  | JArr l1, JArr l2 => list_eqb json_eqb l1 l2
  | JObj a, JObj b => obj_eqb json_eqb b [] a && forallb (λ k, bool_decide (k ∈ a.*1)) b.*1
  | _, _ => false
  end.

Fixpoint json_wfb (v : Json) : bool :=
  match v with
  | JArr l => forallb json_wfb l
  | JObj kvs => bool_decide (NoDup kvs.*1) && forallb (λ kv, json_wfb kv.2) kvs
  | _ => true
  end.

(** ** The loops over [.items()]

    Both loops of main.py 38-52 compute a new value for each entry of a
    dict, in the dict's order, and stop at the first exception. *)
Fixpoint dict_map_res (g : string → Json → PyResult Json) (kvs : list (string * Json))
    : PyResult (list (string * Json)) :=
  match kvs with
  | [] => inr []
  | (k, v) :: r => v' ← g k v; r' ← dict_map_res g r; mret ((k, v') :: r')
  end.

(** The body of the loop of main.py 45-50. *)
Definition property_step (required : Json) (f_name : string) (field : Json) : PyResult Json :=
  py_in f_name required ≫= λ is_req : bool,
  if is_req then inr field else set_nullable field.

(** ** Lemmas on dicts *)

Lemma dget_elem k v kvs : dget k kvs = Some v → (k, v) ∈ kvs.
Proof.
  induction kvs as [|[k' v'] kvs IH]; simpl; [done|].
  case_decide; [intros [= ->]; subst; by left|intros; right; by apply IH].
Qed.

Lemma elem_dget k v kvs : NoDup kvs.*1 → (k, v) ∈ kvs → dget k kvs = Some v.
Proof.
  induction kvs as [|[k' v'] kvs IH]; simpl; [by intros _ ?%not_elem_of_nil|].
  intros [Hk Hnd]%NoDup_cons [[= -> ->]|Hin]%elem_of_cons; [by rewrite decide_True|].
  rewrite decide_False; [by apply IH|]. intros <-. apply Hk.
  apply list_elem_of_fmap. by exists (k, v).
Qed.

Lemma dget_None k kvs : dget k kvs = None ↔ k ∉ kvs.*1.
Proof.
  induction kvs as [|[k' v'] kvs IH]; simpl; [set_solver|].
  case_decide; subst; [set_solver|]. rewrite IH. set_solver.
Qed.

(** Symmetry and transitivity of a relation on lists and dicts, from
    the same property of the elements. *)
Section nested.
Context (R : Json → Json → Prop).

Lemma Forall2_sym_nested l1 l2 :
  Forall (λ x, ∀ y, R x y → R y x) l1 → Forall2 R l1 l2 → Forall2 R l2 l1.
Proof.
  intros Hs Hl. revert Hs. induction Hl as [|x y l1 l2 Hxy _ IH]; intros Hs; [constructor|].
  apply Forall_cons in Hs as [Hx Hs]. constructor; auto.
Qed.

Lemma Forall2_trans_nested l1 l2 l3 :
  Forall (λ x, ∀ y z, R x y → R y z → R x z) l1 → Forall2 R l1 l2 → Forall2 R l2 l3 → Forall2 R l1 l3.
Proof.
  intros Ht Hl. revert l3 Ht. induction Hl as [|x y l1 l2 Hxy _ IH]; intros l3 Ht Hl'; [done|].
  inversion Hl' as [|? z ? l3' Hyz Hl3]; subst.
  apply Forall_cons in Ht as [Hx Ht]. constructor; eauto.
Qed.

Lemma dict_sym_nested a b :
  Forall (λ kv, ∀ y, R kv.2 y → R y kv.2) a →
  (∀ k, option_Forall2 R (dget k a) (dget k b)) → ∀ k, option_Forall2 R (dget k b) (dget k a).
Proof.
  intros Hs Hab k. specialize (Hab k). destruct (dget k a) as [x|] eqn:E;
    inversion Hab as [? y Hxy|]; subst; constructor.
  apply dget_elem in E. exact (proj1 (Forall_forall _ _) Hs (k, x) E y Hxy).
Qed.

Lemma dict_trans_nested a b c :
  Forall (λ kv, ∀ y z, R kv.2 y → R y z → R kv.2 z) a →
  (∀ k, option_Forall2 R (dget k a) (dget k b)) → (∀ k, option_Forall2 R (dget k b) (dget k c)) →
  ∀ k, option_Forall2 R (dget k a) (dget k c).
Proof.
  intros Ht Hab Hbc k. specialize (Hab k). specialize (Hbc k).
  destruct (dget k a) as [x|] eqn:E, (dget k b) as [y|], (dget k c) as [z|];
    inversion Hab; inversion Hbc; subst; constructor.
  apply dget_elem in E. by eapply (proj1 (Forall_forall _ _) Ht (k, x) E).
Qed.
End nested.

Lemma json_equiv_refl v : json_equiv v v.
Proof.
  induction v as [| | | |l IH|kvs IH] using json_ind'; constructor.
  - induction IH; by constructor.
  - intros k. destruct (dget k kvs) as [x|] eqn:E; constructor.
    apply dget_elem in E. exact (proj1 (Forall_forall _ _) IH (k, x) E).
Qed.

Lemma json_equiv_sym v w : json_equiv v w → json_equiv w v.
Proof.
  revert w. induction v as [| | | |l IH|kvs IH] using json_ind'; intros w Hvw;
    inversion Hvw; subst; constructor; by eauto using Forall2_sym_nested, dict_sym_nested.
Qed.

Lemma json_equiv_trans u v w : json_equiv u v → json_equiv v w → json_equiv u w.
Proof.
  revert v w. induction u as [| | | |l IH|kvs IH] using json_ind'; intros v w Huv Hvw;
    inversion Huv; subst; inversion Hvw; subst;
    repeat match goal with b : bool |- _ => destruct b end; simplify_eq/=; jeq_scalar;
    by eauto using Forall2_trans_nested, dict_trans_nested.
Qed.

#[export] Instance json_equiv_equivalence : Equivalence (≡@{Json}).
Proof. split; [exact json_equiv_refl|exact json_equiv_sym|exact json_equiv_trans]. Qed.

(** ** Results of equal arguments

    [res_rel RE R] relates two results that both fail, with exceptions
    related by [RE], or both return, with values related by [R]. *)
Inductive res_rel {A} (RE : PyExc → PyExc → Prop) (R : A → A → Prop)
    : PyResult A → PyResult A → Prop :=
  | rr_err e1 e2 : RE e1 e2 → res_rel RE R (inl e1) (inl e2)
  | rr_ok x y : R x y → res_rel RE R (inr x) (inr y).
#[export] Hint Constructors res_rel : overlay.

Lemma res_rel_bind {A B} RE (R : A → A → Prop) (R' : B → B → Prop) m1 m2
    (f g : A → PyResult B) :
  res_rel RE R m1 m2 → (∀ x y, m1 = inr x → m2 = inr y → R x y → res_rel RE R' (f x) (g y)) →
  res_rel RE R' (m1 ≫= f) (m2 ≫= g).
Proof. intros [] Hfg; pyr_unfold; auto with overlay. Qed.

Lemma res_rel_refl {A} (m : PyResult A) : res_rel eq eq m m.
Proof. destruct m; by constructor. Qed.

Lemma res_rel_any {A} RE (R : A → A → Prop) m1 m2 :
  res_rel RE R m1 m2 → res_rel (λ _ _, True) R m1 m2.
Proof. intros []; auto with overlay. Qed.

(** ** Well-formed values *)

Lemma json_wf_dget kvs k x : json_wf (JObj kvs) → dget k kvs = Some x → json_wf x.
Proof.
  inversion 1 as [| | | | |? _ Hall]. intros Hin%dget_elem.
  exact (proj1 (Forall_forall _ _) Hall (k, x) Hin).
Qed.

Lemma json_wf_nodup kvs : json_wf (JObj kvs) → NoDup kvs.*1.
Proof. by inversion 1. Qed.

(** ** The operations of main.py 37-52 on equal values *)

Lemma dict_equiv_obj a b : dict_equiv a b ↔ JObj a ≡ JObj b.
Proof. split; [by constructor|by inversion 1]. Qed.

Lemma dict_equiv_sym a b : dict_equiv a b → dict_equiv b a.
Proof. rewrite !dict_equiv_obj. by symmetry. Qed.

Lemma dict_equiv_nonempty a b : dict_equiv a b → a ≠ [] → b ≠ [].
Proof.
  intros Hab Ha ->. destruct a as [|[k v] a]; [done|]. specialize (Hab k).
  simpl in Hab. rewrite decide_True in Hab by done. inversion Hab.
Qed.

Lemma truthy_proper v w : v ≡ w → truthy v = truthy w.
Proof.
  inversion 1 as [| | |[]|[]| |? ? Hl|a b Hab]; subst; simpl; try done.
  - apply bool_decide_ext. by destruct Hl.
  - apply bool_decide_ext. split; apply dict_equiv_nonempty; [done|].
    by apply dict_equiv_sym.
Qed.

Lemma existsb_Forall2 {A} (f : A → bool) (R : A → A → Prop) l1 l2 :
  (∀ x y, R x y → f x = f y) → Forall2 R l1 l2 → existsb f l1 = existsb f l2.
Proof. intros Hf Hl. induction Hl; simpl; [done|]. f_equal; auto. Qed.

Lemma py_in_proper x v w : v ≡ w → py_in x v = py_in x w.
Proof.
  inversion 1 as [| | |[]|[]| |? ? Hl|a b Hab]; subst; simpl; try done.
  - f_equal. eapply existsb_Forall2; [|done]. by intros ? ? [| | |[]|[]| | |].
  - f_equal. apply bool_decide_ext. specialize (Hab x). by destruct Hab.
Qed.

Lemma py_getitem_proper v w k : v ≡ w → res_rel eq (≡) (py_getitem v k) (py_getitem w k).
Proof.
  inversion 1 as [| | |[]|[]| |? ? Hl|a b Hab]; subst; simpl; auto with overlay.
  specialize (Hab k). destruct Hab; auto with overlay.
Qed.

Lemma py_items_proper v w : v ≡ w → res_rel eq dict_equiv (py_items v) (py_items w).
Proof. inversion 1 as [| | |[]|[]| | |]; subst; simpl; auto with overlay. Qed.

Lemma dset_proper k x y a b :
  x ≡ y → dict_equiv a b → dict_equiv (dset k x a) (dset k y b).
Proof.
  intros Hxy Hab k'. destruct (decide (k = k')) as [<-|Hne].
  - rewrite !dget_dset_eq. by constructor.
  - rewrite !dget_dset_ne by done. apply Hab.
Qed.

Lemma py_setitem_proper v w k x y :
  v ≡ w → x ≡ y → res_rel eq (≡) (py_setitem v k x) (py_setitem w k y).
Proof.
  inversion 1 as [| | |[]|[]| | |a b Hab]; subst; simpl; intros; auto with overlay.
  constructor. constructor. by apply dset_proper.
Qed.

Lemma set_nullable_proper v w : v ≡ w → res_rel eq (≡) (set_nullable v) (set_nullable w).
Proof.
  inversion 1 as [| | |[]|[]| | |a b Hab]; subst; simpl; auto with overlay.
  constructor. constructor. by apply dset_proper.
Qed.

Lemma fix_properties_map req props :
  fix_properties req props = dict_map_res (property_step req) props.
Proof.
  induction props as [|[f v] props IH]; [done|]. simpl. rewrite IH.
  unfold property_step. pyr_unfold. by repeat case_match.
Qed.

Lemma fix_schemas_map kvs : fix_schemas kvs = dict_map_res (λ _, fix_component) kvs.
Proof. induction kvs as [|[n c] kvs IH]; [done|]. simpl. by rewrite IH. Qed.

Section dict_map_res.
Context (g : string → Json → PyResult Json).

Lemma dict_map_res_ok kvs out k :
  dict_map_res g kvs = inr out → option_Forall2 (λ v v', g k v = inr v') (dget k kvs) (dget k out).
Proof.
  revert out. induction kvs as [|[k' v] kvs IH]; simpl; pyr_unfold; intros out Hout.
  - injection Hout as <-. constructor.
  - destruct (g k' v) eqn:Eg; [done|]. destruct (dict_map_res g kvs); [done|].
    injection Hout as <-. simpl. case_decide; subst; [by constructor|auto].
Qed.

Lemma dict_map_res_err kvs e :
  dict_map_res g kvs = inl e → ∃ k v, (k, v) ∈ kvs ∧ g k v = inl e.
Proof.
  induction kvs as [|[k v] kvs IH]; simpl; pyr_unfold; [done|].
  destruct (g k v) eqn:Eg; [intros [= ->]; exists k, v; split; [left|done]|].
  destruct (dict_map_res g kvs); [|done]. intros [= ->].
  destruct IH as (k' & v' & ? & ?); [done|]. exists k', v'. split; [by right|done].
Qed.

Lemma dict_map_res_elem_err kvs k v e :
  (k, v) ∈ kvs → g k v = inl e → ∃ e', dict_map_res g kvs = inl e'.
Proof.
  induction kvs as [|[k' v'] kvs IH]; simpl; pyr_unfold; [by intros ?%not_elem_of_nil|].
  intros [[= -> ->]|Hin]%elem_of_cons Hg; [rewrite Hg; eauto|].
  destruct (g k' v'); [eauto|]. destruct IH as [e' ->]; eauto.
Qed.

End dict_map_res.

(** A failure of the loop over [a] is a failure of the loop over [b],
    when every entry of [a] that fails has a key of [b] that fails. *)
Lemma dict_map_res_fail_transfer g1 g2 a b e :
  NoDup a.*1 →
  (∀ k v e, dget k a = Some v → g1 k v = inl e → ∃ w e', dget k b = Some w ∧ g2 k w = inl e') →
  dict_map_res g1 a = inl e → ∃ e', dict_map_res g2 b = inl e'.
Proof.
  intros Hnd Hab (k & v & Hin & Hg)%dict_map_res_err.
  destruct (Hab k v e) as (w & e' & Hw%dget_elem & Hg'); [by apply elem_dget|done|].
  by eapply dict_map_res_elem_err.
Qed.

Section dict_map_res_proper.
Context (g1 g2 : string → Json → PyResult Json) (RE : PyExc → PyExc → Prop).

Lemma res_rel_fails_l {R : Json → Json → Prop} m1 m2 e :
  res_rel RE R m1 m2 → m1 = inl e → ∃ e', m2 = inl e'.
Proof. intros [] ?; simplify_eq; eauto. Qed.

Lemma res_rel_fails_r {R : Json → Json → Prop} m1 m2 e :
  res_rel RE R m1 m2 → m2 = inl e → ∃ e', m1 = inl e'.
Proof. intros [] ?; simplify_eq; eauto. Qed.

(** The loop respects dict equality when its body does; which exception
    it raises depends on the order of the entries. *)
Lemma dict_map_res_proper a b :
  NoDup a.*1 → NoDup b.*1 → dict_equiv a b →
  (∀ k v w, dget k a = Some v → dget k b = Some w → v ≡ w → res_rel RE (≡) (g1 k v) (g2 k w)) →
  res_rel (λ _ _, True) dict_equiv (dict_map_res g1 a) (dict_map_res g2 b).
Proof.
  intros Hnda Hndb Hab Hg.
  destruct (dict_map_res g1 a) as [e|oa] eqn:Ea, (dict_map_res g2 b) as [e'|ob] eqn:Eb.
  - by constructor.
  - edestruct (dict_map_res_fail_transfer g1 g2 a b) as [? Hf]; [done| |done|congruence].
    intros k v e1 Hv He1. specialize (Hab k). rewrite Hv in Hab. inversion Hab as [? w Hvw Hw|].
    edestruct (res_rel_fails_l (R:=(≡))) as [e2 ?]; [by apply Hg|done|]. eauto.
  - edestruct (dict_map_res_fail_transfer g2 g1 b a) as [? Hf]; [done| |done|congruence].
    intros k w e1 Hw He1. specialize (Hab k). rewrite Hw in Hab. inversion Hab as [v ? Hvw Hv|].
    edestruct (res_rel_fails_r (R:=(≡))) as [e2 ?]; [by apply Hg|done|]. eauto.
  - constructor. intros k.
    pose proof (dict_map_res_ok g1 a oa k Ea) as Ha. pose proof (dict_map_res_ok g2 b ob k Eb) as Hb.
    specialize (Hab k). specialize (Hg k).
    destruct (dget k a) as [v|], (dget k b) as [w|]; inversion Hab as [? ? Hvw|];
      inversion Ha as [? v' Hv'|]; inversion Hb as [? w' Hw'|]; constructor.
    specialize (Hg v w eq_refl eq_refl Hvw). rewrite Hv', Hw' in Hg. by inversion Hg.
Qed.
End dict_map_res_proper.

(** ** The rewrite on equal schemas *)

Lemma py_in_error x v e : py_in x v = inl e → e = TypeError.
Proof. destruct v; simpl; congruence. Qed.

Lemma set_nullable_error v e : set_nullable v = inl e → e = TypeError.
Proof. destruct v; simpl; congruence. Qed.

(** Every exception of the property loop is a [TypeError]. *)
Lemma property_step_error req f v e : property_step req f v = inl e → e = TypeError.
Proof.
  unfold property_step. pyr_unfold.
  destruct (py_in f req) as [e'|[]] eqn:E; intros H; simplify_eq;
    eauto using py_in_error, set_nullable_error.
Qed.

Lemma fix_properties_error req props e : fix_properties req props = inl e → e = TypeError.
Proof.
  rewrite fix_properties_map. intros (k & v & _ & ?)%dict_map_res_err. by eapply property_step_error.
Qed.

Lemma property_step_proper req1 req2 f v w :
  req1 ≡ req2 → v ≡ w → res_rel eq (≡) (property_step req1 f v) (property_step req2 f w).
Proof.
  intros Hreq Hvw. unfold property_step. rewrite (py_in_proper f req1 req2 Hreq).
  apply (res_rel_bind _ eq); [apply res_rel_refl|intros [] ? _ _ <-]; auto using set_nullable_proper with overlay.
Qed.

Lemma res_rel_same_error {A} E (R : A → A → Prop) m1 m2 :
  res_rel (λ _ _, True) R m1 m2 → (∀ e, m1 = inl e → e = E) → (∀ e, m2 = inl e → e = E) →
  res_rel eq R m1 m2.
Proof. intros [e1 e2 _|] H1 H2; constructor; [rewrite (H1 e1), (H2 e2)|]; done. Qed.

Lemma fix_properties_proper req1 req2 a b :
  NoDup a.*1 → NoDup b.*1 → req1 ≡ req2 → dict_equiv a b →
  res_rel eq dict_equiv (fix_properties req1 a) (fix_properties req2 b).
Proof.
  intros Hna Hnb Hreq Hab. apply (res_rel_same_error TypeError); [|apply fix_properties_error..].
  rewrite !fix_properties_map. apply (dict_map_res_proper _ _ eq); [done..|].
  intros. by apply property_step_proper.
Qed.

(** A value of a well-formed dict that [py_getitem] finds, and the
    entries of a well-formed dict that [py_items] lists. *)
Lemma json_wf_getitem v k x : json_wf v → py_getitem v k = inr x → json_wf x.
Proof. intros ? (kvs & -> & ?)%py_getitem_obj. by eapply json_wf_dget. Qed.

Lemma json_wf_items v kvs : json_wf v → py_items v = inr kvs → NoDup kvs.*1.
Proof. intros ? ->%py_items_obj. by apply json_wf_nodup. Qed.

(** Close a branch of [fix_component] that returns the component. *)
Local Ltac rr_ret := pyr_unfold; auto with overlay.

Lemma fix_component_proper c1 c2 :
  json_wf c1 → json_wf c2 → c1 ≡ c2 → res_rel eq (≡) (fix_component c1) (fix_component c2).
Proof.
  intros Hw1 Hw2 Hc. unfold fix_component.
  rewrite (py_in_proper "required" c1 c2 Hc).
  apply (res_rel_bind _ eq); [apply res_rel_refl|intros [] ? _ _ <-]; simpl; [|rr_ret].
  apply (res_rel_bind _ (≡)); [by apply py_getitem_proper|intros r1 r2 _ _ Hr].
  rewrite (truthy_proper r1 r2 Hr). destruct (truthy r2); simpl; [|rr_ret].
  rewrite (py_in_proper "properties" c1 c2 Hc).
  apply (res_rel_bind _ eq); [apply res_rel_refl|intros [] ? _ _ <-]; simpl; [|rr_ret].
  apply (res_rel_bind _ (≡)); [by apply py_getitem_proper|intros p1 p2 Hp1 Hp2 Hp].
  rewrite (truthy_proper p1 p2 Hp). destruct (truthy p2); simpl; [|rr_ret].
  apply (res_rel_bind _ dict_equiv); [by apply py_items_proper|intros a b Ha Hb Hab].
  apply (res_rel_bind _ dict_equiv);
    [apply fix_properties_proper; eauto using json_wf_items, json_wf_getitem|intros o1 o2 _ _ Ho].
  apply py_setitem_proper; [done|by apply dict_equiv_obj].
Qed.

(** The dict that [py_items] lists is the value itself. *)
Lemma json_wf_items_obj v kvs : json_wf v → py_items v = inr kvs → json_wf (JObj kvs).
Proof. by intros ? ->%py_items_obj. Qed.

(** C10: Python's dict equality ignores the order of the keys, and so
    does the rewrite of main.py 37-52: on two equal well-formed schemas
    it either raises on both or returns equal schemas on both.  The
    exception itself can differ, since the loop meets the components in
    each dict's own order. *)
Theorem nullable_pass_proper s1 s2 :
  json_wf s1 → json_wf s2 → s1 ≡ s2 →
  res_rel (λ _ _, True) (≡) (nullable_pass s1) (nullable_pass s2).
Proof.
  intros Hw1 Hw2 Hs. unfold nullable_pass.
  apply (res_rel_bind _ (≡)); [by eapply res_rel_any, py_getitem_proper|intros c1 c2 Hc1 Hc2 Hc].
  apply (res_rel_bind _ (≡)); [by eapply res_rel_any, py_getitem_proper|intros d1 d2 Hd1 Hd2 Hd].
  apply (res_rel_bind _ dict_equiv); [by eapply res_rel_any, py_items_proper|intros a b Ha Hb Hab].
  pose proof (json_wf_items_obj _ _ (json_wf_getitem _ _ _ (json_wf_getitem _ _ _ Hw1 Hc1) Hd1) Ha) as Hwa.
  pose proof (json_wf_items_obj _ _ (json_wf_getitem _ _ _ (json_wf_getitem _ _ _ Hw2 Hc2) Hd2) Hb) as Hwb.
  apply (res_rel_bind _ dict_equiv).
  { rewrite !fix_schemas_map. apply (dict_map_res_proper _ _ eq); [by apply json_wf_nodup..|done|].
    intros. apply fix_component_proper; eauto using json_wf_dget. }
  intros o1 o2 _ _ Ho. apply (res_rel_bind _ (≡)).
  { by eapply res_rel_any, py_setitem_proper, dict_equiv_obj. }
  intros. by eapply res_rel_any, py_setitem_proper.
Qed.

(** ** The executable checks are sound *)

Lemma list_eqb_sound f l1 l2 :
  Forall (λ x, ∀ y, f x y = true → json_equiv x y) l1 → list_eqb f l1 l2 = true →
  Forall2 json_equiv l1 l2.
Proof.
  intros HF. revert l2. induction HF as [|x l1' Hx _ IH]; intros [|y l2']; simpl; try done.
  intros [? ?]%andb_prop. constructor; auto.
Qed.

Lemma obj_eqb_sound f b seen a :
  Forall (λ kv, ∀ y, f kv.2 y = true → json_equiv kv.2 y) a → obj_eqb f b seen a = true →
  ∀ k v, k ∉ seen → dget k a = Some v → ∃ w, dget k b = Some w ∧ json_equiv v w.
Proof.
  intros HF. revert seen. induction HF as [|[k' v'] a' Hv _ IH]; intros seen; simpl; [done|].
  intros [Hk Hrest]%andb_prop k v Hseen. destruct (decide (k = k')) as [<-|Hkk].
  - intros [= <-]. rewrite bool_decide_false in Hk by done. simpl in Hk.
    destruct (dget k b) as [w|]; [eauto|done].
  - apply (IH _ Hrest). set_solver.
Qed.

Lemma json_eqb_sound v w : json_eqb v w = true → v ≡ w.
Proof.
  revert w. induction v as [|b|z|s|l IH|a IH] using json_ind';
    intros [|c|y|t|l2|a2] Heq; simpl in Heq; try done;
    repeat match goal with
    | H : Bool.eqb _ _ = true |- _ => apply Bool.eqb_prop in H
    | H : Z.eqb _ _ = true |- _ => apply Z.eqb_eq in H
    | H : bool_decide _ = true |- _ => apply bool_decide_eq_true in H
    end; subst; try (jeq_scalar; done).
  - constructor. by eapply list_eqb_sound.
  - apply andb_prop in Heq as [Ha Hb]. constructor. intros k.
    destruct (dget k a) as [v|] eqn:Hk.
    + destruct (obj_eqb_sound _ _ _ _ IH Ha k v) as (w & -> & ?); [set_solver|done|by constructor].
    + enough (dget k a2 = None) as -> by constructor.
      apply dget_None. apply dget_None in Hk. intros Hin. apply Hk.
      apply forallb_forall with (x := k) in Hb; [by apply bool_decide_eq_true in Hb|by apply list_elem_of_In].
Qed.

Lemma json_wfb_sound v : json_wfb v = true → json_wf v.
Proof.
  induction v as [| | | |l IH|kvs IH] using json_ind'; simpl; intros Hv; try constructor.
  - induction IH; simpl in Hv; [by constructor|]. apply andb_prop in Hv as [? ?]. constructor; auto.
  - apply andb_prop in Hv as [Hnd _]. by apply bool_decide_eq_true in Hnd.
  - apply andb_prop in Hv as [_ Hall].
    induction IH as [|[k x] kvs Hx _ IHk]; simpl in Hall; [by constructor|].
    apply andb_prop in Hall as [? ?]. constructor; auto.
Qed.

(** ** Witnesses and examples *)

(** [demo_schema] with the keys of every dict in another order. *)
Definition demo_schema_reordered : Json :=
  JObj [("components", JObj [("schemas", JObj [("Item",
          JObj [("type", JStr "object"); ("required", JArr [JStr "id"]);
                ("properties", JObj [("note", JObj [("type", JStr "string")]);
                                     ("id", JObj [("type", JStr "integer")])])])])]);
        ("openapi", JStr "3.1.0")].

Lemma nullable_pass_proper_witness :
  json_wf demo_schema ∧ json_wf demo_schema_reordered ∧ demo_schema ≡ demo_schema_reordered ∧
  res_rel (λ _ _, True) (≡) (nullable_pass demo_schema) (nullable_pass demo_schema_reordered).
Proof.
  assert (json_wf demo_schema) as H1 by (apply json_wfb_sound; vm_compute; reflexivity).
  assert (json_wf demo_schema_reordered) as H2 by (apply json_wfb_sound; vm_compute; reflexivity).
  assert (demo_schema ≡ demo_schema_reordered) as H3 by (apply json_eqb_sound; vm_compute; reflexivity).
  split; [exact H1|split; [exact H2|split; [exact H3|]]].
  exact (nullable_pass_proper demo_schema demo_schema_reordered H1 H2 H3).
Defined.

(** Two malformed components: [properties] given as a list, which has
    no [.items()], and a field given as the boolean schema [true]. *)
Definition list_props_component : Json :=
  JObj [("required", JArr [JStr "id"]); ("properties", JArr [JStr "id"])].
Definition bool_field_component : Json :=
  JObj [("properties", JObj [("id", JObj []); ("extra", JBool true)]);
        ("required", JArr [JStr "id"])].
Definition schemas_in_order (first second : string * Json) : Json :=
  JObj [("components", JObj [("schemas", JObj [first; second])])].

(** Equal schemas, and the exception depends on the order of the keys. *)
Example nullable_pass_error_order :
  schemas_in_order ("A", list_props_component) ("B", bool_field_component)
    ≡ schemas_in_order ("B", bool_field_component) ("A", list_props_component) ∧
  nullable_pass (schemas_in_order ("A", list_props_component) ("B", bool_field_component))
    = inl AttributeError ∧
  nullable_pass (schemas_in_order ("B", bool_field_component) ("A", list_props_component))
    = inl TypeError.
Proof. split; [apply json_eqb_sound|split]; vm_compute; reflexivity. Qed.

End JsonEq.
