(* ===== verification/AppConfig.v ===== *)
(** * The settings, the CORS middleware and [GET /meta]

    [src/config/__init__.py] builds [settings = Settings()], a
    pydantic-settings class whose field defaults read [os.environ] when the
    class body runs; [ORIGINS] is a [list[AnyHttpUrl]], and
    pydantic-settings validates defaults too, so its items become
    pydantic [Url] objects.  main.py 12 passes [ROOT_PATH] to [FastAPI],
    main.py 61-67 install Starlette's [CORSMiddleware] with
    [allow_origins=settings.ORIGINS], and main.py 70-72 return the
    version and build.

    The libraries enter as follows.  pydantic's URL validator and
    pydantic-settings' JSON decoding of a list-valued environment
    variable are the parameters of [SettingsLib].  Python's [==] between a
    [str] and a [Url] is [py_eq].  Starlette's middleware ([__init__],
    [is_allowed_origin], [preflight_response], [simple_response] and the
    dispatch of [__call__]) is written out from its source. *)

From Stdlib Require Import Ascii.
From S2P Require Import Prelude PyStr Locale Html.

Module AppConfig.

(** ** Python values in [allow_origins] *)

(** A [str], or the [Url] object pydantic makes of an [AnyHttpUrl] with
    its normalised text ([str(url)]). *)
Inductive PyVal :=
  | VStr (s : string)
  | VUrl (u : string).

(** [a == b]: a [Url] equals only a [Url] of the same text, a [str] only
    the same [str]. *)
Definition py_eq (a b : PyVal) : bool :=
  match a, b with
  | VStr x, VStr y => bool_decide (x = y)
  | VUrl x, VUrl y => bool_decide (x = y)
  | _, _ => false
  end.

(** [x in l] on a list. *)
Definition py_in (x : PyVal) (l : list PyVal) : bool := existsb (py_eq x) l.

(** ** The settings class *)

(** pydantic-settings' reading of a list-valued variable: [json.loads]
    fails, gives something other than a list of strings, or gives one. *)
Inductive Decoded :=
  | NotJson
  | NotStrList
  | StrList (l : list string).

(** The library functions [Settings()] relies on. *)
Class SettingsLib := {
  validate_http_url : string → option string;
  decode_env_list : string → Decoded
}.

(** The process environment, [os.environ.get]. *)
Definition Env := string → option string.

(** [config.Settings]: the fields the application reads. *)
Record Settings := mkSettings {
  ROOT_PATH : option string;
  ORIGINS : list PyVal;
  VERSION : string;
  BUILD : string
}.

Section WithLib.
Context `{SettingsLib}.

(** [list[AnyHttpUrl]] validation of the raw items. *)
Definition validate_origins (raw : list string) : PyResult (list PyVal) :=
  mapM (λ s, match validate_http_url s with
             | Some u => inr (VUrl u)
             | None => inl (ValidationError "ORIGINS")
             end) raw.

(** The raw [ORIGINS]: the variable [ORIGINS] when it is set, else the
    class default [[os.environ.get("HOSTNAME", "http://localhost:8800")]]. *)
Definition raw_origins (env : Env) : PyResult (list string) :=
  match env "ORIGINS" with
  | Some v =>
      match decode_env_list v with
      | NotJson => inl (SettingsError "ORIGINS")
      | NotStrList => inl (ValidationError "ORIGINS")
      | StrList l => inr l
      end
  | None => inr [default "http://localhost:8800" (env "HOSTNAME")]
  end.

(** [Settings()].  The other fields read the variable of their own name
    both as default and as override, so each is that variable or the
    default. *)
Definition settings_of_env (env : Env) : PyResult Settings :=
  raw ← raw_origins env;
  origins ← validate_origins raw;
  mret {| ROOT_PATH := env "ROOT_PATH";
          ORIGINS := origins;
          VERSION := default "UNKNOWN" (env "VERSION");
          BUILD := default "UNKNOWN" (env "BUILD") |}.

End WithLib.

(** main.py 70-72: [GET /meta]. *)
Definition meta (settings : Settings) : Html.Meta :=
  Html.mkMeta (Some (VERSION settings)) (Some (BUILD settings)).

(** ** Starlette's [CORSMiddleware] *)

Definition ALL_METHODS : list string := ["DELETE"; "GET"; "HEAD"; "OPTIONS"; "PATCH"; "POST"; "PUT"].
Definition SAFELISTED_HEADERS : list string :=
  ["Accept"; "Accept-Language"; "Content-Language"; "Content-Type"].

(** The middleware's state after [__init__] (no [allow_origin_regex]
    and no [expose_headers], as main.py passes none). *)
Record CORSMiddleware := mkCORS {
  allow_origins : list PyVal;
  allow_methods : list string;
  allow_headers : list string;
  allow_all_origins : bool;
  allow_all_headers : bool;
  allow_credentials : bool;
  preflight_explicit_allow_origin : bool
}.

Definition str_in (x : string) (l : list string) : bool := bool_decide (x ∈ l).

(** [sep.join(l)]. *)
Fixpoint join_sep (sep : string) (l : list string) : string :=
  match l with
  | [] => EmptyString
  | [x] => x
  | x :: l' => x +:+ sep +:+ join_sep sep l'
  end.

Definition ascii_lower (a : Ascii.ascii) : Ascii.ascii :=
  let n := Ascii.nat_of_ascii a in
  if decide (65 ≤ n ≤ 90)%nat then Ascii.ascii_of_nat (n + 32) else a.

(** [s.lower()] on ASCII text. *)
Fixpoint str_lower (s : string) : string :=
  match s with
  | EmptyString => EmptyString
  | String a s' => String (ascii_lower a) (str_lower s')
  end.

Definition is_space (a : Ascii.ascii) : bool :=
  bool_decide (a ∈ [" "; "009"; "010"; "013"]%char).

Fixpoint strip_left (s : string) : string :=
  match s with
  | String a s' => if is_space a then strip_left s' else s
  | EmptyString => EmptyString
  end.

(** [s.strip()]. *)
Definition strip (s : string) : string :=
  String.string_of_list_ascii
    (rev (String.list_ascii_of_string
      (strip_left (String.string_of_list_ascii (rev (String.list_ascii_of_string (strip_left s))))))).

(** [CORSMiddleware.__init__]. *)
Definition cors_init (origins : list PyVal) (methods headers : list string) (credentials : bool)
    : CORSMiddleware :=
  let all_origins := py_in (VStr "*") origins in
  {| allow_origins := origins;
     allow_methods := if str_in "*" methods then ALL_METHODS else methods;
     allow_headers := map str_lower (SAFELISTED_HEADERS ++ headers);
     allow_all_origins := all_origins;
     allow_all_headers := str_in "*" headers;
     allow_credentials := credentials;
     preflight_explicit_allow_origin := negb all_origins || credentials |}.

(** [is_allowed_origin]. *)
Definition is_allowed_origin (m : CORSMiddleware) (origin : string) : bool :=
  allow_all_origins m || py_in (VStr origin) (allow_origins m).

(** What the middleware does with a request. *)
Inductive CorsOutcome :=
  | CorsPass
  | CorsPreflight (status : Z) (body : string) (allow_origin : option string)
  | CorsSimple (allow_origin : option string).

(** [preflight_response]: the failures, then 400 with their list or 200. *)
Definition preflight_response (m : CORSMiddleware) (origin method : string)
    (requested_headers : option string) : CorsOutcome :=
  let origin_ok := is_allowed_origin m origin in
  let acao := if origin_ok && preflight_explicit_allow_origin m then Some origin
              else if preflight_explicit_allow_origin m then None else Some "*" in
  let headers_bad :=
    match requested_headers with
    | Some rh => negb (allow_all_headers m) &&
                 existsb (λ h, negb (str_in (strip h) (allow_headers m)))
                   (map str_lower (PyStr.split ","%char rh))
    | None => false
    end in
  let failures := (if origin_ok then [] else ["origin"]) ++
                  (if str_in method (allow_methods m) then [] else ["method"]) ++
                  (if headers_bad then ["headers"] else []) in
  match failures with
  | [] => CorsPreflight 200 "OK" acao
  | f :: fs => CorsPreflight 400 ("Disallowed CORS " +:+ join_sep ", " (f :: fs)) acao
  end.

(** [simple_response]: the [Access-Control-Allow-Origin] it sends. *)
Definition simple_allow_origin (m : CORSMiddleware) (origin : string) (has_cookie : bool)
    : option string :=
  if allow_all_origins m && has_cookie then Some origin
  else if negb (allow_all_origins m) && is_allowed_origin m origin then Some origin
  else if allow_all_origins m then Some "*"
  else None.

(** A header's value, [headers.get(name)]: the first of that name. *)
Fixpoint header_opt (hs : Locale.Headers) (name : string) : option string :=
  match hs with
  | [] => None
  | (k, v) :: hs' => if decide (k = name) then Some v else header_opt hs' name
  end.

(** [CORSMiddleware.__call__]. *)
Definition cors_dispatch (m : CORSMiddleware) (method : string) (hs : Locale.Headers)
    : CorsOutcome :=
  match header_opt hs "origin" with
  | None => CorsPass
  | Some origin =>
      match header_opt hs "access-control-request-method" with
      | Some rm =>
          if decide (method = "OPTIONS")
          then preflight_response m origin rm (header_opt hs "access-control-request-headers")
          else CorsSimple (simple_allow_origin m origin (bool_decide (is_Some (header_opt hs "cookie"))))
      | None => CorsSimple (simple_allow_origin m origin (bool_decide (is_Some (header_opt hs "cookie"))))
      end
  end.

(** main.py 61-67: [app.add_middleware(CORSMiddleware, ...)]. *)
Definition app_cors (s : Settings) : CORSMiddleware :=
  cors_init (ORIGINS s) ["*"] ["*"] true.

(** ** Lemmas *)

(** A pydantic [Url] object. *)
Definition is_url (v : PyVal) : Prop := ∃ u, v = VUrl u.

Section Lemmas.
Context `{SettingsLib}.

Lemma validate_origins_cons x raw :
  validate_origins (x :: raw) =
    match validate_http_url x with
    | Some u => match validate_origins raw with
                | inl e => inl e
                | inr vs => inr (VUrl u :: vs)
                end
    | None => inl (ValidationError "ORIGINS")
    end.
Proof.
  unfold validate_origins. simpl. pyr_unfold.
  destruct (validate_http_url x); [|done]. by destruct (mapM _ raw).
Qed.

Lemma validate_origins_urls raw vs : validate_origins raw = inr vs → Forall is_url vs.
Proof.
  revert vs. induction raw as [|x raw IH]; intros vs.
  - intros [= <-]. constructor.
  - rewrite validate_origins_cons. destruct (validate_http_url x) as [u|]; [|done].
    destruct (validate_origins raw) as [e|vs'] eqn:E; [done|]. intros [= <-].
    constructor; [by eexists|by apply IH].
Qed.

Lemma validate_origins_exc raw e : validate_origins raw = inl e → e = ValidationError "ORIGINS".
Proof.
  induction raw as [|x raw IH]; [done|]. rewrite validate_origins_cons.
  destruct (validate_http_url x); [|congruence]. destruct (validate_origins raw); [|done].
  intros [= <-]. by apply IH.
Qed.

Lemma settings_of_env_origins env s :
  settings_of_env env = inr s → ∃ raw, raw_origins env = inr raw ∧ validate_origins raw = inr (ORIGINS s).
Proof.
  unfold settings_of_env. pyr_unfold.
  destruct (raw_origins env) as [e|raw]; [done|].
  destruct (validate_origins raw) as [e|vs] eqn:E; [done|]. intros Hs. injection Hs as <-.
  by eexists.
Qed.

End Lemmas.

Lemma py_in_str_urls o vs : Forall is_url vs → py_in (VStr o) vs = false.
Proof. induction 1 as [|v vs [u ->] _ IH]; [done|]. exact IH. Qed.

(** No origin string passes a middleware whose [allow_origins] are [Url]s. *)
Lemma url_origins_reject_all vs o :
  Forall is_url vs → is_allowed_origin (cors_init vs ["*"] ["*"] true) o = false.
Proof. intros Hvs. unfold is_allowed_origin. simpl. by rewrite !py_in_str_urls. Qed.

(** ** Properties *)

Section Properties.
Context `{SettingsLib}.

(** C30: [Settings()] gives [ORIGINS] as pydantic [Url] objects, never as
    [str]: the field's [list[AnyHttpUrl]] type is enforced on the
    default built from [HOSTNAME] as on the [ORIGINS] variable. *)
Theorem settings_origins_urls (env : Env) (s : Settings) :
  settings_of_env env = inr s → Forall is_url (ORIGINS s).
Proof.
  intros Hs. destruct (settings_of_env_origins env s Hs) as (raw & _ & Hv).
  by eapply validate_origins_urls.
Qed.

(** C31: the application's CORS middleware allows no origin.  For every
    environment in which [Settings()] succeeds and every request: without
    an [Origin] header the middleware passes it on; a preflight is
    refused with 400 and no [Access-Control-Allow-Origin]; any other
    request with an [Origin] gets no [Access-Control-Allow-Origin], so a
    browser withholds the response from the page that asked for it. *)
Theorem cors_rejects_every_origin (env : Env) (s : Settings) :
  settings_of_env env = inr s →
  ∀ method hs,
    match cors_dispatch (app_cors s) method hs with
    | CorsPass => header_opt hs "origin" = None
    | CorsPreflight status _ allow_origin => status = 400%Z ∧ allow_origin = None
    | CorsSimple allow_origin => allow_origin = None
    end.
Proof.
  intros Hs method hs. destruct (settings_of_env_origins env s Hs) as (raw & _ & Hv).
  pose proof (validate_origins_urls raw _ Hv) as Hurls.
  pose proof (py_in_str_urls "*" _ Hurls) as Hstar.
  unfold cors_dispatch. destruct (header_opt hs "origin") as [o|]; [|done].
  pose proof (url_origins_reject_all _ o Hurls) as Hrej. unfold app_cors in *.
  unfold preflight_response, simple_allow_origin. rewrite Hrej. simpl. rewrite Hstar.
  destruct (header_opt hs "access-control-request-method"); [case_decide|]; done.
Qed.

(** C32: [Settings()] raises only for [ORIGINS], with pydantic's
    [ValidationError] or pydantic-settings' [SettingsError]; without an
    [ORIGINS] variable it raises exactly when pydantic rejects the URL
    made of [HOSTNAME] (or of ["http://localhost:8800"] when [HOSTNAME]
    is unset), and otherwise holds that one [Url] and the environment's
    other fields. *)
Theorem settings_of_env_errors (env : Env) :
  (∀ e, settings_of_env env = inl e → e = ValidationError "ORIGINS" ∨ e = SettingsError "ORIGINS") ∧
  (env "ORIGINS" = None →
   settings_of_env env =
     match validate_http_url (default "http://localhost:8800" (env "HOSTNAME")) with
     | Some u => inr (mkSettings (env "ROOT_PATH") [VUrl u]
                        (default "UNKNOWN" (env "VERSION")) (default "UNKNOWN" (env "BUILD")))
     | None => inl (ValidationError "ORIGINS")
     end).
Proof.
  unfold settings_of_env, raw_origins. split.
  - intros e. pyr_unfold. destruct (env "ORIGINS") as [v|].
    + destruct (decode_env_list v) as [| |l]; intros He; simplify_eq; [by right|by left|].
      destruct (validate_origins l) eqn:E; simplify_eq. left. by eapply validate_origins_exc.
    + destruct (validate_origins _) eqn:E; intros He; simplify_eq. left. by eapply validate_origins_exc.
  - intros ->. pyr_unfold. rewrite validate_origins_cons.
    by destruct (validate_http_url _).
Qed.

End Properties.

(** ** Witnesses *)

(** An illustration of pydantic's [AnyHttpUrl] on the inputs below: an
    [http] or [https] URL with a host is accepted, and an empty path
    becomes ["/"]; anything else is rejected. *)
Definition demo_validate (s : string) : option string :=
  let check pre :=
    match String.index 0 pre s with
    | Some 0 =>
        let host := String.substring (String.length pre) (String.length s) s in
        if decide (host = "") then None
        else if PyStr.has_char "/"%char host then Some s else Some (s +:+ "/")
    | _ => None
    end in
  match check "http://" with Some u => Some u | None => check "https://" end.

Definition demo_settings_lib : SettingsLib := {|
  validate_http_url := demo_validate;
  decode_env_list := λ _, NotJson |}.

(** A container whose [HOSTNAME] is its id, and a deployment that sets it
    to the overlay's URL. *)
Definition container_env : Env := λ k, if decide (k = "HOSTNAME") then Some "3f2a9c1d7b6e" else None.
Definition site_env : Env :=
  λ k, if decide (k = "HOSTNAME") then Some "https://overlay.example.org" else None.

Definition site_settings : Settings :=
  mkSettings None [VUrl "https://overlay.example.org/"] "UNKNOWN" "UNKNOWN".

Lemma settings_origins_urls_witness : Forall is_url (ORIGINS site_settings).
Proof.
  apply (settings_origins_urls (H:=demo_settings_lib) site_env). vm_compute. reflexivity.
Defined.

Lemma cors_rejects_every_origin_witness :
  match cors_dispatch (app_cors site_settings) "GET" [("origin", "https://overlay.example.org")] with
  | CorsSimple allow_origin => allow_origin = None
  | _ => False
  end ∧
  match cors_dispatch (app_cors site_settings) "OPTIONS"
          [("origin", "https://overlay.example.org"); ("access-control-request-method", "GET")] with
  | CorsPreflight status _ allow_origin => status = 400%Z ∧ allow_origin = None
  | _ => False
  end.
Proof.
  split.
  - exact (cors_rejects_every_origin (H:=demo_settings_lib) site_env site_settings
             ltac:(vm_compute; reflexivity) "GET" [("origin", "https://overlay.example.org")]).
  - exact (cors_rejects_every_origin (H:=demo_settings_lib) site_env site_settings
             ltac:(vm_compute; reflexivity) "OPTIONS"
             [("origin", "https://overlay.example.org"); ("access-control-request-method", "GET")]).
Defined.

Lemma settings_of_env_errors_witness :
  settings_of_env (H:=demo_settings_lib) container_env = inl (ValidationError "ORIGINS").
Proof.
  etransitivity; [apply (proj2 (settings_of_env_errors (H:=demo_settings_lib) container_env));
                  reflexivity|].
  vm_compute. reflexivity.
Defined.

End AppConfig.
