(* ===== verification/Routing.v ===== *)
(** * The application: routes, Starlette's router, FastAPI's query
    binding, and a request through the whole middleware stack

    [app = FastAPI(root_path=settings.ROOT_PATH)] (main.py 12) registers
    FastAPI's own routes ([/openapi.json], [/docs],
    [/docs/oauth2-redirect], [/redoc]) and then, in source order, the
    three decorated handlers (main.py 70, 75, 197).  FastAPI's own routes
    are Starlette [Route]s, which add [HEAD] to [GET].  The decorated
    handlers are FastAPI [APIRoute]s, which accept only the methods the
    decorator names.  Starlette's [Router] walks the routes in order: a
    route whose path and method match handles the request; otherwise the
    first route whose path matches answers 405; otherwise the same path
    with or without its trailing slash redirects (307); otherwise 404.
    Paths are matched after [get_route_path] takes off the root path at
    a segment boundary, as current Starlette releases do (older ones
    matched the whole path, or cut the root path off as a regex).

    A request crosses [ServerErrorMiddleware], then [CORSMiddleware]
    (main.py 61-67), then the exception middleware, then the router.  An
    exception that no handler catches becomes a 500 response outside the
    CORS middleware, so that response has no CORS header.  FastAPI binds
    the query parameters in their declared order, collects every error,
    and answers 422 without calling the handler.

    Starlette, FastAPI and pydantic are libraries: these definitions
    follow their source for the paths this application takes. *)

From S2P Require Import Prelude PyStr Locale Html Api Handlers OpenApi AppConfig.
From stdpp Require Import sets.
From Stdlib Require Import Ascii.

Module Routing.

(** An HTTP request as the ASGI scope holds it: the query string
    already split into its pairs, in order. *)
Record Request := mkRequest {
  req_method : string;
  req_path : string;
  req_query : list (string * string);
  req_headers : Locale.Headers
}.

(** The endpoint functions of the application. *)
Inductive Endpoint :=
  | EOpenApi | EDocs | EDocsRedirect | ERedoc | EMeta | EGold | EGoldData.

#[export] Instance Endpoint_eq_dec : EqDecision Endpoint.
Proof. solve_decision. Defined.

Record Route := mkRoute {
  route_path : string;
  route_methods : list string;
  route_endpoint : Endpoint
}.

(** [FastAPI.setup()] (run by [FastAPI.__init__]): the schema and the
    documentation pages, added as Starlette [Route]s of function
    endpoints, whose methods [["GET"]] get [HEAD] added. *)
Definition fastapi_default_routes : list Route :=
  [mkRoute "/openapi.json" ["GET"; "HEAD"] EOpenApi;
   mkRoute "/docs" ["GET"; "HEAD"] EDocs;
   mkRoute "/docs/oauth2-redirect" ["GET"; "HEAD"] EDocsRedirect;
   mkRoute "/redoc" ["GET"; "HEAD"] ERedoc].

(** The decorators: [APIRoute]s with the decorator's methods only. *)
Definition meta_route : Route := mkRoute "/meta" ["GET"] EMeta.
Definition gold_route : Route := mkRoute "/gold" ["GET"] EGold.
Definition gold_data_route : Route := mkRoute "/gold_data" ["GET"] EGoldData.

(** [app.routes] after main.py 12 and the decorators, in source order. *)
Definition app_routes : list Route :=
  fastapi_default_routes ++ [meta_route; gold_route; gold_data_route].

(** [get_route_path(scope)]: the path without the root path, when the
    path starts with it at a segment boundary. *)
Definition get_route_path (root_path path : string) : string :=
  if String.eqb root_path "" then path
  else if negb (String.prefix root_path path) then path
  else if String.eqb path root_path then ""
  else match String.get (String.length root_path) path with
       | Some "/"%char => String.substring (String.length root_path)
                            (String.length path - String.length root_path) path
       | _ => path
       end.

(** [Match.NONE], [Match.PARTIAL], [Match.FULL]. *)
Inductive Match := MNone | MPartial | MFull.

(** [Route.matches] for a path without parameters: the compiled
    [^path$] is equality. *)
Definition route_matches (r : Route) (method path : string) : Match :=
  if String.eqb path (route_path r) then
    if bool_decide (route_methods r ≠ []) && negb (bool_decide (method ∈ route_methods r))
    then MPartial else MFull
  else MNone.

(** The loop of [Router.app]: the first full match, or else the first
    partial one. *)
Fixpoint route_scan (routes : list Route) (method path : string) (partial : option Route)
    : Route + option Route :=
  match routes with
  | [] => inr partial
  | r :: rs =>
      match route_matches r method path with
      | MFull => inl r
      | MPartial => route_scan rs method path (match partial with None => Some r | Some p => Some p end)
      | MNone => route_scan rs method path partial
      end
  end.

(** [s.endswith("/")] and [s.rstrip("/")]. *)
Definition ends_with_slash (s : string) : bool :=
  bool_decide (last (String.list_ascii_of_string s) = Some "/"%char).

Definition rstrip_slash (s : string) : string :=
  let fix drop (l : list ascii) := match l with "/"%char :: l' => drop l' | _ => l end in
  String.string_of_list_ascii (rev (drop (rev (String.list_ascii_of_string s)))).

(** What the router does with a request. *)
Inductive RouterOutcome :=
  | RHandle (r : Route)
  | RMethodNotAllowed (r : Route)
  | RRedirect (path : string)
  | RNotFound.

(** [Router.app] with [redirect_slashes=True]. *)
Definition router_dispatch (routes : list Route) (root_path method path : string) : RouterOutcome :=
  let rp := get_route_path root_path path in
  match route_scan routes method rp None with
  | inl r => RHandle r
  | inr (Some r) => RMethodNotAllowed r
  | inr None =>
      if negb (String.eqb rp "/") then
        let path' := if ends_with_slash rp then rstrip_slash path else path +:+ "/" in
        let rp' := get_route_path root_path path' in
        if existsb (λ r, match route_matches r method rp' with MNone => false | _ => true end) routes
        then RRedirect path' else RNotFound
      else RNotFound
  end.

(** ** The contract of the router

    The route that handles a request is the first one whose path is the
    request's and whose methods allow the request's; when there is none,
    the first route of that path answers 405; otherwise no route has the
    path. *)
Definition method_allowed (r : Route) (method : string) : bool :=
  bool_decide (route_methods r = []) || bool_decide (method ∈ route_methods r).

Definition route_first_match (routes : list Route) (method path : string) : Route + option Route :=
  match list_find (λ r, route_path r = path ∧ method_allowed r method = true) routes with
  | Some (_, r) => inl r
  | None => inr (snd <$> list_find (λ r, route_path r = path) routes)
  end.

(** ** Query parameters *)

(** [request.query_params.get(k)]: Starlette's multi-dict keeps the last
    value of a repeated key. *)
Fixpoint query_get (q : list (string * string)) (k : string) : option string :=
  match q with
  | [] => None
  | (k', v) :: q' =>
      match query_get q' k with
      | Some v' => Some v'
      | None => if String.eqb k k' then Some v else None
      end
  end.

(** A validation error: pydantic's error type and the parameter. *)
Abbreviation ParamError := (string * string)%type.

(** What FastAPI's binding gives: every error, or the values. *)
Abbreviation Bound A := (list ParamError + A)%type.

(** Two parameters bound one after the other: the errors of both. *)
Definition vpair {A B} (x : Bound A) (y : Bound B) : Bound (A * B) :=
  match x, y with
  | inr a, inr b => inr (a, b)
  | inl e1, inl e2 => inl (e1 ++ e2)
  | inl e, inr _ => inl e
  | inr _, inl e => inl e
  end.

(** [name: str = Query(...)]: a required parameter. *)
Definition q_str_required (q : list (string * string)) (name : string) : Bound string :=
  match query_get q name with
  | Some v => inr v
  | None => inl [("missing", name)]
  end.

(** [name: str | None = Query(None)]. *)
Definition q_str_optional (q : list (string * string)) (name : string) : Bound (option string) :=
  inr (query_get q name).

(** [name: str = Query(d)]. *)
Definition q_str_default (q : list (string * string)) (name d : string) : Bound string :=
  inr (default d (query_get q name)).

(** pydantic's lax validation of an [int] from a query string, as an
    interface.  It accepts more spellings than decimal digits (blanks
    around, a [+], [_] between digits); the theorems use only that the
    decimal [str(n)] of an [int] reads back as [n]. *)
Class IntValidator := {
  validate_int : string → option Z;
  validate_int_canonical : ∀ n, validate_int (PyStr.str_of_Z n) = Some n
}.

(** [name: int = Query(d)]. *)
Definition q_int_default `{IntValidator} (q : list (string * string)) (name : string) (d : Z) : Bound Z :=
  match query_get q name with
  | None => inr d
  | Some v =>
      match validate_int v with
      | Some z => inr z
      | None => inl [("int_parsing", name)]
      end
  end.

(** The parameters of [gold] (main.py 76-82), in declared order. *)
Definition bind_gold `{IntValidator} (q : list (string * string)) : Bound (string * option string * string * Z * Z) :=
  vpair (vpair (vpair (vpair (q_str_required q "apikey") (q_str_optional q "item"))
                      (q_str_default q "text" "Gold"))
               (q_int_default q "target" 0))
        (q_int_default q "interval" 60).

(** The parameters of the second [gold] (main.py 198-202). *)
Definition bind_gold_data `{IntValidator} (q : list (string * string)) : Bound (string * option string * Z) :=
  vpair (vpair (q_str_required q "apikey") (q_str_optional q "item")) (q_int_default q "target" 0).

(** The query string that the page's [URLSearchParams] sends, decoded:
    its keys in the order of the object literal of main.py 123-128 or
    131-136. *)
Definition poll_query (p : Html.Poll) : list (string * string) :=
  [("apikey", Html.poll_apikey p)] ++
  match Html.poll_item p with Some it => [("item", it)] | None => [] end ++
  match Html.poll_target p with Some t => [("target", t)] | None => [] end.

(** ** Responses *)

(** A response body, as far as the client reads it. *)
Inductive Body :=
  | BHtml (page : string)
  | BGoldData (d : Html.GoldData)
  | BMeta (m : Html.Meta)
  | BSchema (schema : OpenApi.Json)
  | BDocs (e : Endpoint)
  | BDetail (detail : string)
  | BErrors (errs : list ParamError)
  | BText (text : string)
  | BEmpty.

Record Response := mkResponse {
  status : Z;
  body : Body;
  headers : list (string * string)
}.

Abbreviation ok b := (mkResponse 200 b []).

(** FastAPI's handler of [RequestValidationError]. *)
Abbreviation validation_error errs := (mkResponse 422 (BErrors errs) []).

(** [ServerErrorMiddleware] on an exception. *)
Abbreviation server_error := (mkResponse 500 (BText "Internal Server Error") []).

(** ** The process state

    The process-wide locale that the handlers set and read, and
    [app.openapi_schema], the cache of [custom_openapi]. *)
Record AppState := mkAppState { locale : string; openapi_schema : option OpenApi.Json }.

(** A computation on one part of the state, run on the whole. *)
Definition on_locale {A} (m : PyM string A) : PyM AppState A :=
  λ st, let '(r, l) := m (locale st) in (r, mkAppState l (openapi_schema st)).

Definition on_cache {A} (m : PyM (option OpenApi.Json) A) : PyM AppState A :=
  λ st, let '(r, c) := m (openapi_schema st) in (r, mkAppState (locale st) c).

(** ** A request through the application *)

Section WithLibs.
Context `{A : Api.GW2Api} `{L : Locale.LocaleLib} `{V : IntValidator}.
(** The settings the process started with, and the schema that
    [get_openapi] builds from the routes. *)
Variable settings : AppConfig.Settings.
Variable generated : OpenApi.Json.

(** The endpoint function behind a route, after FastAPI binds its query
    parameters; a binding error answers 422 before the function runs. *)
Definition call_endpoint (e : Endpoint) (req : Request) : PyM AppState Response :=
  match e with
  | EOpenApi =>
      schema ← on_cache (OpenApi.custom_openapi generated);
      mret (ok (BSchema schema))
  | EDocs | EDocsRedirect | ERedoc => mret (ok (BDocs e))
  | EMeta => mret (ok (BMeta (AppConfig.meta settings)))
  | EGold =>
      match bind_gold (req_query req) with
      | inl errs => mret (validation_error errs)
      | inr (apikey, item, text, target, interval) =>
          page ← on_locale (Handlers.gold (req_headers req) apikey item text target interval);
          mret (ok (BHtml page))
      end
  | EGoldData =>
      match bind_gold_data (req_query req) with
      | inl errs => mret (validation_error errs)
      | inr (apikey, item, target) =>
          data ← on_locale (Handlers.gold_data (req_headers req) apikey item target);
          mret (ok (BGoldData data))
      end
  end.

(** [FastAPI.__call__] puts [root_path] in the scope when it is set;
    the server's default is [""]. *)
Definition app_root_path : string := default "" (AppConfig.ROOT_PATH settings).

(** The exception middleware and the router: 404 and 405 are
    [HTTPException]s that it turns into responses.  A redirect's
    [location] is written as the new path; Starlette writes the whole URL
    of the request with that path. *)
Definition app_inner (req : Request) : PyM AppState Response :=
  match router_dispatch app_routes app_root_path (req_method req) (req_path req) with
  | RHandle r => call_endpoint (route_endpoint r) req
  | RMethodNotAllowed _ => mret (mkResponse 405 (BDetail "Method Not Allowed") [])
  | RRedirect p => mret (mkResponse 307 BEmpty [("location", p)])
  | RNotFound => mret (mkResponse 404 (BDetail "Not Found") [])
  end.

(** The headers [CORSMiddleware] adds to a response. *)
Definition cors_headers (credentials : bool) (acao : option string) : list (string * string) :=
  (if credentials then [("access-control-allow-credentials", "true")] else []) ++
  match acao with Some o => [("access-control-allow-origin", o)] | None => [] end.

(** [ServerErrorMiddleware]: an exception becomes a 500 response. *)
Definition catch_server_error (r : PyResult Response * AppState) : Response * AppState :=
  match r with
  | (inr resp, st') => (resp, st')
  | (inl _, st') => (server_error, st')
  end.

(** One request through the whole stack, from the process state. *)
Definition app_call (req : Request) (st : AppState) : Response * AppState :=
  let m := AppConfig.app_cors settings in
  match AppConfig.cors_dispatch m (req_method req) (req_headers req) with
  | AppConfig.CorsPreflight code text acao =>
      (mkResponse code (BText text) (cors_headers (AppConfig.allow_credentials m) acao), st)
  | AppConfig.CorsPass => catch_server_error (app_inner req st)
  | AppConfig.CorsSimple acao =>
      catch_server_error
        (match app_inner req st with
         | (inr resp, st') =>
             (inr (mkResponse (status resp) (body resp)
                     (headers resp ++ cors_headers (AppConfig.allow_credentials m) acao)), st')
         | (inl e, st') => (inl e, st')
         end)
  end.

End WithLibs.

(** ** The router *)

Lemma bool_decide_singleton (method s : string) :
  bool_decide (method ∈ [s]) = String.eqb method s.
Proof.
  case_bool_decide as H; rewrite list_elem_of_singleton in H;
    destruct (String.eqb_spec method s); naive_solver.
Qed.

Lemma route_matches_allowed r method path :
  path = route_path r → route_matches r method path = if method_allowed r method then MFull else MPartial.
Proof.
  intros ->. unfold route_matches, method_allowed. rewrite String.eqb_refl.
  repeat case_bool_decide; simpl; naive_solver.
Qed.

(** C15: Starlette's loop over the routes, which remembers the first
    route that matches the path only and goes on looking for one that
    matches path and method, implements the contract: a later route
    that allows the method wins over an earlier one of the same path
    that does not, and 405 comes from the first route of the path.  On
    the application's routes, each decorated path answers its handler
    for [GET] and 405 for every other method. *)
Theorem route_scan_refines (routes : list Route) (method path : string) :
  route_scan routes method path None = route_first_match routes method path ∧
  (∀ r, r ∈ [meta_route; gold_route; gold_data_route] →
     route_scan app_routes method (route_path r) None =
       if String.eqb method "GET" then inl r else inr (Some r)).
Proof.
  split; [|intros r Hr; rewrite list_elem_of_In in Hr;
    destruct Hr as [<-|[<-|[<-|[]]]]; cbn; rewrite bool_decide_singleton;
    by destruct (String.eqb method "GET")].
  unfold route_first_match.
  assert (∀ partial, route_scan routes method path partial =
    match list_find (λ r, route_path r = path ∧ method_allowed r method = true) routes with
    | Some (_, r) => inl r
    | None => inr (match partial with
                   | Some q => Some q
                   | None => snd <$> list_find (λ r, route_path r = path) routes
                   end)
    end) as ->; [|done].
  induction routes as [|r rs IH]; intros partial; simpl; [by destruct partial|].
  destruct (String.eqb_spec path (route_path r)) as [->|Hne].
  - rewrite route_matches_allowed by done.
    destruct (method_allowed r method) eqn:Hm.
    + by rewrite decide_True.
    + rewrite decide_False by naive_solver. rewrite decide_True by done. rewrite IH.
      destruct (list_find _ rs) as [[i q]|]; simpl; [done|]. by destruct partial.
  - unfold route_matches. rewrite (proj2 (String.eqb_neq _ _) Hne).
    rewrite !decide_False by naive_solver. rewrite IH.
    destruct (list_find _ rs) as [[i q]|]; simpl; [done|].
    destruct partial; [done|]. by destruct (list_find _ rs) as [[]|].
Qed.

Lemma route_scan_full routes method path partial r :
  route_scan routes method path partial = inl r → r ∈ routes ∧ route_matches r method path = MFull.
Proof.
  revert partial. induction routes as [|r' rs IH]; intros partial; simpl; [done|].
  destruct (route_matches r' method path) eqn:E;
    [intros ?%IH; set_solver|intros ?%IH; set_solver|intros [= <-]; split; [left|done]].
Qed.

Lemma router_handle_scan routes root method path r :
  router_dispatch routes root method path = RHandle r →
  route_scan routes method (get_route_path root path) None = inl r.
Proof. unfold router_dispatch. repeat case_match; congruence. Qed.

(** The routes of the application that a request matches fully. *)
Lemma app_route_full r method path :
  r ∈ app_routes → route_matches r method path = MFull →
  (route_endpoint r = EOpenApi → path = "/openapi.json" ∧ (method = "GET" ∨ method = "HEAD")) ∧
  (route_endpoint r = EGold → path = "/gold" ∧ method = "GET") ∧
  (route_endpoint r = EGoldData → path = "/gold_data" ∧ method = "GET").
Proof.
  intros Hr. unfold route_matches.
  repeat (apply elem_of_cons in Hr as [->|Hr]); [..|by apply not_elem_of_nil in Hr]; simpl;
    match goal with |- context [String.eqb path ?q] => destruct (String.eqb_spec path q) as [->|] end;
    try done; repeat case_bool_decide; simpl; try done; intros _;
    repeat split; intros; try discriminate; set_solver.
Qed.

Lemma cors_pass m method hs :
  AppConfig.header_opt hs "origin" = None → AppConfig.cors_dispatch m method hs = AppConfig.CorsPass.
Proof. unfold AppConfig.cors_dispatch. by intros ->. Qed.

(** The path the polling script fetches is routed, unless the root path
    is that path itself. *)
Lemma get_route_path_gold_data root :
  root ≠ "/gold_data" → get_route_path root "/gold_data" = "/gold_data".
Proof.
  intros Hne. unfold get_route_path.
  destruct (String.eqb_spec root "") as [|Hr]; [done|]. destruct (String.prefix root _); [|done].
  cbv [negb]. destruct (String.eqb_spec "/gold_data" root) as [Heq|_]; [by subst|].
  destruct root as [|a r]; [done|]. simpl String.length. simpl String.get.
  generalize (String.length r) as n. intros n. do 9 (destruct n as [|n]; [reflexivity|]). reflexivity.
Qed.

Lemma bind_gold_data_poll_plain `{IntValidator} apikey target :
  bind_gold_data (poll_query (Html.poll_plain apikey (PyStr.str_of_Z target))) = inr (apikey, None, target).
Proof. unfold bind_gold_data, q_int_default. simpl. by rewrite validate_int_canonical. Qed.

Lemma cors_not_preflight m method hs code text acao :
  method ≠ "OPTIONS" → AppConfig.cors_dispatch m method hs ≠ AppConfig.CorsPreflight code text acao.
Proof. unfold AppConfig.cors_dispatch. intros Hm. by repeat case_match; try case_decide. Qed.

(** The query that [Handlers.gold_data_query] reads off a [Poll] is
    FastAPI's binding of the poll's query string: the two models of the
    poll agree, the binding error included. *)
Lemma gold_data_query_bind `{Api.GW2Api} `{Locale.LocaleLib} `{IntValidator} hs p :
  (∀ s, validate_int s = PyStr.int_of_str s) →
  Handlers.gold_data_query hs p =
    match bind_gold_data (poll_query p) with
    | inr (apikey, item, target) => Handlers.gold_data hs apikey item target
    | inl _ => pym_raise (RequestValidationError "target")
    end.
Proof.
  intros Hv. destruct p as [apikey item target]. unfold Handlers.gold_data_query, bind_gold_data, poll_query,
    q_str_required, q_str_optional, q_int_default.
  destruct item, target as [t|]; simpl; rewrite ?Hv; try done; by destruct (PyStr.int_of_str t).
Qed.

Section AppProps.
Context `{A : Api.GW2Api} `{L : Locale.LocaleLib} `{V : IntValidator}.
Variable settings : AppConfig.Settings.
Variable generated : OpenApi.Json.

Lemma catch_server_error_state r : snd (catch_server_error r) = snd r.
Proof. by destruct r as [[] ?]. Qed.

Lemma app_call_inner_state req st :
  snd (app_call settings generated req st) ≠ st → snd (app_inner settings generated req st) ≠ st.
Proof.
  unfold app_call. destruct (AppConfig.cors_dispatch _ _ _); simpl;
    rewrite ?catch_server_error_state; auto; by destruct (app_inner _ _ req st) as [[] ?].
Qed.

Lemma app_inner_state req st :
  snd (app_inner settings generated req st) ≠ st →
  ∃ r, router_dispatch app_routes (app_root_path settings) (req_method req) (req_path req) = RHandle r ∧
       snd (call_endpoint settings generated (route_endpoint r) req st) ≠ st.
Proof. unfold app_inner. destruct (router_dispatch _ _ _ _); eauto; done. Qed.

(** Only three endpoints change the state, and the handlers only run
    when their parameters bind. *)
Lemma call_endpoint_state e req st :
  snd (call_endpoint settings generated e req st) ≠ st →
  e = EOpenApi ∨ (e = EGold ∧ ∃ v, bind_gold (req_query req) = inr v) ∨
  (e = EGoldData ∧ ∃ v, bind_gold_data (req_query req) = inr v).
Proof.
  destruct e; simpl; pym_unfold; try done; auto;
    [destruct (bind_gold _) eqn:E|destruct (bind_gold_data _) eqn:E]; eauto; done.
Qed.

Lemma app_call_no_origin req st :
  AppConfig.header_opt (req_headers req) "origin" = None →
  app_call settings generated req st = catch_server_error (app_inner settings generated req st).
Proof. intros H. unfold app_call. by rewrite cors_pass. Qed.

(** A [GET] of a path whose route path is [p] reaches the route that the
    loop finds for [p]. *)
Lemma app_inner_get req st r :
  req_method req = "GET" →
  route_scan app_routes "GET" (get_route_path (app_root_path settings) (req_path req)) None = inl r →
  app_inner settings generated req st = call_endpoint settings generated (route_endpoint r) req st.
Proof. intros Hm Hs. unfold app_inner, router_dispatch. by rewrite Hm, Hs. Qed.

(** A request that is no preflight goes to the router; the CORS
    middleware adds its headers to a response, and an exception becomes
    the bare 500 of [ServerErrorMiddleware]. *)
Lemma app_call_routed req st :
  req_method req ≠ "OPTIONS" →
  ∃ hdrs, app_call settings generated req st =
    match app_inner settings generated req st with
    | (inr resp, st') => (mkResponse (status resp) (body resp) (headers resp ++ hdrs), st')
    | (inl _, st') => (server_error, st')
    end.
Proof.
  intros Hm. unfold app_call.
  destruct (AppConfig.cors_dispatch _ _ _) as [|code text acao|acao] eqn:E.
  - exists []. destruct (app_inner _ _ req st) as [[|[]] ?]; simpl; by rewrite ?app_nil_r.
  - by destruct (cors_not_preflight (AppConfig.app_cors settings) _ (req_headers req) code text acao Hm).
  - eexists. by destruct (app_inner _ _ req st) as [[|[]] ?].
Qed.

(** C19: only [GET /gold], [GET /gold_data] and [GET] or [HEAD]
    [/openapi.json] change the process state (the locale or the schema
    cache), and the two handlers only when their query parameters bind.
    A preflight, a 404, a 405, a redirect, a 422, [/meta] and the
    documentation pages leave it as it was. *)
Theorem app_state_only_handlers (req : Request) (st : AppState) :
  snd (app_call settings generated req st) ≠ st →
  (req_method req, get_route_path (app_root_path settings) (req_path req)) ∈
    [("GET", "/openapi.json"); ("HEAD", "/openapi.json"); ("GET", "/gold"); ("GET", "/gold_data")] ∧
  (get_route_path (app_root_path settings) (req_path req) = "/gold" →
     ∃ v, bind_gold (req_query req) = inr v) ∧
  (get_route_path (app_root_path settings) (req_path req) = "/gold_data" →
     ∃ v, bind_gold_data (req_query req) = inr v).
Proof.
  intros (r & Hd & Hc)%app_call_inner_state%app_inner_state.
  apply router_handle_scan, route_scan_full in Hd as [Hr Hm].
  destruct (app_route_full _ _ _ Hr Hm) as (Ho & Hg & Hgd).
  destruct (call_endpoint_state _ _ _ Hc) as [He|[[He Hb]|[He Hb]]].
  - destruct (Ho He) as [-> [-> | ->]]; repeat split; try set_solver; intros; discriminate.
  - destruct (Hg He) as [-> ->]. repeat split; [set_solver|done|discriminate].
  - destruct (Hgd He) as [-> ->]. repeat split; [set_solver|discriminate|done].
Qed.

(** C1: the page's polling goes through the whole application and
    reproduces the page.  A [GET] of [/gold] without an item whose page
    is served (200) embeds a script that fetches [/gold_data] with the
    same [apikey] and the target written by [str(target)]; that request,
    sent from the page with the same headers to the process in the state
    the page left, passes the CORS middleware, reaches the second
    handler, binds [apikey] and [target] back, and answers 200 with the
    two numbers the page shows. *)
Theorem app_poll_consistent_plain (hs : Locale.Headers) (path : string) (q : list (string * string))
    (apikey text : string) (item : option string) (target interval : Z)
    (st st1 : AppState) (page : string) :
  AppConfig.header_opt hs "origin" = None →
  AppConfig.ROOT_PATH settings ≠ Some "/gold_data" →
  get_route_path (app_root_path settings) path = "/gold" →
  bind_gold q = inr (apikey, item, text, target, interval) →
  Handlers.item_truthy item = None →
  app_call settings generated (mkRequest "GET" path q hs) st = (ok (BHtml page), st1) →
  ∃ c t data,
    page = Html.page Html.css
             (Html.js text (Html.params_plain apikey (PyStr.str_of_Z target)) (PyStr.str_of_Z interval))
             (Html.body_plain text c t) ∧
    fst (app_call settings generated
           (mkRequest "GET" "/gold_data" (poll_query (Html.poll_plain apikey (PyStr.str_of_Z target))) hs)
           st1) = ok (BGoldData data) ∧
    Html.update_text text data = Html.shown_text text c t.
Proof.
  intros Ho Hroot Hp Hb Hi. rewrite app_call_no_origin by done.
  rewrite (app_inner_get _ _ gold_route) by (simpl; rewrite ?Hp; done). simpl. rewrite Hb. pym_unfold. unfold on_locale.
  destruct (Handlers.gold hs apikey item text target interval (locale st)) as [[e|page'] l] eqn:Eg;
    simpl; [done|]. intros [= <- <-].
  destruct (Handlers.gold_poll_consistent_plain hs apikey item text target interval _ _ _ Hi Eg)
    as (c & t & data & -> & Hd & Ht).
  exists c, t, data. split; [done|]. split; [|done].
  rewrite app_call_no_origin by done.
  rewrite (app_inner_get _ _ gold_data_route); [|done|].
  - simpl. rewrite bind_gold_data_poll_plain. pym_unfold. unfold on_locale. simpl.
    unfold Handlers.gold_data_query in Hd. simpl in Hd. rewrite PyStr.int_of_str_of_Z in Hd.
    by destruct (Handlers.gold_data hs apikey None target l) as [[]] ; simplify_eq/=.
  - simpl. unfold app_root_path. rewrite get_route_path_gold_data; [done|].
    destruct (AppConfig.ROOT_PATH settings) as [r|]; simpl; [|done]. congruence.
Qed.

(** C27: a [GET /gold] whose parameters bind gets exactly what its
    handler gives.  If the handler raises (a pygw2 error such as an
    unknown item, an empty price list, a missing [accept-language]),
    the response is the bare 500 of [ServerErrorMiddleware], with no
    part of the page, and the locale the handler set stays.  If it
    returns a page, the response is a 200 with exactly that page. *)
Theorem app_gold_outcome (req : Request) (st : AppState) (apikey text : string)
    (item : option string) (target interval : Z) :
  req_method req = "GET" →
  get_route_path (app_root_path settings) (req_path req) = "/gold" →
  bind_gold (req_query req) = inr (apikey, item, text, target, interval) →
  match Handlers.gold (req_headers req) apikey item text target interval (locale st) with
  | (inl _, l) => app_call settings generated req st = (server_error, mkAppState l (openapi_schema st))
  | (inr page, l) =>
      status (fst (app_call settings generated req st)) = 200%Z ∧
      body (fst (app_call settings generated req st)) = BHtml page ∧
      snd (app_call settings generated req st) = mkAppState l (openapi_schema st)
  end.
Proof.
  intros Hm Hp Hb. destruct (app_call_routed req st) as [hdrs ->]; [by rewrite Hm|].
  rewrite (app_inner_get _ _ gold_route) by (rewrite ?Hp; done). simpl. rewrite Hb.
  pym_unfold. unfold on_locale.
  by destruct (Handlers.gold _ _ _ _ _ _ (locale st)) as [[] ?].
Qed.

End AppProps.

(** ** Witnesses and examples *)

(** For the examples, pydantic's validator on decimal literals with an
    optional sign. *)
Definition demo_int_validator : IntValidator :=
  {| validate_int := PyStr.int_of_str; validate_int_canonical := PyStr.int_of_str_of_Z |}.
#[local] Existing Instance demo_int_validator.

(** A deployment under the root path [/overlay], a process that has
    not served anything yet, and a page request. *)
Definition demo_settings : AppConfig.Settings :=
  AppConfig.mkSettings (Some "/overlay") [AppConfig.VUrl "https://overlay.example.org/"] "1.2.0" "42".

Definition demo_state : AppState := mkAppState "C" None.

Definition demo_page_query : list (string * string) :=
  [("apikey", "KEY"); ("target", "20"); ("text", "Goal")].

Definition demo_run (req : Request) : Response * AppState :=
  app_call (A:=Handlers.demo_api) (L:=Locale.demo_lib) demo_settings OpenApi.app_schema req demo_state.

(** Two routes of one path: the later one, which allows [GET], handles a
    [GET]; a [PUT] gets 405 from the first. *)
Definition demo_two_routes : list Route :=
  [mkRoute "/gold" ["POST"] EMeta; mkRoute "/gold" ["GET"] EGold].

Example route_scan_prefers_full_match :
  route_scan demo_two_routes "GET" "/gold" None = inl (mkRoute "/gold" ["GET"] EGold) ∧
  route_scan demo_two_routes "PUT" "/gold" None = inr (Some (mkRoute "/gold" ["POST"] EMeta)).
Proof. split; reflexivity. Qed.

Lemma route_scan_refines_witness :
  gold_route ∈ [meta_route; gold_route; gold_data_route] ∧
  route_scan app_routes "POST" (route_path gold_route) None =
    if String.eqb "POST" "GET" then inl gold_route else inr (Some gold_route).
Proof.
  split; [set_solver|]. apply (proj2 (route_scan_refines [] "POST" "")). set_solver.
Defined.

Lemma app_state_only_handlers_witness :
  snd (demo_run (mkRequest "GET" "/overlay/gold_data" [("apikey", "KEY")] Handlers.demo_headers))
    ≠ demo_state ∧
  (("GET", get_route_path (app_root_path demo_settings) "/overlay/gold_data") ∈
    [("GET", "/openapi.json"); ("HEAD", "/openapi.json"); ("GET", "/gold"); ("GET", "/gold_data")] ∧
  (get_route_path (app_root_path demo_settings) "/overlay/gold_data" = "/gold" →
     ∃ v, bind_gold [("apikey", "KEY")] = inr v) ∧
  (get_route_path (app_root_path demo_settings) "/overlay/gold_data" = "/gold_data" →
     ∃ v, bind_gold_data [("apikey", "KEY")] = inr v)).
Proof.
  assert (snd (demo_run (mkRequest "GET" "/overlay/gold_data" [("apikey", "KEY")] Handlers.demo_headers))
    ≠ demo_state) as H by (vm_compute; congruence).
  split; [exact H|].
  exact (app_state_only_handlers (A:=Handlers.demo_api) (L:=Locale.demo_lib) demo_settings OpenApi.app_schema
           (mkRequest "GET" "/overlay/gold_data" [("apikey", "KEY")] Handlers.demo_headers) demo_state H).
Defined.

Definition demo_page : string :=
  match body (fst (demo_run (mkRequest "GET" "/overlay/gold" demo_page_query Handlers.demo_headers))) with
  | BHtml p => p
  | _ => ""
  end.

Lemma app_poll_consistent_plain_witness :
  ∃ c t data,
    demo_page = Html.page Html.css
      (Html.js "Goal" (Html.params_plain "KEY" (PyStr.str_of_Z 20)) (PyStr.str_of_Z 60))
      (Html.body_plain "Goal" c t) ∧
    fst (app_call (A:=Handlers.demo_api) (L:=Locale.demo_lib) demo_settings OpenApi.app_schema
           (mkRequest "GET" "/gold_data" (poll_query (Html.poll_plain "KEY" (PyStr.str_of_Z 20)))
              Handlers.demo_headers)
           (snd (demo_run (mkRequest "GET" "/overlay/gold" demo_page_query Handlers.demo_headers))))
      = ok (BGoldData data) ∧
    Html.update_text "Goal" data = Html.shown_text "Goal" c t.
Proof.
  apply (app_poll_consistent_plain (A:=Handlers.demo_api) (L:=Locale.demo_lib) demo_settings
           OpenApi.app_schema Handlers.demo_headers "/overlay/gold" demo_page_query "KEY" "Goal" None 20 60
           demo_state (snd (demo_run (mkRequest "GET" "/overlay/gold" demo_page_query Handlers.demo_headers))));
    try (vm_compute; reflexivity); try (vm_compute; congruence).
Defined.

(** An item that the API does not know: the page request gets a 500. *)
Definition demo_item_query : list (string * string) := [("apikey", "KEY"); ("item", "0")].

Lemma app_gold_outcome_witness :
  app_call (A:=Handlers.demo_api_missing) (L:=Locale.demo_lib) demo_settings OpenApi.app_schema
    (mkRequest "GET" "/overlay/gold" demo_item_query Handlers.demo_headers) demo_state =
  (server_error, mkAppState "en_US.ISO8859-1" None).
Proof.
  pose proof (app_gold_outcome (A:=Handlers.demo_api_missing) (L:=Locale.demo_lib) demo_settings
    OpenApi.app_schema (mkRequest "GET" "/overlay/gold" demo_item_query Handlers.demo_headers) demo_state
    "KEY" "Gold" (Some "0") 0 60 eq_refl ltac:(vm_compute; reflexivity) ltac:(vm_compute; reflexivity)) as H.
  vm_compute in H. exact H.
Defined.

(** [HEAD /gold] is refused with 405, since [APIRoute] does not add
    [HEAD], while [HEAD /openapi.json] is served; [/gold/] redirects. *)
Example head_gold_not_allowed :
  status (fst (demo_run (mkRequest "HEAD" "/overlay/gold" demo_page_query Handlers.demo_headers))) = 405%Z ∧
  status (fst (demo_run (mkRequest "HEAD" "/openapi.json" [] Handlers.demo_headers))) = 200%Z ∧
  fst (demo_run (mkRequest "GET" "/overlay/gold/" demo_page_query Handlers.demo_headers)) =
    mkResponse 307 BEmpty [("location", "/overlay/gold")].
Proof. vm_compute. auto. Qed.

(** A poll without [apikey] and with a [target] that is no [int] gets
    both errors in one 422, and the handler does not run. *)
Example gold_data_two_errors :
  demo_run (mkRequest "GET" "/gold_data" [("target", "12k")] Handlers.demo_headers) =
    (validation_error [("missing", "apikey"); ("int_parsing", "target")], demo_state).
Proof. vm_compute. reflexivity. Qed.

(** A repeated parameter: the last value counts. *)
Example query_last_value : bind_gold_data [("apikey", "A"); ("target", "1"); ("apikey", "B")] = inr ("B", None, 1%Z).
Proof. vm_compute. reflexivity. Qed.

End Routing.
