(* ===== verification/Timer.v ===== *)
(** * The polling timer of the page: [setInterval(updateText, {interval}*1000)]

    main.py 179 writes the [interval] query parameter, a Python [int]
    with no bound, into the page's script as a decimal literal, and the
    browser evaluates [setInterval(updateText, <interval>*1000)].

    - The literal and the product are JavaScript numbers, exact while
      their magnitude is at most [2^53].
    - [setInterval]'s timeout is a WebIDL [long].  The conversion takes
      the integer modulo [2^32] into the signed 32-bit range: it is a
      32-bit word read as signed.
    - The HTML timer initialisation steps then set a negative timeout to
      0.

    The word is the abstract [word 32] of coqutil, as bedrock2 writes
    machine arithmetic.  The theorems hold for every implementation of
    it; [Naive.word32] computes the examples.  Products beyond [2^53],
    where the double rounds, are outside the model ([None]).  So is the
    browser's clamp of nested timers to 4 ms. *)

From S2P Require Import Prelude Html Routing Handlers Locale OpenApi.
From coqutil Require Import Word.Interface Word.Properties Word.Naive.

Module Timer.

(** [Number.MAX_SAFE_INTEGER + 1]: integers up to it are exact doubles. *)
Definition js_exact_bound : Z := 2 ^ 53.

Section WithWord.
Context {word : word.word 32} {word_ok : word.ok word}.

(** WebIDL's conversion of a number to [long]: modulo [2^32], read as a
    signed 32-bit integer. *)
Definition webidl_long (x : Z) : Z := word.signed (word.of_Z x : word).

(** The HTML timer initialisation steps: a negative timeout is 0. *)
Definition timer_timeout (timeout : Z) : Z :=
  let t := webidl_long timeout in
  if (t <? 0)%Z then 0%Z else t.

(** main.py 179: the delay in milliseconds between two polls, for the
    [interval] the page was rendered with; [None] where the double
    product rounds. *)
Definition poll_delay (interval : Z) : option Z :=
  let ms := (interval * 1000)%Z in
  if (Z.abs ms <=? js_exact_bound)%Z then Some (timer_timeout ms) else None.

(** ** The signed reading of a word *)

Lemma webidl_long_small x : (- 2 ^ 31 ≤ x < 2 ^ 31)%Z → webidl_long x = x.
Proof.
  intros Hx. unfold webidl_long. rewrite word.signed_of_Z. unfold word.swrap.
  rewrite Z.mod_small; simpl; lia.
Qed.

Lemma webidl_long_large x : (2 ^ 31 ≤ x < 2 ^ 32)%Z → webidl_long x = (x - 2 ^ 32)%Z.
Proof.
  intros Hx. unfold webidl_long. rewrite word.signed_of_Z. unfold word.swrap.
  replace (x + 2 ^ (32 - 1))%Z with (x + 2 ^ 31 - 2 ^ 32 + 1 * 2 ^ 32)%Z by (simpl; lia).
  rewrite Z_mod_plus_full, Z.mod_small; simpl; lia.
Qed.

Lemma webidl_long_range x : (- 2 ^ 31 ≤ webidl_long x < 2 ^ 31)%Z.
Proof. unfold webidl_long. apply (word.signed_range (word.of_Z x : word)). Qed.

Lemma timer_timeout_range t : (0 ≤ timer_timeout t < 2 ^ 31)%Z.
Proof.
  unfold timer_timeout. pose proof (webidl_long_range t).
  destruct (Z.ltb_spec (webidl_long t) 0); lia.
Qed.

(** C28: the page polls every [interval] seconds only while
    [interval * 1000] fits a signed 32-bit [long].  For [interval] from
    0 to 2147483 the delay is [interval * 1000] ms.  From 2147484 to
    4294967 (about 25 to 50 days) the product wraps to a negative
    [long], and the page polls with no delay; so does every [interval]
    from -2147483 to 0.  The delay is always in [0, 2^31). *)
Theorem poll_delay_bounds (interval : Z) :
  (Z.abs interval ≤ 9007199254740)%Z →
  ∃ d, poll_delay interval = Some d ∧ (0 ≤ d < 2 ^ 31)%Z ∧
    ((0 ≤ interval ≤ 2147483)%Z → d = (interval * 1000)%Z) ∧
    ((2147484 ≤ interval ≤ 4294967)%Z → d = 0%Z) ∧
    ((-2147483 ≤ interval ≤ 0)%Z → d = 0%Z).
Proof.
  intros Hi. unfold poll_delay, js_exact_bound.
  replace (Z.abs (interval * 1000) <=? 2 ^ 53)%Z with true by (symmetry; apply Z.leb_le; lia).
  eexists; split; [reflexivity|]. split; [apply timer_timeout_range|].
  unfold timer_timeout. repeat split; intros Hr.
  - rewrite webidl_long_small by lia. destruct (Z.ltb_spec (interval * 1000) 0); lia.
  - rewrite webidl_long_large by lia. destruct (Z.ltb_spec (interval * 1000 - 2 ^ 32) 0); lia.
  - rewrite webidl_long_small by lia. destruct (Z.ltb_spec (interval * 1000) 0); lia.
Qed.

End WithWord.

(** ** Witnesses and examples *)

Lemma poll_delay_bounds_witness :
  (Z.abs 2147484 ≤ 9007199254740)%Z ∧
  ∃ d, poll_delay (word:=Naive.word32) 2147484 = Some d ∧ (0 ≤ d < 2 ^ 31)%Z ∧
    ((0 ≤ 2147484 ≤ 2147483)%Z → d = (2147484 * 1000)%Z) ∧
    ((2147484 ≤ 2147484 ≤ 4294967)%Z → d = 0%Z) ∧
    ((-2147483 ≤ 2147484 ≤ 0)%Z → d = 0%Z).
Proof.
  split; [lia|]. apply (poll_delay_bounds (word_ok:=Naive.word32_ok) 2147484). lia.
Defined.

(** A page served with [interval=2147484]: the application answers 200
    with the script [setInterval(updateText, 2147484*1000)], and that
    script polls with no delay.  With [interval=60] it polls every
    minute. *)
Example served_page_polls_without_delay :
  Routing.status (fst (Routing.demo_run
    (Routing.mkRequest "GET" "/overlay/gold" [("apikey", "KEY"); ("interval", "2147484")]
       Handlers.demo_headers))) = 200%Z ∧
  Routing.body (fst (Routing.demo_run
    (Routing.mkRequest "GET" "/overlay/gold" [("apikey", "KEY"); ("interval", "2147484")]
       Handlers.demo_headers))) =
    Routing.BHtml (Html.page Html.css
      (Html.js "Gold" (Html.params_plain "KEY" "0") "2147484")
      (Html.body_plain "Gold" "12" "0")) ∧
  poll_delay (word:=Naive.word32) 2147484 = Some 0%Z ∧
  poll_delay (word:=Naive.word32) 60 = Some 60000%Z.
Proof. vm_compute. auto. Qed.

End Timer.
