(* ===== verification/Liveness.v ===== *)
(** * Every request is answered

    The event loop of [Concurrency] on requests of the two handlers:
    each request is a chain of at most four segments ([gold]: main.py
    83-85, 87-100, 101 and 102-194; [gold_data]: three), and a segment
    runs to its end without waiting on another request.  Hence no
    interleaving runs forever ([step_terminates]), none runs more than
    four segments per request ([steps_bounded]), and the fair schedule
    that gives every request its turn four times answers all of them
    ([round_robin_answers]). *)

From stdpp Require Import relations.
From S2P Require Import Prelude Wallet Prices Locale Html Api Handlers Concurrency.

Module Liveness.
Import Concurrency.

(** ** Bounded coroutines *)

(** [within n c]: [c] finishes after at most [n] segments, whatever the
    locale each segment starts in. *)
Inductive within : nat → Coro → Prop :=
  | within_done n r : within n (CDone r)
  | within_step n eff k : (∀ g, within n (k g)) → within (S n) (CStep eff k).

(** The request has its response. *)
Definition answered (c : Coro) : bool :=
  match c with CDone _ => true | CStep _ _ => false end.

(** The number of turns the schedule gives request [i]. *)
Definition turns (i : nat) (sched : list nat) : nat := length (filter (λ j, j = i) sched).

(** The round-robin schedule over [n] requests, [rounds] times. *)
Definition round_robin (rounds n : nat) : list nat := concat (replicate rounds (seq 0 n)).

(** ** Lemmas *)

Lemma within_mono n m c : within n c → n ≤ m → within m c.
Proof.
  intros H. revert m. induction H as [n r|n eff k _ IH]; intros m Hm; [constructor|].
  destruct m as [|m]; [lia|]. constructor. intros g. apply IH. lia.
Qed.

Lemma within_zero c : within 0 c → answered c = true.
Proof. by inversion 1. Qed.

Lemma within_seg n m : (∀ g c, fst (m g) = inr c → within n c) → within (S n) (seg m).
Proof.
  intros Hm. constructor. intros g.
  destruct (fst (m g)) as [e|c] eqn:E; [constructor|by apply (Hm g)].
Qed.

Lemma within_await n c : within n c → within (S n) (await_first c).
Proof. intros Hc. by constructor. Qed.

Ltac within_close :=
  repeat first
    [ apply within_done
    | apply within_seg; intros ? ? Hm; simpl in Hm; simplify_eq ].

Section Handlers.
Context `{A : Api.GW2Api} `{L : Locale.LocaleLib}.

Lemma gold_data_coro_within hs apikey item target : within 3 (gold_data_coro hs apikey item target).
Proof.
  apply within_await, within_seg. unfold gold_data_seg1, gold_data_seg2.
  intros g c. Concurrency.seg_cases; intros Hc; simplify_eq; within_close.
Qed.

Lemma gold_coro_within hs apikey item text target interval :
  within 4 (gold_coro hs apikey item text target interval).
Proof.
  apply within_await, within_seg. unfold gold_seg1, gold_seg2, gold_seg3.
  intros g c. Concurrency.seg_cases; intros Hc; simplify_eq; within_close.
Qed.

Lemma handler_req_within c : handler_req c → within 4 c.
Proof.
  intros [(hs & k & i & t & ->)|(hs & k & i & tx & t & n & ->)]; [|apply gold_coro_within].
  eapply within_mono; [apply gold_data_coro_within|lia].
Qed.

End Handlers.

(** A bound per request in flight. *)
Definition bounded (ns : list nat) (cfg : Config) : Prop := Forall2 within ns (reqs cfg).

Lemma handlers_bounded `{Api.GW2Api} `{Locale.LocaleLib} cfg :
  Forall handler_req (reqs cfg) → bounded (replicate (length (reqs cfg)) 4) cfg.
Proof.
  unfold bounded. induction (reqs cfg) as [|c cs IH]; intros Hcs; [constructor|].
  apply Forall_cons in Hcs as [Hc Hcs]. constructor; [by apply handler_req_within|by apply IH].
Qed.

Lemma sum_list_insert_pred (ns : list nat) i m :
  ns !! i = Some (S m) → S (sum_list (<[i := m]> ns)) = sum_list ns.
Proof.
  revert i. induction ns as [|n ns IH]; intros [|i] Hi; simplify_eq/=; [lia|].
  rewrite <- (IH i Hi). lia.
Qed.

(** One step uses up one segment of the request that runs. *)
Lemma step_bounded ns cfg cfg' :
  step cfg cfg' → bounded ns cfg →
  ∃ ns', bounded ns' cfg' ∧ S (sum_list ns') = sum_list ns.
Proof.
  intros [g cs i eff k Hi] Hb. unfold bounded in *; simpl in *.
  destruct (Forall2_lookup_r _ _ _ _ _ Hb Hi) as (n & Hn & Hw).
  inversion Hw as [|m eff' k' Hk]; subst.
  exists (<[i := m]> ns). split; [|by apply sum_list_insert_pred].
  by apply Forall2_insert.
Qed.

(** The schedule's step at request [i] lowers the bound of [i] by one
    and keeps the others. *)
Lemma exec_one_bounded ns cfg i :
  bounded ns cfg → bounded (<[i := pred (ns !!! i)]> ns) (exec [i] cfg).
Proof.
  destruct cfg as [g cs]. unfold bounded; simpl. intros Hb.
  destruct (cs !! i) as [c|] eqn:Hi.
  - destruct (Forall2_lookup_r _ _ _ _ _ Hb Hi) as (n & Hn & Hw).
    rewrite (list_lookup_total_correct _ _ _ Hn).
    destruct c as [r|eff k]; simpl.
    + rewrite <- (list_insert_id cs i (CDone r)) by done.
      apply Forall2_insert; [done|constructor].
    + inversion Hw as [|m ? ? Hk]; subst. by apply Forall2_insert.
  - simpl. rewrite list_insert_ge; [done|].
    rewrite (Forall2_length _ _ _ Hb). by apply lookup_ge_None.
Qed.

Lemma exec_cons i sched cfg : exec (i :: sched) cfg = exec sched (exec [i] cfg).
Proof. destruct cfg as [g cs]. simpl. by destruct (cs !! i) as [[]|]. Qed.

Lemma turns_cons_eq i sched : turns i (i :: sched) = S (turns i sched).
Proof. unfold turns. by rewrite filter_cons_True. Qed.

Lemma turns_cons_ne i j sched : j ≠ i → turns i (j :: sched) = turns i sched.
Proof. intros Hij. unfold turns. by rewrite filter_cons_False. Qed.

(** After a schedule, each request's bound has dropped by its turns. *)
Lemma exec_bounded sched ns cfg :
  bounded ns cfg →
  ∃ ns', bounded ns' (exec sched cfg) ∧ ∀ i, ns' !!! i ≤ ns !!! i - turns i sched.
Proof.
  revert ns cfg. induction sched as [|j sched IH]; intros ns cfg Hb.
  - exists ns. split; [done|]. intros i. unfold turns; simpl; lia.
  - rewrite exec_cons. destruct (IH _ _ (exec_one_bounded ns cfg j Hb)) as (ns' & Hb' & Hle).
    exists ns'. split; [done|]. intros i. specialize (Hle i).
    destruct (decide (j = i)) as [->|Hji].
    + rewrite turns_cons_eq. destruct (decide (i < length ns)) as [Hlt|Hge].
      * rewrite list_lookup_total_insert, decide_True, <- Nat.sub_1_r in Hle by done. lia.
      * rewrite list_insert_ge in Hle by lia. rewrite !list_lookup_total_alt, (lookup_ge_None_2 ns i) in * by lia. simpl in *. lia.
    + rewrite turns_cons_ne by done. rewrite list_lookup_total_insert_ne in Hle by done. lia.
Qed.

Lemma turns_seq i s n : turns i (seq s n) = if decide (s ≤ i < s + n) then 1 else 0.
Proof.
  revert s. induction n as [|n IH]; intros s; simpl; [case_decide; [lia|done]|].
  destruct (decide (s = i)) as [->|Hs].
  - rewrite turns_cons_eq, IH. repeat case_decide; lia.
  - rewrite turns_cons_ne, IH by done. repeat case_decide; lia.
Qed.

Lemma turns_round_robin i rounds n : i < n → turns i (round_robin rounds n) = rounds.
Proof.
  intros Hi. unfold round_robin, turns. induction rounds as [|r IH]; [done|].
  simpl. rewrite filter_app, length_app, IH. fold (turns i (seq 0 n)).
  rewrite turns_seq. case_decide; lia.
Qed.

(** The measure of a configuration: the segments it may still run. *)
Lemma bounded_sn ns cfg : bounded ns cfg → sn step cfg.
Proof.
  remember (sum_list ns) as N eqn:HN. revert ns cfg HN.
  induction (lt_wf N) as [N _ IH]. intros ns cfg -> Hb. constructor. intros cfg' Hstep.
  destruct (step_bounded ns cfg cfg' Hstep Hb) as (ns' & Hb' & Hsum).
  eapply (IH (sum_list ns')); [lia|done|done].
Qed.

Lemma nsteps_bounded n ns cfg cfg' : nsteps step n cfg cfg' → bounded ns cfg → n ≤ sum_list ns.
Proof.
  intros Hn. revert ns. induction Hn as [cfg|n x y z Hxy _ IH]; intros ns Hb; [lia|].
  destruct (step_bounded ns x y Hxy Hb) as (ns' & Hb' & Hsum). specialize (IH ns' Hb'). lia.
Qed.

Lemma sum_list_replicate n m : sum_list (replicate n m) = n * m.
Proof. induction n as [|n IH]; simpl; lia. Qed.

Lemma lookup_total_replicate_le i n m : replicate n m !!! i ≤ m.
Proof. revert i. induction n as [|n IH]; intros [|i]; simpl; auto with lia. Qed.

Lemma length_exec sched cfg : length (reqs (exec sched cfg)) = length (reqs cfg).
Proof.
  revert cfg. induction sched as [|i sched IH]; intros [g cs]; [done|]. simpl.
  destruct (cs !! i) as [[]|]; rewrite IH; simpl; rewrite ?length_insert; done.
Qed.

(** ** Properties *)

Section Properties.
Context `{A : Api.GW2Api} `{L : Locale.LocaleLib}.

(** The event loop cannot run forever on requests of the two
    handlers: every sequence of segments, in any interleaving, ends
    (the configuration is strongly normalising for [step]). *)
Theorem step_terminates (cfg : Config) :
  Forall handler_req (reqs cfg) → sn step cfg.
Proof. intros Hreqs. eapply bounded_sn, handlers_bounded, Hreqs. Qed.

(** C29: no interleaving runs more than four segments per request. *)
Theorem steps_bounded (n : nat) (cfg cfg' : Config) :
  Forall handler_req (reqs cfg) → nsteps step n cfg cfg' → n ≤ 4 * length (reqs cfg).
Proof.
  intros Hreqs Hn. rewrite Nat.mul_comm, <- sum_list_replicate. eapply nsteps_bounded; [exact Hn|].
  by apply handlers_bounded.
Qed.

(** The fair schedule that gives each request four turns in
    round-robin order answers every request. *)
Theorem round_robin_answers (cfg : Config) :
  Forall handler_req (reqs cfg) →
  Forall (λ c, answered c = true) (reqs (exec (round_robin 4 (length (reqs cfg))) cfg)).
Proof.
  intros Hreqs.
  destruct (exec_bounded (round_robin 4 (length (reqs cfg))) _ cfg (handlers_bounded cfg Hreqs))
    as (ns' & Hb & Hle).
  apply Forall_lookup_2. intros i c Hc. apply within_zero.
  destruct (Forall2_lookup_r _ _ _ _ _ Hb Hc) as (n & Hn & Hw).
  eapply within_mono; [exact Hw|]. specialize (Hle i).
  rewrite (list_lookup_total_correct _ _ _ Hn) in Hle.
  assert (i < length (reqs cfg)) as Hi.
  { apply lookup_lt_Some in Hc. by rewrite <- (length_exec (round_robin 4 (length (reqs cfg))) cfg). }
  rewrite turns_round_robin in Hle by done.
  pose proof (lookup_total_replicate_le i (length (reqs cfg)) 4). lia.
Qed.

End Properties.

(** ** Witnesses *)

Lemma race_start_handlers :
  Forall (handler_req (A:=demo_api_rich) (L:=Locale.demo_lib)) (reqs race_start).
Proof.
  apply Forall_cons; split; [left; by eexists _, _, _, _|].
  apply Forall_cons; split; [left; by eexists _, _, _, _|]. by apply Forall_nil.
Qed.

Lemma step_terminates_witness : sn step race_start.
Proof.
  apply (step_terminates (A:=demo_api_rich) (L:=Locale.demo_lib) race_start).
  apply race_start_handlers.
Defined.

Lemma steps_bounded_witness : 5 ≤ 4 * length (reqs race_start).
Proof.
  apply (steps_bounded (A:=demo_api_rich) (L:=Locale.demo_lib) 5 race_start
           (exec [0; 0; 1; 1; 0] race_start)).
  - apply race_start_handlers.
  - eapply nsteps_l; [apply (step_run _ _ 0); reflexivity|].
    eapply nsteps_l; [apply (step_run _ _ 0); vm_compute; reflexivity|].
    eapply nsteps_l; [apply (step_run _ _ 1); vm_compute; reflexivity|].
    eapply nsteps_l; [apply (step_run _ _ 1); vm_compute; reflexivity|].
    eapply nsteps_l; [apply (step_run _ _ 0); vm_compute; reflexivity|]. apply nsteps_O.
Defined.

Lemma round_robin_answers_witness :
  Forall (λ c, answered c = true) (reqs (exec (round_robin 4 2) race_start)).
Proof.
  apply (round_robin_answers (A:=demo_api_rich) (L:=Locale.demo_lib) race_start).
  apply race_start_handlers.
Defined.

End Liveness.
